(** * The Empathy Engine: emotion detection and voice modulation

    A shallow embedding of [src/emotion_detector.py], [src/voice_modulator.py]
    and [src/empathy_engine.py], of the constructors and of [set_voice], of
    [main] of [src/cli.py] and of the request handler of [src/app.py].

    Conventions of the embedding.
    - A Python [str] is a [string]; a character is its code point, and the
      model covers the code points below 256 (Latin-1).
    - A Python [float] is an IEEE binary64 number ([float], module
      [Binary64]): a decimal literal denotes the nearest one and every
      operation rounds.  What the sentiment scorer answers, what the speech
      engine reports, the modifiers handed to a backend and what a backend
      computes from them are such numbers.
    - A number that is only compared or rounded is the rational it is
      exactly ([Q]): the clock, the scores of the model and every score that
      comes out of [round(x, 2)], which stands for the binary64 number
      nearest to that decimal.
    - The tables of [VoiceModulator] hold the decimal literals of the
      source.  [scaled_modifiers] computes with them as exact rationals,
      which is the scaling law; [modifiers] computes with them in binary64,
      which is what [generate_speech] hands to a backend.  [Binary64Facts]
      relates the two.
    - A method that logs, reads the clock, touches the file system or calls a
      text-to-speech service is a computation in the monad [M]: it takes a
      [World] (clock and trace of events so far), returns a value or raises,
      and leaves a new world.  What the outside answers (the sentiment
      scorer, the HTTP endpoint, the file system) is read from an [Env].
    - The constructors and the command line run in a second monad [H], whose
      events add the environment, the network probe, the loading of the
      model and of the speech engine and the standard output to those of
      [M]; the web handler runs in a third, [W], which adds the global
      engine and [os.environ] as state. *)

From Stdlib Require Import ZArith QArith Qround Qabs Lia Lqa.
From Stdlib Require Import String Ascii List Bool.
From Stdlib Require Import Decimal DecimalString DecimalPos DecimalZ.
From Stdlib Require Import Floats.
Import ListNotations.

Local Open Scope string_scope.
Local Open Scope Z_scope.
Local Open Scope Q_scope.

(** A decimal literal in the scope of [float] denotes the nearest binary64
    number, as it does in Python ([Binary64Facts.literals]). *)
Set Warnings "-inexact-float".

(** ** Python primitives used by the sources *)

Module Py.

Definition code (c : ascii) : N := N_of_ascii c.

Definition in_range (lo hi : N) (c : ascii) : bool :=
  (N.leb lo (code c) && N.leb (code c) hi)%bool.

(** [str.isspace] on one character, which is also what the pattern [\s]
    matches on a [str]: TAB..CR, FS..US, space, NEL and NBSP. *)
Definition isspace (c : ascii) : bool :=
  (in_range 9 13 c || in_range 28 32 c
   || N.eqb (code c) 133 || N.eqb (code c) 160)%bool.

(** [str.isupper] on one character: A..Z and the capital letters of
    Latin-1 (the multiplication sign 215 is not a letter). *)
Definition isupper (c : ascii) : bool :=
  (in_range 65 90 c || in_range 192 214 c || in_range 216 222 c)%bool.

Definition lower_char (c : ascii) : ascii :=
  if isupper c then ascii_of_N (code c + 32) else c.

(** [s.lower()] *)
Fixpoint lower (s : string) : string :=
  match s with
  | EmptyString => EmptyString
  | String c s' => String (lower_char c) (lower s')
  end.

(** Number of characters of [s] that satisfy [p]:
    [sum(1 for c in s if p(c))]. *)
Fixpoint count (p : ascii -> bool) (s : string) : nat :=
  match s with
  | EmptyString => O
  | String c s' => if p c then S (count p s') else count p s'
  end.

Definition is_char (a : ascii) (c : ascii) : bool := Ascii.eqb a c.

(** [s.replace(old, EMPTY)] for a one-character [old]. *)
Fixpoint remove_char (a : ascii) (s : string) : string :=
  match s with
  | EmptyString => EmptyString
  | String c s' =>
      if is_char a c then remove_char a s' else String c (remove_char a s')
  end.

Definition is_empty (s : string) : bool :=
  match s with EmptyString => true | String _ _ => false end.

Fixpoint lstrip_by (p : ascii -> bool) (s : string) : string :=
  match s with
  | EmptyString => EmptyString
  | String c s' => if p c then lstrip_by p s' else s
  end.

Fixpoint rstrip_by (p : ascii -> bool) (s : string) : string :=
  match s with
  | EmptyString => EmptyString
  | String c s' =>
      let r := rstrip_by p s' in
      if (p c && is_empty r)%bool then EmptyString else String c r
  end.

(** [s.strip()] *)
Definition strip (s : string) : string :=
  rstrip_by isspace (lstrip_by isspace s).

(** [re.sub(r'\s+', ' ', s)]: every maximal run of white space becomes one
    space.  [in_run] tells that the previous character was white space. *)
Fixpoint sub_spaces (in_run : bool) (s : string) : string :=
  match s with
  | EmptyString => EmptyString
  | String c s' =>
      if isspace c
      then if in_run then sub_spaces true s'
           else String " "%char (sub_spaces true s')
      else String c (sub_spaces false s')
  end.

Definition re_sub_spaces (s : string) : string := sub_spaces false s.

(** The pattern [http\S+] matches at the head of [s]: the four letters and
    at least one more character that is not white space. *)
Definition url_at (s : string) : bool :=
  (prefix "http" s
   && match get 4 s with Some c => negb (isspace c) | None => false end)%bool.

(** [re.sub(r'http\S+', EMPTY, s)], scanning left to right.  [skip] counts
    the letters of a matched [http] still to drop, [in_url] tells that the
    scan is inside the greedy [\S+] of a match. *)
Fixpoint sub_url (skip : nat) (in_url : bool) (s : string) : string :=
  match s with
  | EmptyString => EmptyString
  | String c s' =>
      match skip with
      | S k => sub_url k in_url s'
      | O =>
          if (in_url && negb (isspace c))%bool then sub_url 0 true s'
          else if url_at s then sub_url 3 true s'
          else String c (sub_url 0 false s')
      end
  end.

Definition re_sub_url (s : string) : string := sub_url 0 false s.

(** [s.replace(old, new)] for a non-empty [old]: the occurrences from left
    to right, none overlapping another.  [skip] counts the characters of a
    replaced occurrence still to drop. *)
Fixpoint replace_from (old new : string) (skip : nat) (s : string) : string :=
  match s with
  | EmptyString => EmptyString
  | String c s' =>
      match skip with
      | S k => replace_from old new k s'
      | O =>
          if prefix old s
          then new ++ replace_from old new (String.length old - 1) s'
          else String c (replace_from old new 0 s')
      end
  end.

Definition replace (old new s : string) : string := replace_from old new 0 s.

(** Truth value of an optional string: [None] and the empty string are
    false. *)
Definition truthy (s : option string) : bool :=
  match s with Some s => negb (is_empty s) | None => false end.

(** [p[:p.rfind('/') + 1]] *)
Fixpoint upto_last_slash (p : string) : string :=
  match p with
  | EmptyString => EmptyString
  | String c p' =>
      let r := upto_last_slash p' in
      if (is_char "/" c || negb (is_empty r))%bool
      then String c r else EmptyString
  end.

(** [os.path.dirname] (posixpath). *)
Definition dirname (p : string) : string :=
  let head := upto_last_slash p in
  if (negb (is_empty head)
      && negb (Nat.eqb (count (is_char "/") head) (String.length head)))%bool
  then rstrip_by (is_char "/") head
  else head.

(** [os.path.join(d, name)] for a relative [name] and a directory [d] that
    does not end in a separator. *)
Definition path_join (d name : string) : string := d ++ "/" ++ name.

(** [int(x)] of a finite float, from the rational it is: truncation toward
    zero. *)
Definition int (x : Q) : Z := Z.quot (Qnum x) (Z.pos (Qden x)).

(** [round(x)]: the nearest integer, a tie going to the even one. *)
Definition round (x : Q) : Z :=
  let f := Qfloor x in
  match Qcompare (x - inject_Z f) (1 # 2) with
  | Lt => f
  | Gt => (f + 1)%Z
  | Eq => if Z.even f then f else (f + 1)%Z
  end.

(** [round(x, 2)] of a finite float, from the rational it is: the nearest
    hundredth, a tie going to the even one.  The result stands for the
    binary64 number nearest to that decimal. *)
Definition round2 (x : Q) : Q := Qmake (round (x * 100)) 100.

(** [str(n)] for an [int], as an f-string prints it. *)
Definition str (n : Z) : string := NilZero.string_of_int (Z.to_int n).

(** [x < y] and [x > y] of two numbers given by their exact values. *)
Definition ltb (x y : Q) : bool := negb (Qle_bool y x).
Definition gtb (x y : Q) : bool := ltb y x.

(** A [dict] with insertion order, as an association list: [d[k] = v]. *)
Fixpoint dict_set {V} (d : list (string * V)) (k : string) (v : V)
  : list (string * V) :=
  match d with
  | [] => [(k, v)]
  | (k', v') :: d' =>
      if String.eqb k' k then (k', v) :: d' else (k', v') :: dict_set d' k v
  end.

(** [d[k]], [None] standing for [KeyError]. *)
Fixpoint dict_index {V} (d : list (string * V)) (k : string) : option V :=
  match d with
  | [] => None
  | (k', v') :: d' => if String.eqb k' k then Some v' else dict_index d' k
  end.

(** [d.get(k, default)] *)
Fixpoint dict_get {V} (d : list (string * V)) (k : string) (default : V) : V :=
  match d with
  | [] => default
  | (k', v') :: d' => if String.eqb k' k then v' else dict_get d' k default
  end.

End Py.

(** ** Effects: the world and the monad *)

Inductive level := INFO | WARNING | ERROR.

(** The exceptions the model distinguishes (all are subclasses of
    [Exception]). *)
Inductive exn :=
| FileNotFoundError | OSError | AttributeError | KeyError | TypeError
| ConnectionError | RuntimeError | ValueError | OverflowError.

(** A Python number handed to the speech engine: an [int] or a [float]. *)
Inductive number :=
| PyInt (n : Z)
| PyFloat (x : float).

(** What a run leaves behind.  A [Log] carries the text of the message as it
    stands in the source, every interpolated [{...}] dropped: the trace
    tells that the line was logged and at which level, not the values it
    prints. *)
Inductive event :=
| Log (l : level) (msg : string)
| TextBlobCall (text : string)
| ClassifierCall (text : string)
| MakeDirs (path : string)
| HttpPost (url body : string) (stability : float)
| WriteFile (path : string)
| GttsSave (text : string) (slow : bool) (path : string)
| SetProperty (name : string) (value : number)
| SaveToFile (text path : string)
| MoveFile (src dst : string).

(** [now] is what [time.time()] returns, [trace] the events so far, the
    latest last.  The clock stands still during one call; two calls start
    from worlds whose clocks may differ. *)
Record World := { now : Q; trace : list event }.

Inductive outcome (A : Type) :=
| Ret (a : A)
| Raise (e : exn).
Arguments Ret {A} a.
Arguments Raise {A} e.

Definition M (A : Type) : Type := World -> outcome A * World.

Definition ret {A} (a : A) : M A := fun w => (Ret a, w).

Definition raise {A} (e : exn) : M A := fun w => (Raise e, w).

Definition bind {A B} (m : M A) (k : A -> M B) : M B :=
  fun w =>
    match m w with
    | (Ret a, w') => k a w'
    | (Raise e, w') => (Raise e, w')
    end.

(** [try: m  except Exception as e: handler(e)]; what [m] did before it
    raised stays done. *)
Definition try_except {A} (m : M A) (handler : exn -> M A) : M A :=
  fun w =>
    match m w with
    | (Ret a, w') => (Ret a, w')
    | (Raise e, w') => handler e w'
    end.

Declare Scope monad_scope.
Delimit Scope monad_scope with monad.
Notation "x <- m ;; k" := (bind m (fun x => k))
  (at level 61, m at next level, right associativity) : monad_scope.
Notation "m ;; k" := (bind m (fun _ => k))
  (at level 61, right associativity) : monad_scope.
Local Open Scope monad_scope.

Definition emit (e : event) : M unit :=
  fun w => (Ret tt, {| now := now w; trace := trace w ++ [e] |}).

Definition log (l : level) (msg : string) : M unit := emit (Log l msg).

(** [time.time()] *)
Definition time_time : M Q := fun w => (Ret (now w), w).

(** [emit e] and then succeed or raise [e'] as the outside decides. *)
Definition attempt (e : event) (ok : bool) (e' : exn) : M unit :=
  emit e ;; if ok then ret tt else raise e'.

(** ** Binary64 numbers

    Python's [float].  The operations are those of [PrimFloat], which round
    to the nearest, ties to even, as IEEE 754 and Python do. *)

Module Binary64.

(** [float(n)] of an [int] within the range of binary64 (as every [int]
    of the sources is): the nearest binary64 number, [n] itself below 2^53
    in magnitude. *)
Definition of_Z (z : Z) : float :=
  SF2Prim (binary_normalize prec emax z 0 false).

(** The binary64 number a decimal literal denotes: the quotient of two exact
    integers, rounded once to the nearest. *)
Definition of_Q (q : Q) : float :=
  PrimFloat.div (of_Z (Qnum q)) (of_Z (Zpos (Qden q))).

(** Neither an infinity nor a NaN. *)
Definition finite (x : float) : bool :=
  match Prim2SF x with
  | S754_zero _ | S754_finite _ _ _ => true
  | S754_infinity _ | S754_nan => false
  end.

(** The rational a finite binary64 number is. *)
Definition to_Q (x : float) : Q :=
  match Prim2SF x with
  | S754_finite s m e =>
      let v := inject_Z (Zpos m) * Qpower 2 e in
      if s then - v else v
  | _ => 0
  end.

(** [min(a, b)] of the interpreter: [b] when [b < a], else [a]. *)
Definition min (a b : float) : float :=
  if PrimFloat.ltb b a then b else a.

(** [round(x, 2)] of a finite [x]: its exact value rounded to the nearest
    hundredth, ties to even; the decimal stands for the binary64 number
    nearest to it. *)
Definition round2 (x : float) : Q := Py.round2 (to_Q x).

(** [int(x)]: the exact value cut toward zero; a NaN raises [ValueError] and
    an infinity [OverflowError]. *)
Definition int (x : float) : M Z :=
  match Prim2SF x with
  | S754_nan => raise ValueError
  | S754_infinity _ => raise OverflowError
  | _ => ret (Py.int (to_Q x))
  end.

(** The quotient [a / b] of two [int]s, [b] not zero: rounded once (below
    2^53 in magnitude the two are binary64 numbers themselves). *)
Definition true_div (a b : Z) : float :=
  PrimFloat.div (of_Z a) (of_Z b).

(** The closure [apply_intensity] of [generate_speech]. *)
Definition apply_intensity (intensity_factor base_mod : float) : float :=
  if PrimFloat.ltb 1.0 base_mod
  then (1.0 + (base_mod - 1.0) * intensity_factor)%float
  else if PrimFloat.ltb base_mod 1.0
       then (1.0 - (1.0 - base_mod) * intensity_factor)%float
       else base_mod.

End Binary64.

(** ** The environment *)

(** The answers of the outside world and the configuration fixed when the
    objects are built.  The answers are those the outside gives in the
    course of one run: what the file system answers for a path may depend
    on what the run did before, so an [Env] describes one run, and a
    statement about two runs in one [Env] is about two runs that get the
    same answers. *)
Record Env := {
  (** [TextBlob(text).sentiment]: polarity, which TextBlob keeps within
      [-1, 1], and subjectivity, within [0, 1]; both are numbers, neither
      NaN nor infinite. *)
  textblob : string -> float * float;
  textblob_finite :
    forall text,
      Binary64.finite (fst (textblob text)) = true
      /\ Binary64.finite (snd (textblob text)) = true;
  (** [EmotionDetector.use_advanced] after [__init__]. *)
  use_advanced : bool;
  (** [EmotionDetector.emotion_classifier]: [None] when no model was loaded;
      a loaded pipeline gives the scored labels of a text, or raises. *)
  emotion_classifier : option (string -> option (list (string * Q)));
  (** [VoiceModulator.engine_type] after [__init__]. *)
  engine_type : string;
  elevenlabs_voice_id : string;
  (** The directory [<package parent>/output] the backends write to. *)
  output_dir : string;
  (** pyttsx3's rate and volume when the engine was started (a rate that
      the driver gives as an [int] is the [float] it becomes in the
      product with the modifier). *)
  default_rate : float;
  default_volume : float;
  (** [os.makedirs(path, exist_ok=True)] succeeds on a non-empty [path]. *)
  makedirs_ok : string -> bool;
  (** [requests.post]: the status code of the response, or [None] when the
      call raises. *)
  http_post : string -> string -> float -> option Z;
  (** Opening and writing the response to a file succeeds. *)
  write_ok : string -> bool;
  (** [gTTS(text, lang, slow).save(path)] succeeds. *)
  gtts_ok : string -> bool -> string -> bool;
  (** [engine.save_to_file(text, path); engine.runAndWait()] succeeds. *)
  save_ok : string -> string -> bool;
  (** [os.path.exists(path)] after the pitched rendering. *)
  path_exists : string -> bool;
  (** [shutil.move(src, dst)] succeeds. *)
  move_ok : string -> string -> bool
}.

(** [os.makedirs(path, exist_ok=True)]: the empty path is refused with
    [FileNotFoundError] whatever the file system holds. *)
Definition makedirs (env : Env) (path : string) : M unit :=
  emit (MakeDirs path) ;;
  if Py.is_empty path then raise FileNotFoundError
  else if makedirs_ok env path then ret tt else raise OSError.

(** ** [src/emotion_detector.py] *)

Module EmotionDetector.

(** The dict [detect_emotion] returns.  ["emotion"] is [None] when the
    model scores no label above zero. *)
Record EmotionResult := {
  emotion : option string;
  score : Q;
  details : list (string * Q)
}.

(** The dict [analyze_with_intensity] returns, its keys ["emotion"],
    ["intensity"], ["score"] and ["details"] in this order. *)
Record IntensityResult := {
  label : option string;
  intensity : string;
  confidence : Q;
  indicators : list (string * Q)
}.

Definition _clean_text (text : string) : string :=
  (* Remove extra whitespace *)
  let text := Py.strip (Py.re_sub_spaces text) in
  (* Remove URLs *)
  let text := Py.re_sub_url text in
  text.

(** Lines 97-124 of [_basic_sentiment_analysis]: from the polarity and the
    subjectivity to the result. *)
Definition sentiment_result (polarity subjectivity : float) : EmotionResult :=
  let '(emotion, score) :=
    (if 0.3 <? polarity then ("happy", Binary64.min 1.0 (0.5 + polarity))
     else if polarity <? - 0.3
          then ("sad", Binary64.min 1.0 (0.5 - polarity))
     else if 0.1 <? polarity then ("positive", 0.5 + polarity)
     else if polarity <? - 0.1 then ("negative", 0.5 - polarity)
     else ("neutral", 1.0 - abs polarity))%float in
  (* Adjust score based on subjectivity *)
  let score := (score * (0.5 + subjectivity / 2))%float in
  {| emotion := Some emotion;
     score := Binary64.round2 score;
     details := [("polarity", Binary64.round2 polarity);
                 ("subjectivity", Binary64.round2 subjectivity)] |}.

(** The loop of [_advanced_emotion_analysis]: one step per scored label,
    on [(max_score, max_emotion, emotions)]. *)
Definition scan_step (st : Q * option string * list (string * Q))
           (result : string * Q) : Q * option string * list (string * Q) :=
  let '(max_score, max_emotion, emotions) := st in
  let '(emotion, score) := result in
  let emotions := Py.dict_set emotions emotion (Py.round2 score) in
  if Py.gtb score max_score then (score, Some emotion, emotions)
  else (max_score, max_emotion, emotions).

Definition scan (results : list (string * Q)) : EmotionResult :=
  let '(max_score, max_emotion, emotions) :=
    fold_left scan_step results (0, None, []) in
  {| emotion := max_emotion;
     score := Py.round2 max_score;
     details := emotions |}.

Section Detector.

Variable env : Env.

Definition _basic_sentiment_analysis (text : string) : M EmotionResult :=
  emit (TextBlobCall text) ;;
  let '(polarity, subjectivity) := textblob env text in
  ret (sentiment_result polarity subjectivity).

(** [self.emotion_classifier(text)[0]] *)
Definition classify (text : string) : M (list (string * Q)) :=
  emit (ClassifierCall text) ;;
  match emotion_classifier env with
  | Some model =>
      match model text with
      | Some results => ret results
      | None => raise RuntimeError
      end
  | None => raise TypeError
  end.

Definition _advanced_emotion_analysis (text : string) : M EmotionResult :=
  try_except
    (results <- classify text ;;
     ret (scan results))
    (fun _ =>
       log ERROR "Error in advanced emotion analysis: " ;;
       log WARNING "Falling back to basic sentiment analysis" ;;
       _basic_sentiment_analysis text).

Definition detect_emotion (text : string) : M EmotionResult :=
  if Py.is_empty text then
    ret {| emotion := Some "neutral"; score := 1.0; details := [] |}
  else
    (* Clean the text *)
    let cleaned_text := _clean_text text in
    (* Use advanced or basic analysis based on configuration *)
    result <-
      (if (use_advanced env
           && match emotion_classifier env with
              | Some _ => true | None => false end)%bool
       then _advanced_emotion_analysis cleaned_text
       else _basic_sentiment_analysis cleaned_text) ;;
    log INFO "Detected emotion:  (score: )" ;;
    ret result.

Definition analyze_with_intensity (text : string) : M IntensityResult :=
  result <- detect_emotion text ;;
  (* Calculate intensity based on score and other factors *)
  let emotion := emotion result in
  let score := score result in
  (* Determine intensity level (low, medium, high) *)
  let intensity :=
    if Py.ltb score 0.4 then "low"
    else if Py.ltb score 0.7 then "medium"
    else "high" in
  let exclamations := Py.count (Py.is_char "!") text in
  let questions := Py.count (Py.is_char "?") text in
  let capitals := Z.of_nat (Py.count Py.isupper text) in
  let characters :=
    Z.of_nat (Nat.max (String.length (Py.remove_char " " text)) 1) in
  (* the quotient as it is exactly: compared with 0.3, the binary64
     quotient of a text of fewer than 2^50 characters falls on the same
     side *)
  let caps_ratio := inject_Z capitals / inject_Z characters in
  (* Adjust intensity based on these indicators *)
  let intensity :=
    if (Nat.ltb 2 exclamations || Py.gtb caps_ratio 0.3)%bool then
      if negb (String.eqb intensity "high") then "high" else intensity
    else intensity in
  ret {| label := emotion;
         intensity := intensity;
         confidence := score;
         indicators :=
           Py.dict_set
             (Py.dict_set
                (Py.dict_set (details result)
                   "exclamations" (inject_Z (Z.of_nat exclamations)))
                "questions" (inject_Z (Z.of_nat questions)))
             "caps_ratio"
             (Binary64.round2 (Binary64.true_div capitals characters)) |}.

End Detector.

End EmotionDetector.

(** ** [src/voice_modulator.py] *)

Module VoiceModulator.

(** [self.emotion_mapping]: rate, pitch and volume modifier of a label. *)
Definition emotion_mapping : list (string * (Q * Q * Q)) :=
  [ ("happy", (1.2, 1.15, 1.1));
    ("excited", (1.3, 1.2, 1.15));
    ("sad", (0.9, 0.85, 0.9));
    ("angry", (1.1, 1.05, 1.2));
    ("fear", (1.15, 1.1, 0.95));
    ("neutral", (1.0, 1.0, 1.0));
    ("surprise", (1.15, 1.2, 1.15));
    ("positive", (1.1, 1.1, 1.05));
    ("negative", (0.95, 0.95, 0.95));
    ("concerned", (0.95, 0.95, 1.05)) ].

(** [self.intensity_mapping] *)
Definition intensity_mapping : list (string * Q) :=
  [ ("low", 0.5); ("medium", 1.0); ("high", 1.5) ].

(** The closure [apply_intensity] of [generate_speech], on the decimals of
    the tables as exact rationals. *)
Definition apply_intensity (intensity_factor base_mod : Q) : Q :=
  if Py.gtb base_mod 1.0 then 1.0 + (base_mod - 1.0) * intensity_factor
  else if Py.ltb base_mod 1.0 then 1.0 - (1.0 - base_mod) * intensity_factor
  else base_mod.

(** Lines 309-331 of [generate_speech] in exact arithmetic: the three
    modifiers of a label and a tier; [None] stands for the [KeyError] of a
    table without a ["neutral"] row. *)
Definition scaled_modifiers (emotion intensity : string) : option (Q * Q * Q) :=
  match Py.dict_index emotion_mapping "neutral" with
  | None => None
  | Some neutral =>
      let modifiers := Py.dict_get emotion_mapping (Py.lower emotion) neutral in
      let intensity_factor :=
        Py.dict_get intensity_mapping (Py.lower intensity) 1.0 in
      let '(rate_mod, pitch_mod, volume_mod) := modifiers in
      Some (apply_intensity intensity_factor rate_mod,
            apply_intensity intensity_factor pitch_mod,
            apply_intensity intensity_factor volume_mod)
  end.

(** The tables as the interpreter holds them: every literal is the nearest
    binary64 number. *)
Definition binary64_row (row : Q * Q * Q) : float * float * float :=
  let '(rate_mod, pitch_mod, volume_mod) := row in
  (Binary64.of_Q rate_mod, Binary64.of_Q pitch_mod, Binary64.of_Q volume_mod).

Definition binary64_emotion_mapping : list (string * (float * float * float)) :=
  map (fun '(emotion, row) => (emotion, binary64_row row)) emotion_mapping.

Definition binary64_intensity_mapping : list (string * float) :=
  map (fun '(intensity, factor) => (intensity, Binary64.of_Q factor))
      intensity_mapping.

(** Lines 309-331 of [generate_speech] as they run, in binary64: the three
    modifiers handed to the backend. *)
Definition modifiers (emotion intensity : string)
  : option (float * float * float) :=
  match Py.dict_index binary64_emotion_mapping "neutral" with
  | None => None
  | Some neutral =>
      let modifiers :=
        Py.dict_get binary64_emotion_mapping (Py.lower emotion) neutral in
      let intensity_factor :=
        Py.dict_get binary64_intensity_mapping (Py.lower intensity) 1.0%float in
      let '(rate_mod, pitch_mod, volume_mod) := modifiers in
      Some (Binary64.apply_intensity intensity_factor rate_mod,
            Binary64.apply_intensity intensity_factor pitch_mod,
            Binary64.apply_intensity intensity_factor volume_mod)
  end.

Definition newline : string := String (ascii_of_nat 10) EmptyString.
Definition dquote : string := String (ascii_of_nat 34) EmptyString.

Fixpoint spaces (n : nat) : string :=
  match n with O => EmptyString | S k => String " "%char (spaces k) end.

(** [int((modifier - 1) * 100)]: the difference and the product are
    rounded, the result is cut toward zero. *)
Definition percent (modifier : float) : M Z :=
  Binary64.int ((modifier - 1) * 100)%float.

(** The f-string [ssml_text] of [_apply_elevenlabs_modulation] around the
    three percentages. *)
Definition ssml_markup (text : string) (rate pitch volume : Z) : string :=
  newline ++ spaces 12 ++ "<speak>" ++
  newline ++ spaces 16 ++
    "<prosody rate=" ++ dquote ++ Py.str rate ++ "%"
    ++ dquote ++
    " pitch=" ++ dquote ++ Py.str pitch ++ "%" ++ dquote ++
    " volume=" ++ dquote ++ Py.str volume ++ "%" ++ dquote ++
    ">" ++
  newline ++ spaces 20 ++ text ++
  newline ++ spaces 16 ++ "</prosody>" ++
  newline ++ spaces 12 ++ "</speak>" ++
  newline ++ spaces 12.

(** The f-string evaluated: the three conversions in turn, any of which may
    raise. *)
Definition ssml_text (text : string) (rate_modifier pitch_modifier
                                       volume_modifier : float) : M string :=
  rate <- percent rate_modifier ;;
  pitch <- percent pitch_modifier ;;
  volume <- percent volume_modifier ;;
  ret (ssml_markup text rate pitch volume).

(** The endpoint [url] of [_apply_elevenlabs_modulation]. *)
Definition elevenlabs_url (env : Env) : string :=
  "https://api.elevenlabs.io/v1/text-to-speech/" ++ elevenlabs_voice_id env.

(** The [stability] setting of [_apply_elevenlabs_modulation]: lower for
    fast speech, higher for slow speech. *)
Definition elevenlabs_stability (rate_modifier : float) : float :=
  (if 1.1 <? rate_modifier then 0.3
   else if rate_modifier <? 0.9 then 0.7
   else 0.5)%float.

(** [f"speech_{int(time.time())}<ext>"] under the output directory. *)
Definition speech_file (env : Env) (t : Q) (ext : string) : string :=
  Py.path_join (output_dir env) ("speech_" ++ Py.str (Py.int t) ++ ext).

Section Modulator.

Variable env : Env.

(** [self.engine.setProperty(name, value)] *)
Definition set_property (name : string) (value : number) : M unit :=
  emit (SetProperty name value).

Definition save_to_file (text path : string) : M unit :=
  attempt (SaveToFile text path) (save_ok env text path) RuntimeError.

Definition _apply_pyttsx3_modulation (text : string)
           (rate_modifier pitch_modifier volume_modifier : float)
  : M (option string) :=
  try_except
    ((* Calculate new parameters *)
     new_rate <- Binary64.int (default_rate env * rate_modifier)%float ;;
     let new_volume :=
       Binary64.min 1.0 (default_volume env * volume_modifier)%float in
     set_property "rate" (PyInt new_rate) ;;
     set_property "volume" (PyFloat new_volume) ;;
     (* Create output filename based on timestamp *)
     t <- time_time ;;
     let output_file := speech_file env t ".wav" in
     makedirs env (Py.dirname output_file) ;;
     log INFO "Creating audio file at: " ;;
     save_to_file text output_file ;;
     (if negb (pitch_modifier =? 1.0)%float then
        pitch_adjusted_rate <-
          Binary64.int (Binary64.of_Z new_rate
                        * (pitch_modifier * 0.5 + 0.5))%float ;;
        set_property "rate" (PyInt pitch_adjusted_rate) ;;
        let pitch_output_file := Py.replace ".wav" "_pitched.wav" output_file in
        save_to_file text pitch_output_file ;;
        if path_exists env pitch_output_file
        then attempt (MoveFile pitch_output_file output_file)
                     (move_ok env pitch_output_file output_file) OSError
        else ret tt
      else ret tt) ;;
     log INFO "Generated audio with rate=, volume=, adjusted pitch=" ;;
     ret (Some output_file))
    (fun _ =>
       log ERROR "Error in pyttsx3 modulation: " ;;
       ret None).

Definition _apply_gtts_modulation (text : string)
           (rate_modifier pitch_modifier volume_modifier : float)
  : M (option string) :=
  try_except
    ((* Create output filename based on timestamp with absolute path *)
     t <- time_time ;;
     let output_file := speech_file env t ".mp3" in
     makedirs env (Py.dirname output_file) ;;
     (* Generate the base audio *)
     let slow := (rate_modifier <? 0.9)%float in
     attempt (GttsSave text slow output_file)
             (gtts_ok env text slow output_file) RuntimeError ;;
     log INFO "Generated audio file: " ;;
     ret (Some output_file))
    (fun _ =>
       log ERROR "Error in gTTS modulation: " ;;
       ret None).

(** [requests.post(url, headers=headers, json=data)] and the status code
    of the response. *)
Definition post (url body : string) (stability : float) : M Z :=
  emit (HttpPost url body stability) ;;
  match http_post env url body stability with
  | Some status_code => ret status_code
  | None => raise ConnectionError
  end.

Definition _apply_elevenlabs_modulation (text : string)
           (rate_modifier pitch_modifier volume_modifier : float)
  : M (option string) :=
  try_except
    (t <- time_time ;;
     let output_file := speech_file env t ".mp3" in
     makedirs env (Py.dirname output_file) ;;
     let url := elevenlabs_url env in
     let stability := elevenlabs_stability rate_modifier in
     ssml_text <-
       ssml_text text rate_modifier pitch_modifier volume_modifier ;;
     status_code <- post url ssml_text stability ;;
     if Z.eqb status_code 200 then
       attempt (WriteFile output_file) (write_ok env output_file) OSError ;;
       log INFO "Generated audio file with ElevenLabs: " ;;
       ret (Some output_file)
     else
       log ERROR "Error from ElevenLabs API:  - " ;;
       log WARNING "Falling back to gTTS" ;;
       _apply_gtts_modulation text rate_modifier pitch_modifier
                              volume_modifier)
    (fun _ =>
       log ERROR "Error in ElevenLabs modulation: " ;;
       log WARNING "Falling back to gTTS" ;;
       _apply_gtts_modulation text rate_modifier pitch_modifier
                              volume_modifier).

(** [emotion] is what the caller passes for it: a label, or [None] when
    the analysis named none.  [output_file] is [None] when left out. *)
Definition generate_speech (text : string) (emotion : option string)
           (intensity : string) (output_file : option string)
  : M (option string) :=
  match emotion with
  | None => raise AttributeError
  | Some emotion =>
      match modifiers emotion intensity with
      | None => raise KeyError
      | Some (rate_mod, pitch_mod, volume_mod) =>
          log INFO "Generating speech for emotion: , intensity: " ;;
          log INFO "Modifiers: rate=, pitch=, volume=" ;;
          (* If output file is specified, use it *)
          match output_file with
          | Some path =>
              if negb (Py.is_empty path) then
                (* Make sure directory exists *)
                makedirs env (Py.dirname path) ;;
                log INFO "Using specified output file: "
              else ret tt
          | None => ret tt
          end ;;
          (* Apply modulation using the appropriate engine *)
          if String.eqb (engine_type env) "pyttsx3" then
            _apply_pyttsx3_modulation text rate_mod pitch_mod volume_mod
          else if String.eqb (engine_type env) "elevenlabs" then
            _apply_elevenlabs_modulation text rate_mod pitch_mod volume_mod
          else
            _apply_gtts_modulation text rate_mod pitch_mod volume_mod
      end
  end.

End Modulator.

End VoiceModulator.

(** ** [src/empathy_engine.py] *)

Module EmpathyEngine.

Import EmotionDetector VoiceModulator.

Section Engine.

Variable env : Env.

(** [process(text, output_file=None)]: the pair of the audio path and the
    result of the analysis. *)
Definition process (text : string) (output_file : option string)
  : M (option string * IntensityResult) :=
  log INFO "Processing text: '...' (truncated)" ;;
  (* Detect emotion and intensity *)
  emotion_result <- analyze_with_intensity env text ;;
  let emotion := label emotion_result in
  let intensity := intensity emotion_result in
  log INFO "Detected emotion: , intensity: " ;;
  (* Generate speech with appropriate modulation *)
  audio_file <- generate_speech env text emotion intensity output_file ;;
  (if Py.truthy audio_file
   then log INFO "Generated audio saved to: "
   else log ERROR "Failed to generate audio") ;;
  ret (audio_file, emotion_result).

End Engine.

End EmpathyEngine.

(** ** Sample environments

    A lexical detector (the scorer answers polarity 0.5 and subjectivity 0.6
    on every text), a speech engine chosen by name, a file system and
    services that accept everything, and an HTTP endpoint that answers every
    request with the given status. *)

Module Sample.

Definition env (engine : string) (status_code : Z) : Env :=
  {| textblob := fun _ => (0.5, 0.6)%float;
     textblob_finite := fun _ => conj eq_refl eq_refl;
     use_advanced := false;
     emotion_classifier := None;
     engine_type := engine;
     elevenlabs_voice_id := "21m00Tcm4TlvDq8ikWAM";
     output_dir := "/app/output";
     default_rate := 200%float;
     default_volume := 1.0%float;
     makedirs_ok := fun _ => true;
     http_post := fun _ _ _ => Some status_code;
     write_ok := fun _ => true;
     gtts_ok := fun _ _ _ => true;
     save_ok := fun _ _ => true;
     path_exists := fun _ => true;
     move_ok := fun _ _ => true |}.

(** The same with a loaded model that scores no label at all. *)
Definition silent_model_env : Env :=
  {| textblob := fun _ => (0.5, 0.6)%float;
     textblob_finite := fun _ => conj eq_refl eq_refl;
     use_advanced := true;
     emotion_classifier := Some (fun _ => Some []);
     engine_type := "gtts";
     elevenlabs_voice_id := "21m00Tcm4TlvDq8ikWAM";
     output_dir := "/app/output";
     default_rate := 200%float;
     default_volume := 1.0%float;
     makedirs_ok := fun _ => true;
     http_post := fun _ _ _ => Some 200%Z;
     write_ok := fun _ => true;
     gtts_ok := fun _ _ _ => true;
     save_ok := fun _ _ => true;
     path_exists := fun _ => true;
     move_ok := fun _ _ => true |}.

(** A world with an empty trace whose clock reads [t]. *)
Definition world (t : Q) : World := {| now := t; trace := [] |}.

End Sample.

(** ** Construction, voice selection and the command line

    [__init__] of the three classes, [set_voice] and [main] of [src/cli.py]
    reach further outside than the calls above: environment variables, the
    network probe, the loading of the model and of the speech engine, the
    standard output.  They run in a second monad [H] over a world that
    records these events next to the ones of [M]. *)

Module Host.

Import EmotionDetector VoiceModulator EmpathyEngine.

(** A voice of the pyttsx3 engine: [voice.id] and [voice.name], two
    strings. *)
Record Voice := { voice_id : string; voice_name : string }.

(** What [pyttsx3.init()] returns: the answers of [getProperty] for
    ['voices'], ['rate'] and ['volume'] ([None] when the call raises), and
    whether [setProperty('voice', id)] succeeds. *)
Record Speaker := {
  speaker_voices : option (list Voice);
  speaker_rate : option float;
  speaker_volume : option float;
  speaker_accepts : string -> bool
}.

(** The exceptions of this layer: those of the core, [IndexError] and
    [UnicodeEncodeError].  An exception of the core is read as one of this
    layer where one is expected. *)
Inductive hexn :=
| Core (e : exn)
| IndexError
| UnicodeEncodeError.

Coercion Core : exn >-> hexn.

(** [isinstance(e, OSError)], which is what [socket.error] and
    [socket.timeout] select. *)
Definition is_os_error (e : hexn) : bool :=
  match e with
  | Core FileNotFoundError | Core OSError | Core ConnectionError => true
  | _ => false
  end.

(** The lines [main] prints, by their text without the values. *)
Inductive line :=
| AudioGenerated | FileLine | EmotionLine | ScoreLine | DetailsHeader
| DetailLine (key : string)
| FailedLine | ErrorLine.

Inductive host_event :=
| Run (e : event)
| Connect (host : string) (port : Z)
| LoadPipeline
| Pyttsx3Init
| SetVoice (id : string)
| Print (l : line).

(** The answers of the outside world to the constructors and to [main].
    [outside] answers the calls of the core; its four configuration fields
    are replaced by what the constructors decide, see [env_of]. *)
Record Host := {
  outside : Env;
  (** [os.getenv(name)] *)
  getenv : string -> option string;
  (** [socket.create_connection(("huggingface.co", 443), timeout=3)]:
      [None] when the connection is made, the exception otherwise. *)
  connect_answer : option hexn;
  (** [pipeline("text-classification", ...)]: the model or the exception. *)
  pipeline_answer : hexn + (string -> option (list (string * Q)));
  (** [pyttsx3.init()], [None] when it raises. *)
  pyttsx3_answer : option Speaker;
  (** [os.path.abspath] *)
  abspath : string -> string;
  (** [print(line)]: [None] when the standard output takes the line, the
      exception otherwise ([UnicodeEncodeError] when its encoding has no
      code for a symbol of the line; all the lines of [main] but the header
      of the details and the details hold a symbol outside ASCII). *)
  stdout_answer : line -> option hexn
}.

Record HWorld := { clock : Q; happened : list host_event }.

Inductive houtcome (A : Type) :=
| HRet (a : A)
| HRaise (e : hexn).
Arguments HRet {A} a.
Arguments HRaise {A} e.

Definition H (A : Type) : Type := HWorld -> houtcome A * HWorld.

Definition hret {A} (a : A) : H A := fun hw => (HRet a, hw).

Definition hraise {A} (e : hexn) : H A := fun hw => (HRaise e, hw).

Definition hbind {A B} (m : H A) (k : A -> H B) : H B :=
  fun hw =>
    match m hw with
    | (HRet a, hw') => k a hw'
    | (HRaise e, hw') => (HRaise e, hw')
    end.

(** [try: m  except <selected>: handler]; an exception that is not selected
    goes on. *)
Definition htry {A} (m : H A) (selected : hexn -> bool) (handler : H A) : H A :=
  fun hw =>
    match m hw with
    | (HRet a, hw') => (HRet a, hw')
    | (HRaise e, hw') => if selected e then handler hw' else (HRaise e, hw')
    end.

(** [except Exception] *)
Definition any_exception (e : hexn) : bool := true.

Declare Scope host_scope.
Delimit Scope host_scope with host.
Notation "x <- m ;; k" := (hbind m (fun x => k))
  (at level 61, m at next level, right associativity) : host_scope.
Notation "m ;; k" := (hbind m (fun _ => k))
  (at level 61, right associativity) : host_scope.
Local Open Scope host_scope.

Definition happen (e : host_event) : H unit :=
  fun hw => (HRet tt, {| clock := clock hw; happened := happened hw ++ [e] |}).

Definition hlog (l : level) (msg : string) : H unit := happen (Run (Log l msg)).

(** [print(line)]: the line is recorded when the standard output took it. *)
Definition print (h : Host) (l : line) : H unit :=
  match stdout_answer h l with
  | None => happen (Print l)
  | Some e => hraise e
  end.

(** A computation of the core run from this world: its events are recorded
    in their order, its exception becomes one of this layer. *)
Definition lift {A} (m : M A) : H A :=
  fun hw =>
    let '(o, w) := m {| now := clock hw; trace := [] |} in
    (match o with Ret a => HRet a | Raise e => HRaise (Core e) end,
     {| clock := now w; happened := happened hw ++ map Run (trace w) |}).

(** *** [EmotionDetector.__init__] *)

(** The two attributes of the detector. *)
Record Detector := {
  detector_use_advanced : bool;
  detector_classifier : option (string -> option (list (string * Q)))
}.

Definition connect (h : Host) : H unit :=
  happen (Connect "huggingface.co" 443) ;;
  match connect_answer h with
  | None => hret tt
  | Some e => hraise e
  end.

Definition load_pipeline (h : Host)
  : H (string -> option (list (string * Q))) :=
  happen LoadPipeline ;;
  match pipeline_answer h with
  | inr model => hret model
  | inl e => hraise e
  end.

Definition detector_init (h : Host) (use_advanced : bool) : H Detector :=
  (* Only load the transformer model if advanced detection is requested *)
  if use_advanced then
    htry
      (hlog INFO "Loading emotion classification model..." ;;
       htry
         ((* Check if internet connection is available *)
          connect h ;;
          model <- load_pipeline h ;;
          hlog INFO "Emotion classification model loaded successfully" ;;
          hret {| detector_use_advanced := true;
                  detector_classifier := Some model |})
         is_os_error
         (hlog ERROR
               "No internet connection available for downloading the model." ;;
          hlog WARNING "Falling back to basic sentiment analysis" ;;
          hret {| detector_use_advanced := false;
                  detector_classifier := None |}))
      any_exception
      (hlog ERROR "Error loading transformer model: " ;;
       hlog WARNING "Falling back to basic sentiment analysis" ;;
       hret {| detector_use_advanced := false;
               detector_classifier := None |})
  else
    hret {| detector_use_advanced := false; detector_classifier := None |}.

(** *** [VoiceModulator.__init__] *)

(** The attributes of the modulator the methods read.  [modulator_engine]
    is [self.engine], set once [pyttsx3.init()] has returned;
    [modulator_defaults] holds [default_rate] and [default_volume] of an
    engine of type pyttsx3, the only one whose backend reads them. *)
Record Modulator := {
  modulator_engine_type : string;
  modulator_api_key : option string;
  modulator_voice_id : string;
  modulator_engine : option Speaker;
  modulator_defaults : option (float * float)
}.

Definition pyttsx3_init (h : Host) : H Speaker :=
  happen Pyttsx3Init ;;
  match pyttsx3_answer h with
  | Some engine => hret engine
  | None => hraise (Core RuntimeError)
  end.

(** [engine.getProperty(name)], from its answer. *)
Definition get_property {A} (answer : option A) : H A :=
  match answer with
  | Some value => hret value
  | None => hraise (Core RuntimeError)
  end.

(** [engine.setProperty('voice', id)] *)
Definition set_voice_property (engine : Speaker) (id : string) : H unit :=
  happen (SetVoice id) ;;
  if speaker_accepts engine id then hret tt else hraise (Core RuntimeError).

Definition modulator_init (h : Host) (engine_type : string) : H Modulator :=
  let elevenlabs_api_key := getenv h "ELEVENLABS_API_KEY" in
  let elevenlabs_voice_id :=
    match getenv h "ELEVENLABS_VOICE_ID" with
    | Some id => id
    | None => "21m00Tcm4TlvDq8ikWAM"
    end in
  if (String.eqb engine_type "elevenlabs"
      && negb (Py.truthy elevenlabs_api_key))%bool then
    hlog WARNING "ElevenLabs API key not found in environment variables." ;;
    hraise ValueError
  else if String.eqb engine_type "pyttsx3" then
    htry
      (engine <- pyttsx3_init h ;;
       (* Get available voices *)
       voices <- get_property (speaker_voices engine) ;;
       match voices with
       | voice :: _ =>
           (* Set default voice (usually index 0 is male, 1 is female) *)
           set_voice_property engine (voice_id voice)
       | [] => hret tt
       end ;;
       (* Get default properties *)
       default_rate <- get_property (speaker_rate engine) ;;
       default_volume <- get_property (speaker_volume engine) ;;
       hlog INFO "Initialized pyttsx3 engine. Default rate: , volume: " ;;
       hret {| modulator_engine_type := engine_type;
               modulator_api_key := elevenlabs_api_key;
               modulator_voice_id := elevenlabs_voice_id;
               modulator_engine := Some engine;
               modulator_defaults := Some (default_rate, default_volume) |})
      any_exception
      (hlog ERROR "Error initializing pyttsx3: " ;;
       hlog WARNING "Falling back to gTTS" ;;
       hret {| modulator_engine_type := "gtts";
               modulator_api_key := elevenlabs_api_key;
               modulator_voice_id := elevenlabs_voice_id;
               modulator_engine := pyttsx3_answer h;
               modulator_defaults := None |})
  else
    hret {| modulator_engine_type := engine_type;
            modulator_api_key := elevenlabs_api_key;
            modulator_voice_id := elevenlabs_voice_id;
            modulator_engine := None;
            modulator_defaults := None |}.

(** *** [VoiceModulator.set_voice] *)

(** [sub in s] on strings. *)
Fixpoint str_in (sub s : string) : bool :=
  match s with
  | EmptyString => Py.is_empty sub
  | String _ s' => (prefix sub s || str_in sub s')%bool
  end.

(** The test of the loop over the voices on one name. *)
Definition female_name (name : string) : bool :=
  let voice_name := Py.lower name in
  (str_in "zira" voice_name || str_in "female" voice_name
   || str_in "woman" voice_name)%bool.

(** The loop that looks for a female voice: the index of the first voice
    whose name passes the test, from [idx] on; -1 when there is none. *)
Fixpoint find_female (idx : nat) (voices : list Voice) : Z :=
  match voices with
  | [] => (-1)%Z
  | voice :: rest =>
      if female_name (voice_name voice) then Z.of_nat idx
      else find_female (S idx) rest
  end.

(** The index [set_voice] settles on, safety check included. *)
Definition voice_index (gender : string) (voices : list Voice) : nat :=
  let voice_idx :=
    if String.eqb (Py.lower gender) "male" then
      (* Always select the first voice (index 0) for male *)
      0%nat
    else if Nat.ltb 1 (List.length voices) then
      let female_idx := find_female 0 voices in
      if Z.leb 0 female_idx then Z.to_nat female_idx else 1%nat
    else
      (* Only one voice available, use it regardless *)
      0%nat in
  (* Safety check - make sure index is valid *)
  if Nat.leb (List.length voices) voice_idx then 0%nat else voice_idx.

(** [not voices] *)
Definition no_voices (voices : list Voice) : bool :=
  match voices with [] => true | _ :: _ => false end.

(** The loop that logs the voices. *)
Fixpoint log_voices (voices : list Voice) : H unit :=
  match voices with
  | [] => hret tt
  | _ :: rest => hlog INFO "Voice :  - " ;; log_voices rest
  end.

Definition set_voice (m : Modulator) (gender : string) : H bool :=
  if negb (String.eqb (modulator_engine_type m) "pyttsx3") then
    hlog WARNING "Voice selection only supported with pyttsx3 engine" ;;
    hret false
  else
    htry
      (engine <- match modulator_engine m with
                 | Some engine => hret engine
                 | None => hraise (Core AttributeError)
                 end ;;
       voices <- get_property (speaker_voices engine) ;;
       if no_voices voices then
         hlog WARNING "No voices available" ;;
         hret false
       else
         (* Log available voices to debug *)
         hlog INFO "Available voices: " ;;
         log_voices voices ;;
         let voice_idx := voice_index gender voices in
         hlog INFO "Selected voice index  for gender " ;;
         voice <- match nth_error voices voice_idx with
                  | Some voice => hret voice
                  | None => hraise IndexError
                  end ;;
         set_voice_property engine (voice_id voice) ;;
         hlog INFO "Set voice to  using voice ID: " ;;
         hret true)
      any_exception
      (hlog ERROR "Error setting voice: " ;;
       hret false).

(** *** [EmpathyEngine] *)

Record Engine := { detector : Detector; modulator : Modulator }.

Definition engine_init (h : Host) (use_advanced_emotion : bool)
           (tts_engine : string) : H Engine :=
  hlog INFO "Initializing Empathy Engine (advanced_emotion=, tts_engine=)" ;;
  emotion_detector <- detector_init h use_advanced_emotion ;;
  voice_modulator <- modulator_init h tts_engine ;;
  hret {| detector := emotion_detector; modulator := voice_modulator |}.

(** The environment the methods of a constructed engine run in: the answers
    of the outside and the configuration the constructors left. *)
Definition env_of (h : Host) (engine : Engine) : Env :=
  {| textblob := textblob (outside h);
     textblob_finite := textblob_finite (outside h);
     use_advanced := detector_use_advanced (detector engine);
     emotion_classifier := detector_classifier (detector engine);
     engine_type := modulator_engine_type (modulator engine);
     elevenlabs_voice_id := modulator_voice_id (modulator engine);
     output_dir := output_dir (outside h);
     default_rate :=
       match modulator_defaults (modulator engine) with
       | Some (rate, _) => rate
       | None => default_rate (outside h)
       end;
     default_volume :=
       match modulator_defaults (modulator engine) with
       | Some (_, volume) => volume
       | None => default_volume (outside h)
       end;
     makedirs_ok := makedirs_ok (outside h);
     http_post := http_post (outside h);
     write_ok := write_ok (outside h);
     gtts_ok := gtts_ok (outside h);
     save_ok := save_ok (outside h);
     path_exists := path_exists (outside h);
     move_ok := move_ok (outside h) |}.

(** [EmpathyEngine.process] *)
Definition engine_process (h : Host) (engine : Engine) (text : string)
           (output_file : option string)
  : H (option string * IntensityResult) :=
  lift (process (env_of h engine) text output_file).

(** [EmpathyEngine.set_voice] *)
Definition engine_set_voice (engine : Engine) (gender : string) : H bool :=
  set_voice (modulator engine) gender.

(** *** [main] of [src/cli.py] *)

(** The arguments as [parser.parse_args()] returns them. *)
Record Args := {
  args_text : string;
  args_output : option string;
  args_engine : string;
  args_voice : string;
  args_basic_emotions : bool;
  args_verbose : bool
}.

Fixpoint print_details (h : Host) (details : list (string * Q)) : H unit :=
  match details with
  | [] => hret tt
  | (key, _) :: rest => print h (DetailLine key) ;; print_details h rest
  end.

(** Lines 76-124 of [main]: from the parsed arguments to the exit code.
    The level of the root logger, which [--verbose] sets, changes none of
    the calls recorded here; the handler of [KeyboardInterrupt] answers an
    interruption from the keyboard, which is no event of this model. *)
Definition main (h : Host) (args : Args) : H Z :=
  (* Create output directory if it doesn't exist *)
  match args_output args with
  | Some output =>
      if negb (Py.is_empty output)
      then lift (makedirs (outside h) (Py.dirname (abspath h output)))
      else hret tt
  | None => hret tt
  end ;;
  htry
    ((* Initialize the engine *)
     engine <- engine_init h (negb (args_basic_emotions args))
                           (args_engine args) ;;
     (* Set voice *)
     engine_set_voice engine (args_voice args) ;;
     (* Process the text *)
     result <- engine_process h engine (args_text args) (args_output args) ;;
     let '(audio_file, emotion_result) := result in
     if Py.truthy audio_file then
       print h AudioGenerated ;;
       print h FileLine ;;
       print h EmotionLine ;;
       print h ScoreLine ;;
       print h DetailsHeader ;;
       print_details h (indicators emotion_result) ;;
       hret 0%Z
     else
       print h FailedLine ;;
       hret 1%Z)
    any_exception
    (hlog ERROR "Error in CLI: " ;;
     print h ErrorLine ;;
     hret 1%Z).

End Host.

(** ** The web interface: [src/app.py]

    The handler of [/api/process] and the initialisation of the engine it
    shares with the other requests.  The module keeps one engine in a global
    variable and writes the API key of a request into [os.environ]; both
    are state of a third monad [W], next to the world of [H]. *)

Module Web.

Import EmotionDetector VoiceModulator EmpathyEngine Host.

(** [os.environ[name] = value] *)
Definition setenv (h : Host) (name value : string) : Host :=
  {| outside := outside h;
     getenv := fun n => if String.eqb n name then Some value else getenv h n;
     connect_answer := connect_answer h;
     pipeline_answer := pipeline_answer h;
     pyttsx3_answer := pyttsx3_answer h;
     abspath := abspath h;
     stdout_answer := stdout_answer h |}.

(** [p[p.rfind('/') + 1:]], which is [os.path.basename] (posixpath). *)
Fixpoint basename (p : string) : string :=
  match p with
  | EmptyString => EmptyString
  | String c p' =>
      if Nat.eqb (Py.count (Py.is_char "/") p') 0
      then if Py.is_char "/" c then p' else p
      else basename p'
  end.

(** The fields of [request.form] the handler reads, [None] for a field that
    is missing. *)
Record Form := {
  form_text : option string;
  form_voice : option string;
  form_engine : option string;
  form_api_key : option string
}.

(** [request.form.get(name, default)] *)
Definition form_get (field : option string) (default : string) : string :=
  match field with Some value => value | None => default end.

(** The text of an error: a literal of the source, or [str(e)] of an
    exception. *)
Inductive message :=
| Text (s : string)
| StrOf (e : hexn).

(** What [jsonify] is given. *)
Inductive payload :=
| Failure (error : message)
| Success (audioUrl : string) (emotion : option string) (intensity : string)
          (score : Q) (details : list (string * Q)) (engine : string)
          (advanced_used : bool) (file_path : string).

(** A response and its status code (200 when the handler names none). *)
Record Response := { json : payload; status : Z }.

(** The global [engine], the outside with [os.environ] as it stands, and
    the world of [H]. *)
Record Server := {
  engine_var : option Engine;
  host : Host;
  hworld : HWorld
}.

Definition W (A : Type) : Type := Server -> houtcome A * Server.

Definition wret {A} (a : A) : W A := fun s => (HRet a, s).

Definition wraise {A} (e : hexn) : W A := fun s => (HRaise e, s).

Definition wbind {A B} (m : W A) (k : A -> W B) : W B :=
  fun s =>
    match m s with
    | (HRet a, s') => k a s'
    | (HRaise e, s') => (HRaise e, s')
    end.

(** [try: m  except ... as e: handler(e)], the clauses of the source being
    the cases of [handler]; what [m] did before it raised stays done. *)
Definition wtry {A} (m : W A) (handler : hexn -> W A) : W A :=
  fun s =>
    match m s with
    | (HRet a, s') => (HRet a, s')
    | (HRaise e, s') => handler e s'
    end.

Declare Scope web_scope.
Delimit Scope web_scope with web.
Notation "x <- m ;; k" := (wbind m (fun x => k))
  (at level 61, m at next level, right associativity) : web_scope.
Notation "m ;; k" := (wbind m (fun _ => k))
  (at level 61, right associativity) : web_scope.
Local Open Scope web_scope.

(** A computation of [H] run in the outside as it stands. *)
Definition run {A} (m : Host -> H A) : W A :=
  fun s =>
    let '(o, hw) := m (host s) (hworld s) in
    (o, {| engine_var := engine_var s; host := host s; hworld := hw |}).

Definition wlog (l : level) (msg : string) : W unit :=
  run (fun _ => hlog l msg).

(** Reading and writing the global [engine]. *)
Definition get_engine : W (option Engine) :=
  fun s => (HRet (engine_var s), s).

Definition set_engine (engine : Engine) : W unit :=
  fun s =>
    (HRet tt,
     {| engine_var := Some engine; host := host s; hworld := hworld s |}).

(** [os.environ[name] = value] *)
Definition set_environ (name value : string) : W unit :=
  fun s =>
    (HRet tt,
     {| engine_var := engine_var s;
        host := setenv (host s) name value;
        hworld := hworld s |}).

(** [time.time()] *)
Definition wtime : W Q := fun s => (HRet (clock (hworld s)), s).

(** The outside as it stands, for the calls that only ask. *)
Definition get_host : W Host := fun s => (HRet (host s), s).

(** [EmpathyEngine(use_advanced_emotion, tts_engine)] assigned to the
    global. *)
Definition new_engine (use_advanced_emotion : bool) (tts_engine : string)
  : W unit :=
  engine <- run (fun h => engine_init h use_advanced_emotion tts_engine) ;;
  set_engine engine.

(** A method called on the global [engine]. *)
Definition with_engine {A} (method : Host -> Engine -> H A) : W A :=
  engine <- get_engine ;;
  match engine with
  | Some engine => run (fun h => method h engine)
  | None => wraise (Core AttributeError)
  end.

Definition initialize_engine (use_advanced : bool) : W unit :=
  engine <- get_engine ;;
  match engine with
  | None =>
      wtry
        (wlog INFO "Initializing Empathy Engine (use_advanced=)" ;;
         new_engine use_advanced "pyttsx3" ;;
         wlog INFO "Empathy Engine initialized for web interface")
        (fun _ =>
           wlog ERROR "Error initializing engine: " ;;
           (* Create with basic sentiment analysis as fallback *)
           if use_advanced then
             wlog WARNING "Falling back to basic sentiment analysis" ;;
             new_engine false "pyttsx3"
           else wret tt)
  | Some _ => wret tt
  end.

Definition ensure_engine_initialized : W unit :=
  engine <- get_engine ;;
  match engine with
  | None => initialize_engine false
  | Some _ => wret tt
  end.

(** The block that initialises the engine again, when needed.  It answers
    [Some response] where the source returns from inside it. *)
Definition reinitialize (tts_engine api_key : string) (use_advanced : bool)
  : W (option Response) :=
  wtry
    ((* Set environment variable for API key if provided *)
     (if (String.eqb tts_engine "elevenlabs"
          && negb (Py.is_empty api_key))%bool then
        set_environ "ELEVENLABS_API_KEY" api_key ;;
        wlog INFO "Using provided ElevenLabs API key"
      else wret tt) ;;
     (* Try to initialize with requested settings *)
     new_engine use_advanced tts_engine ;;
     wret None)
    (fun e =>
       match e with
       | Core ValueError | UnicodeEncodeError =>
           (* [except ValueError], which selects its subclass
              [UnicodeEncodeError] too *)
           wlog ERROR "Value Error creating engine: " ;;
           (* If it's an API key error, return that to the user *)
           wret (Some {| json := Failure (StrOf e);
                         status := 400 |})
       | _ =>
           wlog ERROR "Error creating engine: " ;;
           (* Fall back to basic settings *)
           new_engine false "pyttsx3" ;;
           wret None
       end).

Definition process_text (form : Form) : W Response :=
  (* Get request data *)
  let text := form_get (form_text form) "" in
  let voice := form_get (form_voice form) "male" in
  let tts_engine := form_get (form_engine form) "pyttsx3" in
  let use_advanced := false in
  let api_key := form_get (form_api_key form) "" in
  if Py.is_empty text then
    wret {| json := Failure (Text "No text provided"); status := 400 |}
  (* Check if we need API key for ElevenLabs *)
  else if (String.eqb tts_engine "elevenlabs" && Py.is_empty api_key)%bool
  then
    wret {| json := Failure (Text "ElevenLabs API key is required");
            status := 400 |}
  else
    wtry
      ((* Check if we should reinitialize the engine *)
       engine <- get_engine ;;
       let needs_new_engine :=
         match engine with
         | None => true
         | Some engine =>
             negb (String.eqb (modulator_engine_type (modulator engine))
                              tts_engine)
         end in
       (* Initialize or reinitialize engine if needed *)
       returned <- (if needs_new_engine
                    then reinitialize tts_engine api_key use_advanced
                    else wret None) ;;
       match returned with
       | Some response => wret response
       | None =>
           (* Set voice *)
           with_engine (fun _ engine => engine_set_voice engine voice) ;;
           (* Generate unique filename with proper path joining *)
           now <- wtime ;;
           let timestamp := Py.int now in
           h <- get_host ;;
           let output_file :=
             Py.path_join (output_dir (outside h))
                          ("web_" ++ Py.str timestamp ++ ".wav") in
           (* Process text *)
           result <-
             wtry
               (with_engine (fun h engine =>
                               engine_process h engine text
                                              (Some output_file)))
               (fun processing_error =>
                  wlog ERROR "Error in processing: " ;;
                  (* Try again with basic emotion detection if advanced
                     fails *)
                  if use_advanced then
                    wlog INFO "Retrying with basic emotion detection" ;;
                    new_engine false tts_engine ;;
                    with_engine
                      (fun _ engine => engine_set_voice engine voice) ;;
                    with_engine (fun h engine =>
                                   engine_process h engine text
                                                  (Some output_file))
                  else wraise processing_error) ;;
           let '(audio_file, emotion_result) := result in
           h <- get_host ;;
           match audio_file with
           | Some file =>
               if (negb (Py.is_empty file)
                   && path_exists (outside h) file)%bool then
                 (* Get relative path for client *)
                 let audio_url := "/audio/" ++ basename file in
                 wlog INFO "Generated audio file: " ;;
                 wlog INFO "File exists: " ;;
                 wlog INFO "Sending audio URL to client: " ;;
                 engine <- get_engine ;;
                 match engine with
                 | Some engine =>
                     wret {| json :=
                               Success audio_url
                                       (label emotion_result)
                                       (intensity emotion_result)
                                       (confidence emotion_result)
                                       (indicators emotion_result)
                                       tts_engine
                                       (detector_use_advanced
                                          (detector engine))
                                       file;
                             status := 200 |}
                 | None => wraise (Core AttributeError)
                 end
               else
                 wret {| json := Failure (Text "Failed to generate audio file");
                         status := 500 |}
           | None =>
               wret {| json := Failure (Text "Failed to generate audio file");
                       status := 500 |}
           end
       end)
      (fun e =>
         wlog ERROR "Error processing request: " ;;
         wret {| json := Failure (StrOf e); status := 500 |}).

(** One request to [/api/process]: the [before_request] hook, then the
    handler. *)
Definition request (form : Form) : W Response :=
  ensure_engine_initialized ;;
  process_text form.

End Web.

(** * Specification

    The words of the specification as definitions, next to the code's. *)

Module Spec.

Import VoiceModulator.


(** Label by fixed thresholds on the polarity, the first that applies. *)
Definition polarity_label (polarity : float) : string :=
  (if 0.3 <? polarity then "happy"
   else if polarity <? - 0.3 then "sad"
   else if 0.1 <? polarity then "positive"
   else if polarity <? - 0.1 then "negative"
   else "neutral")%float.

Definition one_of (s : string) (l : list string) : bool :=
  existsb (String.eqb s) l.

(** Base score of a label. *)
Definition base_score (label : string) (polarity : float) : float :=
  (if one_of label ["happy"; "sad"]
   then Binary64.min 1.0 (0.5 + abs polarity)
   else if one_of label ["positive"; "negative"] then 0.5 + abs polarity
   else 1.0 - abs polarity)%float.

(** The white space of [s] is single spaces, none next to another;
    [after_space] tells that a space comes just before [s]. *)
Fixpoint loose (after_space : bool) (s : string) : bool :=
  match s with
  | EmptyString => true
  | String c s' =>
      if Py.isspace c
      then (Ascii.eqb c " " && negb after_space && loose true s')%bool
      else loose false s'
  end.

(** The same, and [s] does not end in a space ([after_space] at the end of
    [s] is false). *)
Fixpoint spaced (after_space : bool) (s : string) : bool :=
  match s with
  | EmptyString => negb after_space
  | String c s' =>
      if Py.isspace c
      then (Ascii.eqb c " " && negb after_space && spaced true s')%bool
      else spaced false s'
  end.

(** Single spaces between the words, none at either end. *)
Definition normalized (s : string) : bool :=
  (Py.is_empty s || spaced true s)%bool.

(** The specification's words: the tier of a score, the capitals ratio
    over the characters other than the space, and the escalation rule. *)
Definition base_tier (score : Q) : string :=
  if Qlt_le_dec score 0.4 then "low"
  else if Qlt_le_dec score 0.7 then "medium"
  else "high".

Definition exclamations (text : string) : nat :=
  Py.count (Py.is_char "!") text.

Definition non_space (text : string) : nat :=
  Py.count (fun c => negb (Py.is_char " " c)) text.

Definition caps_ratio (text : string) : Q :=
  match non_space text with
  | O => 0
  | S _ => inject_Z (Z.of_nat (Py.count Py.isupper text))
           / inject_Z (Z.of_nat (non_space text))
  end.

Definition escalates (text : string) : Prop :=
  (2 < exclamations text)%nat \/ 0.3 < caps_ratio text.

(** low < medium < high *)
Definition tier_rank (tier : string) : nat :=
  if String.eqb tier "low" then 0
  else if String.eqb tier "medium" then 1
  else 2.

(** Every answer of the model scores some label above zero. *)
Definition scores_positive (env : Env) : Prop :=
  forall model text results,
    emotion_classifier env = Some model ->
    model text = Some results ->
    exists label score, In (label, score) results /\ 0 < score.

(** [os.makedirs] accepts the directory of the file. *)
Definition dir_ok (env : Env) (file : string) : bool :=
  (negb (Py.is_empty (Py.dirname file))
   && makedirs_ok env (Py.dirname file))%bool.

(** Every step of the basic cloud backend goes through at clock [t]: the
    directory can be made and the rendering raises nothing. *)
Definition gtts_works (env : Env) (t : Q) (text : string) (rate : float)
  : bool :=
  let file := speech_file env t ".mp3" in
  (dir_ok env file && gtts_ok env text (rate <? 0.9)%float file)%bool.

(** Truncation toward zero, from floor and ceiling. *)
Definition truncate (x : Q) : Z :=
  if Qlt_le_dec x 0 then Qceiling x else Qfloor x.

(** The percentage of a modifier: [(modifier - 1) * 100] as binary64
    computes it, cut toward zero.  It exists when that product is finite. *)
Definition percentage (modifier : float) : Z :=
  truncate (Binary64.to_Q ((modifier - 1) * 100)%float).

Definition convertible (modifier : float) : bool :=
  Binary64.finite ((modifier - 1) * 100)%float.

(** The body of the request for three modifiers with percentages. *)
Definition request_body (text : string) (rate pitch volume : float) : string :=
  ssml_markup text (percentage rate) (percentage pitch) (percentage volume).

(** Every step of the premium cloud backend goes through at clock [t]: the
    directory can be made, the three modifiers have percentages, the
    service answers with status 200 and the answer can be written. *)
Definition premium_works (env : Env) (t : Q) (text : string)
           (rate pitch volume : float) : bool :=
  let file := speech_file env t ".mp3" in
  (dir_ok env file
   && (convertible rate && convertible pitch && convertible volume)
   && match http_post env (elevenlabs_url env)
                      (request_body text rate pitch volume)
                      (elevenlabs_stability rate) with
      | Some status_code => Z.eqb status_code 200 && write_ok env file
      | None => false
      end)%bool.

(** The rate the local backend sets first, and the one it sets for a pitch
    other than 1: the products in binary64, cut toward zero. *)
Definition new_rate (env : Env) (rate : float) : Z :=
  truncate (Binary64.to_Q (default_rate env * rate)%float).

Definition pitch_adjusted (env : Env) (rate pitch : float) : float :=
  (Binary64.of_Z (new_rate env rate) * (pitch * 0.5 + 0.5))%float.

(** Every step of the local backend goes through at clock [t]: the product
    of the default rate and the modifier is finite, the directory can be
    made, the rendering raises nothing and, for a pitch other than 1, the
    adjusted rate is finite and neither the second rendering nor the move
    of its file over the first raises. *)
Definition pyttsx3_works (env : Env) (t : Q) (text : string)
           (rate pitch : float) : bool :=
  let file := speech_file env t ".wav" in
  let pitched := Py.replace ".wav" "_pitched.wav" file in
  (Binary64.finite (default_rate env * rate)%float
   && dir_ok env file && save_ok env text file
   && ((pitch =? 1.0)%float
       || Binary64.finite (pitch_adjusted env rate pitch)
          && save_ok env text pitched
          && (negb (path_exists env pitched)
              || move_ok env pitched file)))%bool.

Definition artifact (works : bool) (file : string) : option string :=
  if works then Some file else None.

(** The premium backend fails at clock [t]: one of its steps raises (the
    directory, the conversion of a modifier to its percentage, the request,
    the writing of the answer) or the service answers with a status other
    than 200. *)
Definition premium_fails (env : Env) (t : Q) (text : string)
           (rate pitch volume : float) : Prop :=
  let file := speech_file env t ".mp3" in
  let answer :=
    http_post env (elevenlabs_url env) (request_body text rate pitch volume)
              (elevenlabs_stability rate) in
  dir_ok env file = false
  \/ (convertible rate && convertible pitch && convertible volume)%bool = false
  \/ answer = None
  \/ (exists status_code, answer = Some status_code /\ status_code <> 200%Z)
  \/ write_ok env file = false.

Definition is_gtts_save (e : event) : bool :=
  match e with GttsSave _ _ _ => true | _ => false end.

(** The opening tag of the prosody element for three percentages. *)
Definition prosody_tag (rate pitch volume : Z) : string :=
  "<prosody rate=" ++ dquote ++ Py.str rate ++ "%" ++ dquote ++
  " pitch=" ++ dquote ++ Py.str pitch ++ "%" ++ dquote ++
  " volume=" ++ dquote ++ Py.str volume ++ "%" ++ dquote ++ ">".

Definition contains (part s : string) : Prop :=
  exists before after, s = before ++ part ++ after.

(** The extension of the files the configured engine writes. *)
Definition engine_ext (env : Env) : string :=
  if String.eqb (engine_type env) "pyttsx3" then ".wav" else ".mp3".

(** Every step of the configured backend goes through at clock [t]; for the
    premium backend, of it or else of the basic one it falls back to.  This
    is when [generate_speech] returns a path: the backend returns [None]
    when a step raises, whatever was written before. *)
Definition backend_works (env : Env) (t : Q) (text : string)
           (rate pitch volume : float) : bool :=
  if String.eqb (engine_type env) "pyttsx3" then
    pyttsx3_works env t text rate pitch
  else if String.eqb (engine_type env) "elevenlabs" then
    (premium_works env t text rate pitch volume
     || gtts_works env t text rate)%bool
  else gtts_works env t text rate.

(** No directory has to be made for the output file, or it can be made. *)
Definition creatable (env : Env) (output_file : option string) : bool :=
  match output_file with
  | Some path => (Py.is_empty path || dir_ok env path)%bool
  | None => true
  end.

(** What [generate_speech] does with its [output_file]. *)
Definition directory_events (output_file : option string) : list event :=
  match output_file with
  | Some path =>
      if Py.is_empty path then []
      else [MakeDirs (Py.dirname path);
            Log INFO "Using specified output file: "]
  | None => []
  end.

End Spec.

(** ** The prosody table in the two arithmetics

    What the exact reading of the tables leaves out of the binary64
    computation. *)

Module Binary64Table.

(** Every factor of the intensity table with every base modifier of the
    emotion table. *)
Definition cases : list (Q * Q) :=
  flat_map (fun '(_, (r, p, v)) =>
              flat_map (fun '(_, f) => [(f, r); (f, p); (f, v)])
                       VoiceModulator.intensity_mapping)
           VoiceModulator.emotion_mapping.

(** Distance between the binary64 result and the rational one. *)
Definition distance (f m : Q) : Q :=
  Qabs (Binary64.to_Q (Binary64.apply_intensity (Binary64.of_Q f)
                                                (Binary64.of_Q m))
        - VoiceModulator.apply_intensity f m).

End Binary64Table.

(** ** Notions for the properties of the code

    What the properties beyond the specification are stated with. *)

Module Notions.

(** No place of [s] is the start of a match of [http\S+]. *)
Fixpoint url_free (s : string) : bool :=
  match s with
  | EmptyString => true
  | String c s' => (negb (Py.url_at s) && url_free s')%bool
  end.

(** The label is "sad" and the tier "high", letter case ignored. *)
Definition sad_high (emotion intensity : string) : bool :=
  (String.eqb (Py.lower emotion) "sad"
   && String.eqb (Py.lower intensity) "high")%bool.

(** The events of a trace other than the lines of log: the calls to the
    scorer, the model, the file system and the speech services. *)
Definition is_log (e : event) : bool :=
  match e with Log _ _ => true | _ => false end.

Definition calls (evs : list event) : list event :=
  filter (fun e => negb (is_log e)) evs.

(** The volume, the rate an event sets on the pyttsx3 engine. *)
Definition is_volume (e : event) : option number :=
  match e with
  | SetProperty name x => if String.eqb name "volume" then Some x else None
  | _ => None
  end.

Definition is_rate (e : event) : option number :=
  match e with
  | SetProperty name x => if String.eqb name "rate" then Some x else None
  | _ => None
  end.

End Notions.

Module HostNotions.

Import Spec Host.

(** The world [hw] after the events [evs]. *)
Definition after (hw : HWorld) (evs : list host_event) : HWorld :=
  {| clock := clock hw; happened := (happened hw ++ evs)%list |}.

(** The pyttsx3 engine answers all that the constructor asks of it. *)
Definition speaker_ready (engine : Speaker) : bool :=
  (match speaker_voices engine with
   | Some (voice :: _) => speaker_accepts engine (voice_id voice)
   | Some [] => true
   | None => false
   end
   && match speaker_rate engine with Some _ => true | None => false end
   && match speaker_volume engine with Some _ => true | None => false end)%bool.

(** The API key of the premium service is missing or empty. *)
Definition key_missing (h : Host) : bool :=
  negb (Py.truthy (getenv h "ELEVENLABS_API_KEY")).

(** An event of the analysis of a text or of a speech backend. *)
Definition works_on_text (e : host_event) : bool :=
  match e with
  | Run (Log _ _) | Run (MakeDirs _) => false
  | Run _ => true
  | _ => false
  end.

(** The directory [main] makes for [--output] cannot be made. *)
Definition output_dir_fails (h : Host) (args : Args) : bool :=
  match args_output args with
  | Some output =>
      (negb (Py.is_empty output)
       && negb (dir_ok (outside h) (abspath h output)))%bool
  | None => false
  end.

(** The standard output takes every line. *)
Definition stdout_works (h : Host) : Prop :=
  forall l, stdout_answer h l = None.

(** What [main] does before its [try] block. *)
Definition output_dir_events (h : Host) (args : Args) : list host_event :=
  match args_output args with
  | Some output =>
      if Py.is_empty output then []
      else [Run (MakeDirs (Py.dirname (abspath h output)))]
  | None => []
  end.

End HostNotions.

(** ** More sample environments *)

Module HostSample.

Import Host.

(** The lexical detector of [Sample.env] behind a loaded model that raises
    on every text. *)
Definition failing_model_env : Env :=
  {| textblob := fun _ => (0.5, 0.6)%float;
     textblob_finite := fun _ => conj eq_refl eq_refl;
     use_advanced := true;
     emotion_classifier := Some (fun _ => None);
     engine_type := "gtts";
     elevenlabs_voice_id := "21m00Tcm4TlvDq8ikWAM";
     output_dir := "/app/output";
     default_rate := 200%float;
     default_volume := 1.0%float;
     makedirs_ok := fun _ => true;
     http_post := fun _ _ _ => Some 200%Z;
     write_ok := fun _ => true;
     gtts_ok := fun _ _ _ => true;
     save_ok := fun _ _ => true;
     path_exists := fun _ => true;
     move_ok := fun _ _ => true |}.

Definition david : Voice :=
  {| voice_id := "HKLM/Voices/TTS_MS_EN-US_DAVID_11.0";
     voice_name := "Microsoft David Desktop - English (United States)" |}.

Definition hazel : Voice :=
  {| voice_id := "HKLM/Voices/TTS_MS_EN-GB_HAZEL_11.0";
     voice_name := "Microsoft Hazel Desktop - English (Great Britain)" |}.

Definition zira : Voice :=
  {| voice_id := "HKLM/Voices/TTS_MS_EN-US_ZIRA_11.0";
     voice_name := "Microsoft Zira Desktop - English (United States)" |}.

Definition speaker : Speaker :=
  {| speaker_voices := Some [david; hazel; zira];
     speaker_rate := Some 200%float;
     speaker_volume := Some 1.0%float;
     speaker_accepts := fun _ => true |}.

(** A machine without network and without API key, whose speech engine
    works; relative paths are resolved in [/work]. *)
Definition host : Host :=
  {| outside := Sample.env "pyttsx3" 200;
     getenv := fun _ => None;
     connect_answer := Some (Core ConnectionError);
     pipeline_answer := inl (Core OSError);
     pyttsx3_answer := Some speaker;
     abspath := fun p => "/work/" ++ p;
     stdout_answer := fun _ => None |}.

(** The same machine with a standard output in ASCII: it takes the header
    of the details and the details, no line with a symbol. *)
Definition ascii_host : Host :=
  {| outside := Sample.env "pyttsx3" 200;
     getenv := fun _ => None;
     connect_answer := Some (Core ConnectionError);
     pipeline_answer := inl (Core OSError);
     pyttsx3_answer := Some speaker;
     abspath := fun p => "/work/" ++ p;
     stdout_answer :=
       fun l => match l with
                | DetailsHeader | DetailLine _ => None
                | _ => Some UnicodeEncodeError
                end |}.

Definition args (engine : string) (output : option string) : Args :=
  {| args_text := "I am happy!";
     args_output := output;
     args_engine := engine;
     args_voice := "female";
     args_basic_emotions := false;
     args_verbose := false |}.

Definition hworld (t : Q) : HWorld := {| clock := t; happened := [] |}.

End HostSample.

(** ** Notions and samples for the web interface *)

Module WebNotions.

Import Spec Host HostNotions Web.

(** The request is turned down before the engine is looked at: no text, or
    the premium engine without an API key in the form. *)
Definition turned_down (form : Form) : bool :=
  (Py.is_empty (form_get (form_text form) "")
   || String.eqb (form_get (form_engine form) "pyttsx3") "elevenlabs"
      && Py.is_empty (form_get (form_api_key form) ""))%bool.

(** The engine the server holds serves the engine type asked for. *)
Definition serves (s : Server) (tts_engine : string) : bool :=
  match engine_var s with
  | Some engine =>
      String.eqb (modulator_engine_type (modulator engine)) tts_engine
  | None => false
  end.

(** The server [s] after the events [evs], with the engine [engine] and the
    outside [h]. *)
Definition server_after (s : Server) (engine : Engine) (h : Host)
           (evs : list host_event) : Server :=
  {| engine_var := Some engine; host := h; hworld := after (hworld s) evs |}.

(** The outside after the block that initialises the engine again. *)
Definition host_after (h : Host) (tts_engine api_key : string) : Host :=
  if String.eqb tts_engine "elevenlabs"
  then setenv h "ELEVENLABS_API_KEY" api_key
  else h.

(** The name the handler asks [process] to write to. *)
Definition web_file (h : Host) (t : Q) : string :=
  Py.path_join (output_dir (outside h)) ("web_" ++ Py.str (Py.int t) ++ ".wav").

(** The response of the handler to what [process] did. *)
Definition response_to (h : Host) (engine : Engine) (tts_engine : string)
           (o : outcome (option string * EmotionDetector.IntensityResult))
  : Response :=
  match o with
  | Ret (Some file, result) =>
      if (negb (Py.is_empty file) && path_exists (outside h) file)%bool then
        {| json :=
             Success ("/audio/" ++ basename file)
                     (EmotionDetector.label result)
                     (EmotionDetector.intensity result)
                     (EmotionDetector.confidence result)
                     (EmotionDetector.indicators result)
                     tts_engine
                     (detector_use_advanced (detector engine))
                     file;
           status := 200 |}
      else {| json := Failure (Text "Failed to generate audio file");
              status := 500 |}
  | Ret (None, _) =>
      {| json := Failure (Text "Failed to generate audio file");
         status := 500 |}
  | Raise e => {| json := Failure (StrOf (Core e)); status := 500 |}
  end.

End WebNotions.

Module WebSample.

Import Host Web.

(** A server that holds no engine yet, on the sample machine. *)
Definition server : Server :=
  {| engine_var := None;
     host := HostSample.host;
     hworld := HostSample.hworld 1700000000 |}.

(** A server that holds an engine of type "elevenlabs". *)
Definition premium_engine : Engine :=
  {| detector :=
       {| detector_use_advanced := false; detector_classifier := None |};
     modulator :=
       {| modulator_engine_type := "elevenlabs";
          modulator_api_key := Some "first-key";
          modulator_voice_id := "21m00Tcm4TlvDq8ikWAM";
          modulator_engine := None;
          modulator_defaults := None |} |}.

Definition premium_server : Server :=
  {| engine_var := Some premium_engine;
     host := setenv HostSample.host "ELEVENLABS_API_KEY" "first-key";
     hworld := HostSample.hworld 1700000000 |}.

Definition form (engine : string) (api_key : option string) : Form :=
  {| form_text := Some "I am happy!";
     form_voice := None;
     form_engine := Some engine;
     form_api_key := api_key |}.

End WebSample.

(** * Properties *)

Local Close Scope monad_scope.

(** Unfold the monad down to pairs of outcome and world. *)
Ltac run :=
  cbv beta iota zeta
      delta [try_except bind attempt makedirs log emit time_time ret raise
             VoiceModulator.post VoiceModulator.save_to_file
             VoiceModulator.set_property VoiceModulator.ssml_text
             VoiceModulator.percent Binary64.int Binary64.finite
             EmotionDetector.classify];
  cbn [now trace negb andb orb].

(** Case analysis on an answer of the outside world the goal branches on. *)
Ltac split_bool b :=
  lazymatch b with
  | negb ?x => split_bool x
  | andb ?x ?y => first [split_bool x | split_bool y]
  | orb ?x ?y => first [split_bool x | split_bool y]
  | true => fail
  | false => fail
  | _ => destruct b eqn:?
  end.

Ltac split_if :=
  match goal with
  | |- context [if ?b then _ else _] => split_bool b
  | |- context [match ?o with Some _ => _ | None => _ end] => destruct o eqn:?
  end.

(** ** Comparisons *)

Module PyFacts.

Lemma ltb_lt x y : Py.ltb x y = true <-> x < y.
Proof.
  unfold Py.ltb. rewrite negb_true_iff, <- not_true_iff_false, Qle_bool_iff.
  split; [apply Qnot_le_lt | apply Qlt_not_le].
Qed.

Lemma ltb_ge x y : Py.ltb x y = false <-> y <= x.
Proof.
  unfold Py.ltb. rewrite negb_false_iff. apply Qle_bool_iff.
Qed.

Lemma gtb_gt x y : Py.gtb x y = true <-> y < x.
Proof. apply ltb_lt. Qed.

Lemma gtb_le x y : Py.gtb x y = false <-> x <= y.
Proof. apply ltb_ge. Qed.

(** [int] cuts toward zero. *)
Lemma int_truncate x : Py.int x = Spec.truncate x.
Proof.
  unfold Py.int, Spec.truncate. destruct x as [n d]. cbn [Qnum Qden].
  destruct (Qlt_le_dec (n # d) 0) as [Hneg | Hpos].
  - assert (n < 0)%Z as Hn.
    { unfold Qlt in Hneg. cbn in Hneg. lia. }
    unfold Qceiling, Qfloor. cbn [Qopp Qnum Qden].
    replace n with (- - n)%Z at 1 by lia.
    rewrite Z.quot_opp_l by lia.
    rewrite Z.quot_div_nonneg by lia. reflexivity.
  - assert (0 <= n)%Z as Hn.
    { unfold Qle in Hpos. cbn in Hpos. lia. }
    unfold Qfloor. apply Z.quot_div_nonneg; lia.
Qed.

End PyFacts.

(** ** Binary64 numbers *)

Module FloatFacts.

(** Subtraction is the addition of the opposite. *)
Lemma sub_add_opp x y : (x - y = x + - y)%float.
Proof.
  apply Prim2SF_inj. rewrite sub_spec, add_spec, opp_spec.
  destruct (Prim2SF x) as [sx | sx | | sx mx ex],
           (Prim2SF y) as [sy | sy | | sy my ey]; cbn; try reflexivity.
  all: try (destruct sx, sy; reflexivity).
Qed.

(** A number above a positive one is its own absolute value. *)
Lemma abs_above c p m e :
  Prim2SF c = S754_finite false m e ->
  (c <? p)%float = true -> abs p = p.
Proof.
  intros Hc H. rewrite ltb_spec, Hc in H.
  apply Prim2SF_inj. rewrite abs_spec.
  destruct (Prim2SF p) as [s | s | | s m' e']; try destruct s; cbn in *;
    try discriminate H; reflexivity.
Qed.

(** A number below a negative one is the opposite of its absolute value. *)
Lemma abs_below c p m e :
  Prim2SF c = S754_finite true m e ->
  (p <? c)%float = true -> abs p = (- p)%float.
Proof.
  intros Hc H. rewrite ltb_spec, Hc in H.
  apply Prim2SF_inj. rewrite abs_spec, opp_spec.
  destruct (Prim2SF p) as [s | s | | s m' e']; try destruct s; cbn in *;
    try discriminate H; reflexivity.
Qed.

(** A number below a negative one is not above a positive one, and the
    other way round. *)
Lemma below_not_above c c' p m e m' e' :
  Prim2SF c = S754_finite true m e ->
  Prim2SF c' = S754_finite false m' e' ->
  (p <? c)%float = true -> (c' <? p)%float = false.
Proof.
  intros Hc Hc' H. rewrite ltb_spec, Hc in H. rewrite ltb_spec, Hc'.
  destruct (Prim2SF p) as [s | s | | s m0 e0]; try destruct s; cbn in *;
    try discriminate H; reflexivity.
Qed.

Lemma above_not_below c c' p m e m' e' :
  Prim2SF c = S754_finite true m e ->
  Prim2SF c' = S754_finite false m' e' ->
  (c' <? p)%float = true -> (p <? c)%float = false.
Proof.
  intros Hc Hc' H. rewrite ltb_spec, Hc' in H. rewrite ltb_spec, Hc.
  destruct (Prim2SF p) as [s | s | | s m0 e0]; try destruct s; cbn in *;
    try discriminate H; reflexivity.
Qed.

(** Above 0.3 is above 0.1, and below -0.3 is below -0.1. *)
Lemma above_03_01 p : (0.3 <? p)%float = true -> (0.1 <? p)%float = true.
Proof.
  rewrite !ltb_spec.
  replace (Prim2SF 0.3) with (S754_finite false 5404319552844595 (-54))
    by (vm_compute; reflexivity).
  replace (Prim2SF 0.1) with (S754_finite false 7205759403792794 (-56))
    by (vm_compute; reflexivity).
  destruct (Prim2SF p) as [s | s | | s m e];
    [destruct s; cbn; congruence | destruct s; cbn; congruence
     | cbn; congruence | ].
  destruct s; [cbn; congruence | ].
  unfold SFltb, SFcompare.
  destruct (Z.compare_spec (-54) e) as [<- | Hlt | Hgt].
  - intros _. reflexivity.
  - intros _. assert (-56 < e)%Z as H by lia.
    apply Z.compare_lt_iff in H. rewrite H. reflexivity.
  - discriminate.
Qed.

Lemma below_03_01 p : (p <? - 0.3)%float = true -> (p <? - 0.1)%float = true.
Proof.
  rewrite !ltb_spec.
  replace (Prim2SF (- 0.3)) with (S754_finite true 5404319552844595 (-54))
    by (vm_compute; reflexivity).
  replace (Prim2SF (- 0.1)) with (S754_finite true 7205759403792794 (-56))
    by (vm_compute; reflexivity).
  destruct (Prim2SF p) as [s | s | | s m e];
    [destruct s; cbn; congruence | destruct s; cbn; congruence
     | cbn; congruence | ].
  destruct s; [ | cbn; congruence].
  unfold SFltb, SFcompare.
  destruct (Z.compare_spec e (-54)) as [-> | Hlt | Hgt].
  - intros _. reflexivity.
  - discriminate.
  - intros _. assert (-56 < e)%Z as H by lia.
    apply Z.compare_gt_iff in H. rewrite H. reflexivity.
Qed.

(** [x < y] is [x <= y]. *)
Lemma ltb_leb x y : (x <? y)%float = true -> (x <=? y)%float = true.
Proof.
  rewrite ltb_spec, leb_spec. unfold SFltb, SFleb.
  destruct (SFcompare (Prim2SF x) (Prim2SF y)) as [[ | | ] | ];
    try discriminate; reflexivity.
Qed.

(** [min(1.0, x)] is at most 1, whatever [x] is. *)
Lemma min_le_1 x : (Binary64.min 1.0 x <=? 1.0)%float = true.
Proof.
  unfold Binary64.min. destruct (x <? 1.0)%float eqn:E.
  - apply ltb_leb. exact E.
  - vm_compute. reflexivity.
Qed.

(** [int(x)] of a finite number returns its exact value cut toward zero;
    of any other number it raises. *)
Lemma int_finite x :
  Binary64.finite x = true ->
  Binary64.int x = ret (Spec.truncate (Binary64.to_Q x)).
Proof.
  unfold Binary64.finite, Binary64.int. rewrite <- PyFacts.int_truncate.
  destruct (Prim2SF x); intros H; try discriminate H; reflexivity.
Qed.

Lemma int_raises x :
  Binary64.finite x = false ->
  exists e, Binary64.int x = raise e.
Proof.
  unfold Binary64.finite, Binary64.int.
  destruct (Prim2SF x); intros H; try discriminate H; eexists; reflexivity.
Qed.

End FloatFacts.

(** Case analysis on the kind of binary64 number a conversion to [int] or a
    test of finiteness looks at. *)
Ltac split_int :=
  match goal with
  | |- context [Prim2SF ?x] => destruct (Prim2SF x) eqn:?
  end.

(** ** Strings *)

Module StringFacts.

Lemma append_assoc (a b c : string) : (a ++ b) ++ c = a ++ (b ++ c).
Proof.
  induction a as [ | x a IH]; cbn; [reflexivity | now rewrite IH].
Qed.

Lemma length_append (a b : string) :
  String.length (a ++ b) = (String.length a + String.length b)%nat.
Proof.
  induction a as [ | x a IH]; cbn; [reflexivity | now rewrite IH].
Qed.

Lemma append_inj_l (s a b : string) : s ++ a = s ++ b -> a = b.
Proof.
  induction s as [ | x s IH]; cbn; intros H;
    [exact H | injection H as H; auto].
Qed.

Lemma append_inj_r (a b s : string) : a ++ s = b ++ s -> a = b.
Proof.
  revert b. induction a as [ | x a IH]; intros [ | y b] H; cbn in H.
  - reflexivity.
  - apply (f_equal String.length) in H. cbn in H.
    rewrite length_append in H. lia.
  - apply (f_equal String.length) in H. cbn in H.
    rewrite length_append in H. lia.
  - injection H as -> H. f_equal. now apply IH.
Qed.

Lemma to_int_not_nil z : Z.to_int z <> Pos Nil /\ Z.to_int z <> Neg Nil.
Proof.
  destruct z as [ | p | p]; cbn; split; try discriminate;
    intros H; injection H as H; revert H; apply Unsigned.to_uint_nonnil.
Qed.

(** Two integers printed alike are equal. *)
Lemma str_inj z1 z2 : Py.str z1 = Py.str z2 -> z1 = z2.
Proof.
  unfold Py.str. intros H.
  apply (f_equal NilZero.int_of_string) in H.
  destruct (to_int_not_nil z1), (to_int_not_nil z2).
  rewrite !NilZero.isi in H by assumption.
  injection H as H. now apply DecimalZ.to_int_inj.
Qed.

End StringFacts.

(** ** The prosody mapping *)

Module ProsodyFacts.

Import VoiceModulator Spec.






End ProsodyFacts.

(** ** The text normalizer and the classifier *)

Module DetectorFacts.

Import EmotionDetector Spec.

(** C2.  [_clean_text] collapses white space before it removes URLs, so a
    URL between two words leaves both of its neighbouring spaces: the output
    for ["a http://x b"] holds a run of two spaces, and cleaning it once
    more changes it. *)
Theorem clean_text_not_idempotent :
  _clean_text "a http://x b" = "a  b"
  /\ _clean_text (_clean_text "a http://x b") = "a b"
  /\ _clean_text (_clean_text "a http://x b") <> _clean_text "a http://x b".
Proof.
  repeat split. discriminate.
Qed.

(** A URL at either end of the text leaves white space at that end. *)
Lemma clean_text_keeps_outer_space :
  _clean_text "http://x a" = " a" /\ _clean_text "a http://x" = "a ".
Proof. split; reflexivity. Qed.

(** *** The white space pass *)

Lemma sub_spaces_loose in_run t :
  loose in_run (Py.sub_spaces in_run t) = true.
Proof.
  revert in_run. induction t as [ | c t IH]; intros in_run; cbn;
    [reflexivity | ].
  destruct (Py.isspace c) eqn:Hc.
  - destruct in_run; [apply IH | ].
    cbn. rewrite IH. reflexivity.
  - cbn. rewrite Hc. apply IH.
Qed.

Lemma lstrip_loose b s :
  loose b s = true -> loose true (Py.lstrip_by Py.isspace s) = true.
Proof.
  revert b. induction s as [ | c s IH]; intros b H; cbn in *; [reflexivity | ].
  destruct (Py.isspace c) eqn:Hc.
  - apply andb_true_iff in H. destruct H as [_ H]. eapply IH, H.
  - cbn. rewrite Hc. exact H.
Qed.

Lemma rstrip_spaced b s :
  loose b s = true ->
  (Py.is_empty (Py.rstrip_by Py.isspace s)
   || spaced b (Py.rstrip_by Py.isspace s))%bool = true.
Proof.
  revert b. induction s as [ | c s IH]; intros b H; cbn in *; [reflexivity | ].
  destruct (Py.isspace c) eqn:Hc; cbn.
  - apply andb_true_iff in H. destruct H as [H Hs].
    specialize (IH true Hs).
    destruct (Py.is_empty (Py.rstrip_by Py.isspace s)); [reflexivity | ].
    cbn in *. rewrite Hc, H, IH. reflexivity.
  - specialize (IH false H). rewrite Hc.
    destruct (Py.rstrip_by Py.isspace s); cbn in *; [reflexivity | exact IH].
Qed.

(** The first pass of [_clean_text] normalizes the white space. *)
Lemma strip_normalized t : normalized (Py.strip (Py.re_sub_spaces t)) = true.
Proof.
  unfold normalized, Py.strip, Py.re_sub_spaces.
  apply rstrip_spaced. eapply lstrip_loose. apply sub_spaces_loose.
Qed.

Lemma spaced_weaken s : spaced true s = true -> spaced false s = true.
Proof.
  destruct s as [ | c s]; cbn; [discriminate | ].
  destruct (Py.isspace c); [ | auto].
  rewrite andb_false_r. discriminate.
Qed.

Lemma spaced_sub_spaces b s : spaced b s = true -> Py.sub_spaces b s = s.
Proof.
  revert b. induction s as [ | c s IH]; intros b H; cbn in *; [reflexivity | ].
  destruct (Py.isspace c) eqn:Hc.
  - apply andb_true_iff in H. destruct H as [H Hs].
    apply andb_true_iff in H. destruct H as [Heq Hb].
    destruct b; [discriminate | ].
    apply Ascii.eqb_eq in Heq. subst c. rewrite (IH true Hs). reflexivity.
  - rewrite (IH false H). reflexivity.
Qed.

Lemma spaced_lstrip s : spaced true s = true -> Py.lstrip_by Py.isspace s = s.
Proof.
  destruct s as [ | c s]; cbn; [reflexivity | ].
  destruct (Py.isspace c); [ | reflexivity].
  rewrite andb_false_r. discriminate.
Qed.

Lemma spaced_rstrip b s : spaced b s = true -> Py.rstrip_by Py.isspace s = s.
Proof.
  revert b. induction s as [ | c s IH]; intros b H; cbn in *; [reflexivity | ].
  destruct (Py.isspace c) eqn:Hc; cbn.
  - apply andb_true_iff in H. destruct H as [_ Hs].
    rewrite (IH true Hs). destruct s; [discriminate Hs | reflexivity].
  - rewrite (IH false H). reflexivity.
Qed.

Lemma normalized_fixed s :
  normalized s = true -> Py.strip (Py.re_sub_spaces s) = s.
Proof.
  unfold normalized, Py.strip, Py.re_sub_spaces.
  destruct s as [ | c s]; [reflexivity | ]. cbn [Py.is_empty orb].
  intros H.
  rewrite (spaced_sub_spaces false _ (spaced_weaken _ H)).
  rewrite (spaced_lstrip _ H). apply (spaced_rstrip true _ H).
Qed.

(** Where the second pass finds no URL, the output is normalized and the
    normalizer is idempotent. *)
Lemma clean_text_idempotent_without_url t :
  Py.re_sub_url (Py.strip (Py.re_sub_spaces t))
  = Py.strip (Py.re_sub_spaces t) ->
  normalized (_clean_text t) = true
  /\ _clean_text (_clean_text t) = _clean_text t.
Proof.
  unfold _clean_text. intros H. rewrite H.
  split; [apply strip_normalized | ].
  rewrite (normalized_fixed _ (strip_normalized t)). exact H.
Qed.

(** *** The lexical strategy *)

(** The code's cascade and the specification's agree on label and score:
    above a positive threshold the polarity is its own absolute value, below
    a negative one [0.5 - polarity] is [0.5 + |polarity|]. *)
Lemma sentiment_result_spec polarity subjectivity :
  emotion (sentiment_result polarity subjectivity)
  = Some (polarity_label polarity)
  /\ score (sentiment_result polarity subjectivity)
     = Binary64.round2 (base_score (polarity_label polarity) polarity
                        * (0.5 + subjectivity / 2))%float.
Proof.
  unfold sentiment_result, polarity_label.
  destruct (0.3 <? polarity)%float eqn:H1.
  { split; [reflexivity | ]. cbn [score base_score one_of existsb String.eqb].
    cbn. rewrite (FloatFacts.abs_above 0.3 polarity _ _ eq_refl H1).
    reflexivity. }
  destruct (polarity <? - 0.3)%float eqn:H2.
  { split; [reflexivity | ]. cbn.
    rewrite (FloatFacts.abs_below (- 0.3) polarity _ _ eq_refl H2).
    rewrite FloatFacts.sub_add_opp. reflexivity. }
  destruct (0.1 <? polarity)%float eqn:H3.
  { split; [reflexivity | ]. cbn.
    rewrite (FloatFacts.abs_above 0.1 polarity _ _ eq_refl H3).
    reflexivity. }
  destruct (polarity <? - 0.1)%float eqn:H4.
  { split; [reflexivity | ]. cbn.
    rewrite (FloatFacts.abs_below (- 0.1) polarity _ _ eq_refl H4).
    rewrite FloatFacts.sub_add_opp. reflexivity. }
  split; reflexivity.
Qed.

Lemma polarity_label_cases polarity :
  ((0.3 <? polarity)%float = true -> polarity_label polarity = "happy")
  /\ ((polarity <? - 0.3)%float = true -> polarity_label polarity = "sad")
  /\ ((0.1 <? polarity)%float = true -> (0.3 <? polarity)%float = false ->
      polarity_label polarity = "positive")
  /\ ((polarity <? - 0.1)%float = true ->
      (polarity <? - 0.3)%float = false ->
      polarity_label polarity = "negative")
  /\ ((0.1 <? polarity)%float = false ->
      (polarity <? - 0.1)%float = false ->
      polarity_label polarity = "neutral").
Proof.
  unfold polarity_label. repeat split.
  - intros ->. reflexivity.
  - intros H.
    rewrite (FloatFacts.below_not_above (- 0.3) 0.3 polarity _ _ _ _
               eq_refl eq_refl H), H.
    reflexivity.
  - intros H Hnot.
    rewrite Hnot, H.
    rewrite (FloatFacts.above_not_below (- 0.3) 0.1 polarity _ _ _ _
               eq_refl eq_refl H).
    reflexivity.
  - intros H Hnot.
    rewrite (FloatFacts.below_not_above (- 0.1) 0.3 polarity _ _ _ _
               eq_refl eq_refl H),
      (FloatFacts.below_not_above (- 0.1) 0.1 polarity _ _ _ _
               eq_refl eq_refl H), Hnot, H.
    reflexivity.
  - intros Hpos Hneg.
    destruct (0.3 <? polarity)%float eqn:H1;
      [rewrite (FloatFacts.above_03_01 _ H1) in Hpos; discriminate Hpos | ].
    destruct (polarity <? - 0.3)%float eqn:H2;
      [rewrite (FloatFacts.below_03_01 _ H2) in Hneg; discriminate Hneg | ].
    rewrite Hpos, Hneg. reflexivity.
Qed.

(** Binary64 decides the second decimal: with polarity 0.4 and subjectivity
    0.9 the product is 0.85499999999999998, rounded to 0.85, where the
    decimals themselves give 0.855, rounded to 0.86. *)
Lemma sentiment_result_rounding :
  score (sentiment_result 0.4 0.9) = 0.85
  /\ Py.round2 ((0.5 + 0.4) * (0.5 + 0.9 / 2)) = 0.86.
Proof. split; vm_compute; reflexivity. Qed.

(** C3.  On every text the lexical classifier returns, with the polarity
    and subjectivity the scorer gives (two finite binary64 numbers): the
    label of the first threshold that applies (above 0.3 happy, below -0.3
    sad, above 0.1 positive, below -0.1 negative, neutral otherwise), and
    as score the base score of that label ([min(1, 0.5 + |polarity|)] for
    happy and sad, [0.5 + |polarity|] for positive and negative,
    [1 - |polarity|] for neutral) times [0.5 + subjectivity/2], rounded to
    two decimals.  Comparisons, sums and products are those of binary64,
    and it is the binary64 product that is rounded. *)
Theorem basic_sentiment_analysis_spec env text w :
  let polarity := fst (textblob env text) in
  let subjectivity := snd (textblob env text) in
  exists r w',
    _basic_sentiment_analysis env text w = (Ret r, w')
    /\ ((0.3 <? polarity)%float = true -> emotion r = Some "happy")
    /\ ((polarity <? - 0.3)%float = true -> emotion r = Some "sad")
    /\ ((0.1 <? polarity)%float = true -> (0.3 <? polarity)%float = false ->
        emotion r = Some "positive")
    /\ ((polarity <? - 0.1)%float = true ->
        (polarity <? - 0.3)%float = false ->
        emotion r = Some "negative")
    /\ ((0.1 <? polarity)%float = false ->
        (polarity <? - 0.1)%float = false ->
        emotion r = Some "neutral")
    /\ exists label,
        emotion r = Some label
        /\ score r = Binary64.round2 (base_score label polarity
                                      * (0.5 + subjectivity / 2))%float.
Proof.
  intros polarity subjectivity.
  unfold _basic_sentiment_analysis, bind, emit, ret.
  destruct (textblob env text) as [p s] eqn:Htb.
  subst polarity subjectivity. cbn [fst snd].
  destruct (sentiment_result_spec p s) as [Hlabel Hscore].
  destruct (polarity_label_cases p) as (H1 & H2 & H3 & H4 & H5).
  eexists _, _. split; [reflexivity | ].
  rewrite Hlabel.
  repeat split; try (intros; f_equal; auto).
  exists (polarity_label p). split; [reflexivity | exact Hscore].
Qed.

(** *** Totality of the detector *)

Lemma basic_sentiment_analysis_returns env text w :
  exists r w', _basic_sentiment_analysis env text w = (Ret r, w').
Proof.
  unfold _basic_sentiment_analysis, bind, emit, ret.
  destruct (textblob env text). eexists _, _. reflexivity.
Qed.

Lemma advanced_emotion_analysis_returns env text w :
  exists r w', _advanced_emotion_analysis env text w = (Ret r, w').
Proof.
  unfold _advanced_emotion_analysis, try_except, classify, bind, emit, log,
    emit, ret, raise.
  destruct (emotion_classifier env) as [model | ].
  - destruct (model text) as [results | ].
    + eexists _, _. reflexivity.
    + apply basic_sentiment_analysis_returns.
  - apply basic_sentiment_analysis_returns.
Qed.

Lemma detect_emotion_returns env text w :
  exists r w', detect_emotion env text w = (Ret r, w').
Proof.
  unfold detect_emotion.
  destruct (Py.is_empty text); [eexists _, _; reflexivity | ].
  unfold bind.
  destruct (use_advanced env && _)%bool.
  - destruct (advanced_emotion_analysis_returns env (_clean_text text) w)
      as (r & w' & ->).
    eexists _, _. reflexivity.
  - destruct (basic_sentiment_analysis_returns env (_clean_text text) w)
      as (r & w' & ->).
    eexists _, _. reflexivity.
Qed.

(** With the lexical strategy a text that is not empty is cleaned, scored
    and the result logged. *)
Lemma detect_emotion_lexical env text w :
  use_advanced env = false ->
  text <> EmptyString ->
  exists w',
    detect_emotion env text w
    = (Ret (sentiment_result (fst (textblob env (_clean_text text)))
                             (snd (textblob env (_clean_text text)))), w')
    /\ trace w' = (trace w ++ [TextBlobCall (_clean_text text);
                               Log INFO "Detected emotion:  (score: )"])%list.
Proof.
  intros Hlexical Htext. unfold detect_emotion, _basic_sentiment_analysis.
  rewrite Hlexical. destruct text as [ | c text]; [contradiction | ].
  cbn [Py.is_empty andb].
  destruct (textblob env (_clean_text (String c text))) as [p s].
  run. eexists. split; [reflexivity | ].
  cbn [trace]. rewrite <- app_assoc. reflexivity.
Qed.

(** C5.  On the empty text [detect_emotion] returns the fixed neutral
    result and leaves the world as it found it: nothing is logged and
    neither the sentiment scorer nor the model is called, so nothing can
    raise. *)
Theorem detect_emotion_empty env w :
  detect_emotion env EmptyString w
  = (Ret {| emotion := Some "neutral"; score := 1.0; details := [] |}, w).
Proof. reflexivity. Qed.

End DetectorFacts.

(** ** The intensity estimator *)

Module IntensityFacts.

Import EmotionDetector Spec.

Lemma length_remove_space text :
  String.length (Py.remove_char " " text) = non_space text.
Proof.
  unfold non_space.
  induction text as [ | c text IH]; cbn [Py.remove_char Py.count];
    [reflexivity | ].
  destruct (Py.is_char " " c); cbn [negb String.length]; congruence.
Qed.

Lemma isupper_not_space c : Py.isupper c = true -> Py.is_char " " c = false.
Proof.
  unfold Py.is_char.
  destruct (Ascii.eqb_spec " " c) as [<- | ]; [ | reflexivity].
  intros H. vm_compute in H. discriminate.
Qed.

Lemma upper_le_non_space text :
  (Py.count Py.isupper text <= non_space text)%nat.
Proof.
  unfold non_space.
  induction text as [ | c text IH]; cbn [Py.count]; [lia | ].
  destruct (Py.isupper c) eqn:Hu.
  - rewrite (isupper_not_space _ Hu). cbn [negb]. lia.
  - destruct (Py.is_char " " c); cbn [negb]; lia.
Qed.

(** The quotient the code computes, with [max(len, 1)] below the bar, is
    the capitals ratio. *)
Lemma code_caps_ratio text :
  inject_Z (Z.of_nat (Py.count Py.isupper text))
  / inject_Z (Z.of_nat
                (Nat.max (String.length (Py.remove_char " " text)) 1))
  == caps_ratio text.
Proof.
  rewrite length_remove_space. unfold caps_ratio.
  pose proof (upper_le_non_space text) as Hle.
  destruct (non_space text) as [ | n] eqn:Hn.
  - assert (Py.count Py.isupper text = O) as -> by lia. reflexivity.
  - replace (Nat.max (S n) 1) with (S n) by lia. reflexivity.
Qed.

Lemma base_tier_code score :
  (if Py.ltb score 0.4 then "low"
   else if Py.ltb score 0.7 then "medium" else "high")
  = base_tier score.
Proof.
  unfold base_tier.
  destruct (Py.ltb score 0.4) eqn:H1.
  - apply PyFacts.ltb_lt in H1.
    destruct (Qlt_le_dec score 0.4); [reflexivity | lra].
  - apply PyFacts.ltb_ge in H1. destruct (Qlt_le_dec score 0.4); [lra | ].
    destruct (Py.ltb score 0.7) eqn:H2.
    + apply PyFacts.ltb_lt in H2.
      destruct (Qlt_le_dec score 0.7); [reflexivity | lra].
    + apply PyFacts.ltb_ge in H2.
      destruct (Qlt_le_dec score 0.7); [lra | reflexivity].
Qed.

Lemma base_tier_values score :
  base_tier score = "low" \/ base_tier score = "medium"
  \/ base_tier score = "high".
Proof.
  unfold base_tier.
  destruct (Qlt_le_dec score 0.4); [auto | ].
  destruct (Qlt_le_dec score 0.7); auto.
Qed.

Lemma escalates_code text :
  (Nat.ltb 2 (Py.count (Py.is_char "!") text)
   || Py.gtb
        (inject_Z (Z.of_nat (Py.count Py.isupper text))
         / inject_Z (Z.of_nat
                       (Nat.max (String.length (Py.remove_char " " text)) 1)))
        0.3)%bool = true
  <-> escalates text.
Proof.
  unfold escalates, exclamations.
  rewrite orb_true_iff, Nat.ltb_lt, PyFacts.gtb_gt, code_caps_ratio.
  reflexivity.
Qed.

(** C4.  [analyze_with_intensity] returns on every text.  The tier is the
    tier of the classifier's score (low below 0.4, medium below 0.7, high
    otherwise) unless the text holds more than two exclamation marks or more
    than 0.3 capitals per character other than the space, in which case it
    is high; the tier returned is never below the score's tier, and a text
    with four exclamation marks gets tier high whatever the score. *)
Theorem analyze_with_intensity_tier env text w :
  exists result w1 r,
    detect_emotion env text w = (Ret result, w1)
    /\ analyze_with_intensity env text w = (Ret r, w1)
    /\ label r = emotion result
    /\ confidence r = score result
    /\ (escalates text -> intensity r = "high")
    /\ (~ escalates text -> intensity r = base_tier (score result))
    /\ (tier_rank (base_tier (score result)) <= tier_rank (intensity r))%nat
    /\ (exclamations text = 4%nat -> intensity r = "high").
Proof.
  destruct (DetectorFacts.detect_emotion_returns env text w)
    as (result & w1 & Hdetect).
  exists result, w1.
  unfold analyze_with_intensity, bind. rewrite Hdetect. unfold ret.
  eexists. split; [reflexivity | ]. split; [reflexivity | ].
  cbn [label confidence intensity].
  rewrite base_tier_code.
  pose proof (escalates_code text) as Hesc.
  destruct (Nat.ltb _ _ || Py.gtb _ _)%bool.
  - assert (escalates text) as He by (apply Hesc; reflexivity).
    assert ((if negb (String.eqb (base_tier (score result)) "high")
             then "high" else base_tier (score result)) = "high") as ->.
    { destruct (String.eqb_spec (base_tier (score result)) "high") as [-> | ];
        reflexivity. }
    repeat split; try reflexivity; try tauto.
    destruct (base_tier_values (score result)) as [-> | [-> | ->]];
      cbn; lia.
  - assert (~ escalates text) as He.
    { intros H. apply Hesc in H. discriminate. }
    repeat split; try reflexivity; try tauto.
    intros H4. exfalso. apply He. left. rewrite H4. lia.
Qed.

End IntensityFacts.

(** ** The speech backends *)

Module BackendFacts.

Import VoiceModulator Spec.

(** Each backend returns, whatever the outside answers: its file when it
    works, [None] when it does not; the events it adds do not depend on the
    trace it starts from. *)
Lemma gtts_returns env text rate pitch volume t :
  exists evs, forall tr,
    _apply_gtts_modulation env text rate pitch volume
                           {| now := t; trace := tr |}
    = (Ret (artifact (gtts_works env t text rate)
                     (speech_file env t ".mp3")),
       {| now := t; trace := tr ++ evs |}).
Proof.
  unfold _apply_gtts_modulation, artifact, gtts_works, dir_ok. run.
  repeat (split_if; run);
    eexists; intros tr; rewrite <- ?app_assoc; reflexivity.
Qed.

Lemma pyttsx3_returns env text rate pitch volume t :
  exists evs, forall tr,
    _apply_pyttsx3_modulation env text rate pitch volume
                              {| now := t; trace := tr |}
    = (Ret (artifact (pyttsx3_works env t text rate pitch)
                     (speech_file env t ".wav")),
       {| now := t; trace := tr ++ evs |}).
Proof.
  unfold _apply_pyttsx3_modulation, artifact, pyttsx3_works, pitch_adjusted,
    new_rate, dir_ok.
  rewrite <- !PyFacts.int_truncate. run.
  repeat (first [split_int | split_if]; run);
    eexists; intros tr; rewrite <- ?app_assoc; reflexivity.
Qed.

Lemma elevenlabs_returns env text rate pitch volume t :
  exists evs, forall tr,
    _apply_elevenlabs_modulation env text rate pitch volume
                                 {| now := t; trace := tr |}
    = (Ret (artifact (premium_works env t text rate pitch volume
                      || gtts_works env t text rate)
                     (speech_file env t ".mp3")),
       {| now := t; trace := tr ++ evs |}).
Proof.
  destruct (gtts_returns env text rate pitch volume t) as [gevs Hg].
  unfold _apply_elevenlabs_modulation, premium_works, request_body,
    percentage, convertible, dir_ok.
  rewrite <- !PyFacts.int_truncate. run.
  repeat (first [split_int | split_if]; run);
    eexists; intros tr; rewrite ?Hg; run; rewrite <- ?app_assoc;
    reflexivity.
Qed.

(** *** Fallback of the premium backend *)

Lemma premium_fails_works env t text rate pitch volume :
  premium_fails env t text rate pitch volume
  <-> premium_works env t text rate pitch volume = false.
Proof.
  unfold premium_fails, premium_works. cbv zeta.
  destruct (dir_ok env _); cbn [andb]; [ | tauto].
  destruct (convertible rate && convertible pitch && convertible volume)%bool;
    cbn [andb]; [ | tauto].
  destruct (http_post env _ _ _) as [status_code | ]; [ | tauto].
  destruct (Z.eqb_spec status_code 200) as [-> | Hne]; cbn [andb].
  - destruct (write_ok env _).
    + split; [ | discriminate].
      intros [H | [H | [H | [(s & H & Hs) | H]]]]; try discriminate.
      injection H as <-. contradiction.
    + tauto.
  - split; [reflexivity | ]. intros _. right. right. right. left.
    exists status_code. split; [reflexivity | assumption].
Qed.

(** C6.  When the premium backend fails, by a status other than 200 or by
    an exception, [_apply_elevenlabs_modulation] raises nothing: it logs the
    warning of the downgrade and returns what one run of the basic backend
    returns on the same text and modifiers; before that run nothing was
    asked of the basic backend. *)
Theorem elevenlabs_falls_back env text rate pitch volume w :
  premium_fails env (now w) text rate pitch volume ->
  exists evs result w2,
    _apply_elevenlabs_modulation env text rate pitch volume w
    = (Ret result, w2)
    /\ _apply_gtts_modulation env text rate pitch volume
         {| now := now w; trace := trace w ++ evs |}
       = (Ret result, w2)
    /\ In (Log WARNING "Falling back to gTTS") evs
    /\ forallb (fun e => negb (is_gtts_save e)) evs = true.
Proof.
  destruct w as [t tr]. cbn [now trace].
  intros Hfails. apply premium_fails_works in Hfails.
  destruct (gtts_returns env text rate pitch volume t) as [gevs Hg].
  revert Hfails.
  unfold _apply_elevenlabs_modulation, premium_works, request_body,
    percentage, convertible, dir_ok.
  rewrite <- !PyFacts.int_truncate. run.
  repeat (first [split_int | split_if]; run);
    intros Hfails; try discriminate Hfails;
    rewrite <- ?app_assoc;
    match goal with
    | |- context [_apply_gtts_modulation _ _ _ _ _
                    {| now := _; trace := tr ++ ?evs |}] =>
        exists evs; rewrite !Hg; eexists _, _;
        (split; [reflexivity | ]);
        (split; [reflexivity | ]);
        (split; [cbn; tauto | reflexivity])
    end.
Qed.

Lemma elevenlabs_falls_back_witness :
  premium_fails (Sample.env "elevenlabs" 401) 1700000000 "hello" 1.2 1.15 1.1
  /\ exists evs result w2,
      _apply_elevenlabs_modulation (Sample.env "elevenlabs" 401) "hello"
                                   1.2 1.15 1.1 (Sample.world 1700000000)
      = (Ret result, w2)
      /\ _apply_gtts_modulation (Sample.env "elevenlabs" 401) "hello"
                                1.2 1.15 1.1
                                {| now := 1700000000;
                                   trace := [] ++ evs |}
         = (Ret result, w2)
      /\ In (Log WARNING "Falling back to gTTS") evs
      /\ forallb (fun e => negb (is_gtts_save e)) evs = true.
Proof.
  assert (premium_fails (Sample.env "elevenlabs" 401) 1700000000 "hello"
                        1.2 1.15 1.1) as Hfails.
  { right. right. right. left.
    exists 401%Z. split; [reflexivity | discriminate]. }
  split; [exact Hfails | ].
  apply (elevenlabs_falls_back (Sample.env "elevenlabs" 401) "hello"
                               1.2 1.15 1.1 (Sample.world 1700000000)).
  exact Hfails.
Defined.

End BackendFacts.

(** ** The markup sent to the premium backend *)

Module SsmlFacts.

Import VoiceModulator Spec BackendFacts.

Lemma ssml_markup_contains_tag text rate pitch volume :
  contains (prosody_tag rate pitch volume)
           (ssml_markup text rate pitch volume).
Proof.
  unfold contains, ssml_markup, prosody_tag.
  exists (newline ++ spaces 12 ++ "<speak>" ++ newline ++ spaces 16).
  exists (newline ++ spaces 20 ++ text ++ newline ++ spaces 16
          ++ "</prosody>" ++ newline ++ spaces 12 ++ "</speak>"
          ++ newline ++ spaces 12).
  rewrite !StringFacts.append_assoc. reflexivity.
Qed.

(** The conversions of the f-string: the three percentages when each
    product is finite. *)
Lemma ssml_text_returns text rate pitch volume :
  (convertible rate && convertible pitch && convertible volume)%bool = true ->
  ssml_text text rate pitch volume
  = ret (request_body text rate pitch volume).
Proof.
  rewrite !andb_true_iff. intros [[Hr Hp] Hv].
  unfold ssml_text, percent, request_body, percentage.
  rewrite !FloatFacts.int_finite by assumption. reflexivity.
Qed.

(** The request is made as soon as the output directory is there and the
    percentages are. *)
Lemma elevenlabs_posts env text rate pitch volume w :
  dir_ok env (speech_file env (now w) ".mp3") = true ->
  (convertible rate && convertible pitch && convertible volume)%bool = true ->
  exists evs,
    trace (snd (_apply_elevenlabs_modulation env text rate pitch volume w))
    = (trace w ++ evs)%list
    /\ In (HttpPost (elevenlabs_url env) (request_body text rate pitch volume)
                    (elevenlabs_stability rate)) evs.
Proof.
  destruct w as [t tr]. cbn [now trace].
  destruct (gtts_returns env text rate pitch volume t) as [gevs Hg].
  intros Hdir Hconv. revert Hdir.
  unfold _apply_elevenlabs_modulation, dir_ok.
  rewrite (ssml_text_returns _ _ _ _ Hconv). run.
  repeat (split_if; run); intros Hdir; try discriminate Hdir;
    rewrite ?Hg; run; cbn [snd trace]; rewrite <- ?app_assoc;
    (eexists; split; [reflexivity | cbn; tauto]).
Qed.

(** C8 as the code has it.  For every rate, pitch and volume modifier [m]
    whose product [(m - 1) * 100], computed in binary64, is finite, the
    premium backend cuts that product toward zero, and the body of the
    request it sends (once its output directory is there) is the markup
    whose prosody tag carries these three integers as percentages. *)
Theorem elevenlabs_percentages env text rate pitch volume w :
  dir_ok env (speech_file env (now w) ".mp3") = true ->
  (convertible rate && convertible pitch && convertible volume)%bool = true ->
  exists body evs,
    trace (snd (_apply_elevenlabs_modulation env text rate pitch volume w))
    = (trace w ++ evs)%list
    /\ In (HttpPost (elevenlabs_url env) body (elevenlabs_stability rate)) evs
    /\ contains
         (prosody_tag
            (truncate (Binary64.to_Q ((rate - 1) * 100)%float))
            (truncate (Binary64.to_Q ((pitch - 1) * 100)%float))
            (truncate (Binary64.to_Q ((volume - 1) * 100)%float)))
         body.
Proof.
  intros Hdir Hconv.
  destruct (elevenlabs_posts env text rate pitch volume w Hdir Hconv)
    as (evs & Htrace & Hin).
  exists (request_body text rate pitch volume), evs.
  split; [exact Htrace | ]. split; [exact Hin | ].
  apply ssml_markup_contains_tag.
Qed.

Lemma elevenlabs_percentages_witness :
  dir_ok (Sample.env "elevenlabs" 200)
         (speech_file (Sample.env "elevenlabs" 200) 1700000000 ".mp3") = true
  /\ (convertible 1.258 && convertible 1.15 && convertible 0.925)%bool = true
  /\ exists body evs,
      trace (snd (_apply_elevenlabs_modulation
                    (Sample.env "elevenlabs" 200) "hello" 1.258 1.15 0.925
                    (Sample.world 1700000000)))
      = (trace (Sample.world 1700000000) ++ evs)%list
      /\ In (HttpPost (elevenlabs_url (Sample.env "elevenlabs" 200)) body
                      (elevenlabs_stability 1.258)) evs
      /\ contains
           (prosody_tag
              (truncate (Binary64.to_Q ((1.258 - 1) * 100)%float))
              (truncate (Binary64.to_Q ((1.15 - 1) * 100)%float))
              (truncate (Binary64.to_Q ((0.925 - 1) * 100)%float)))
           body.
Proof.
  split; [reflexivity | ]. split; [reflexivity | ].
  apply (elevenlabs_percentages (Sample.env "elevenlabs" 200) "hello"
                                1.258 1.15 0.925 (Sample.world 1700000000));
    reflexivity.
Defined.

(** The percentages of the sample request: 25.8 gives 25, where rounding
    gives 26, and -7.5 gives -7.  The table values 1.15 and 1.2 give 14 and
    19, and the rate of "happy" at "high", 1.3 but for the last place, gives
    29: the binary64 products lie just below 15, 20 and 30, which the
    decimals themselves give. *)
Lemma percent_examples :
  percentage 1.258 = 25%Z
  /\ Py.round (Binary64.to_Q ((1.258 - 1) * 100)%float) = 26%Z
  /\ percentage 0.925 = (-7)%Z
  /\ percentage 1.15 = 14%Z /\ percentage 1.2 = 19%Z
  /\ percentage (Binary64.apply_intensity 1.5 1.2) = 29%Z
  /\ truncate ((1.15 - 1) * 100) = 15%Z
  /\ truncate ((1.2 - 1) * 100) = 20%Z
  /\ truncate ((VoiceModulator.apply_intensity 1.5 1.2 - 1) * 100) = 30%Z.
Proof. repeat split; vm_compute; reflexivity. Qed.

(** A modifier without percentage: the product is not finite, the
    conversion raises and the request is not made. *)
Lemma percent_raises modifier :
  convertible modifier = false ->
  exists e, percent modifier = raise e.
Proof. intros H. apply FloatFacts.int_raises. exact H. Qed.

(** C8 as stated fails: the percentage is not [(m - 1) * 100] rounded to an
    integer.  Whatever the rule for ties, rounding leaves at most one half
    between the value and the integer; at 1.258 the code writes 25 for
    25.8. *)
Lemma percent_not_rounded :
  ~ (forall (modifier : float) (w : World) (n : Z),
        percent modifier w = (Ret n, w) ->
        Qabs (inject_Z n - Binary64.to_Q ((modifier - 1) * 100)%float)
        <= 1 # 2).
Proof.
  intros H.
  specialize (H 1.258%float (Sample.world 0) 25%Z eq_refl).
  vm_compute in H. apply H. reflexivity.
Qed.

End SsmlFacts.

(** ** The dispatcher *)

Module DispatchFacts.

Import EmotionDetector VoiceModulator EmpathyEngine Spec BackendFacts.

(** The tables hold a row for "neutral", the same in both arithmetics. *)
Lemma neutral_row_binary64 :
  Py.dict_index binary64_emotion_mapping "neutral"
  = Some (1.0, 1.0, 1.0)%float.
Proof. vm_compute. reflexivity. Qed.

Lemma modifiers_total emotion intensity :
  exists rate pitch volume,
    modifiers emotion intensity = Some (rate, pitch, volume).
Proof.
  unfold modifiers. rewrite neutral_row_binary64.
  destruct (Py.dict_get binary64_emotion_mapping (Py.lower emotion) _)
    as [[r p] v].
  eexists _, _, _. reflexivity.
Qed.

Lemma generate_speech_returns env text emotion intensity t :
  exists rate pitch volume evs1 evs2,
    modifiers emotion intensity = Some (rate, pitch, volume)
    /\ forall output_file tr,
        creatable env output_file = true ->
        generate_speech env text (Some emotion) intensity output_file
                        {| now := t; trace := tr |}
        = (Ret (artifact (backend_works env t text rate pitch volume)
                         (speech_file env t (engine_ext env))),
           {| now := t;
              trace := tr ++ evs1 ++ directory_events output_file ++ evs2 |}).
Proof.
  destruct (modifiers_total emotion intensity)
    as (rate & pitch & volume & Hmods).
  exists rate, pitch, volume.
  destruct (pyttsx3_returns env text rate pitch volume t) as [pevs Hp].
  destruct (elevenlabs_returns env text rate pitch volume t) as [eevs He].
  destruct (gtts_returns env text rate pitch volume t) as [gevs Hg].
  unfold generate_speech, backend_works, engine_ext, creatable,
    directory_events, dir_ok.
  rewrite Hmods.
  exists [Log INFO "Generating speech for emotion: , intensity: ";
          Log INFO "Modifiers: rate=, pitch=, volume="].
  destruct (String.eqb (engine_type env) "pyttsx3");
    [exists pevs
    | destruct (String.eqb (engine_type env) "elevenlabs");
      [exists eevs | exists gevs] ];
    (split; [reflexivity | ]);
    intros [path | ] tr; run;
    repeat (split_if; run); intros Hc; try discriminate Hc;
    rewrite ?Hp, ?He, ?Hg; rewrite <- ?app_assoc; reflexivity.
Qed.

Lemma generate_speech_raises env text emotion intensity output_file w :
  creatable env output_file = false ->
  exists e w',
    generate_speech env text (Some emotion) intensity output_file w
    = (Raise e, w').
Proof.
  destruct (modifiers_total emotion intensity)
    as (rate & pitch & volume & Hmods).
  unfold generate_speech, creatable, dir_ok. rewrite Hmods.
  destruct output_file as [path | ]; [ | discriminate].
  run. repeat (split_if; run); intros Hc; try discriminate Hc;
    eexists _, _; reflexivity.
Qed.

(** A path [generate_speech] returns is the time-stamped file of the
    engine, whatever the output file asked for. *)
Lemma generate_speech_path env text emotion intensity output_file w path :
  fst (generate_speech env text (Some emotion) intensity output_file w)
  = Ret (Some path) ->
  path = speech_file env (now w) (engine_ext env).
Proof.
  destruct w as [t tr]. cbn [now].
  destruct (creatable env output_file) eqn:Hc.
  - destruct (generate_speech_returns env text emotion intensity t)
      as (rate & pitch & volume & evs1 & evs2 & _ & Hrun).
    rewrite (Hrun output_file tr Hc). cbn [fst]. unfold artifact.
    destruct (backend_works env t text rate pitch volume);
      intros Hpath; [injection Hpath as <-; reflexivity | discriminate].
  - destruct (generate_speech_raises env text emotion intensity output_file
                                     {| now := t; trace := tr |} Hc)
      as (e & w' & Hraise).
    rewrite Hraise. discriminate.
Qed.

(** C10 on the code.  With the bare file name "out.wav" as output file the
    call raises [FileNotFoundError]: the directory of the name is the empty
    string, which [os.makedirs] refuses.  The same call without an output
    file returns the time-stamped path of the backend, so the argument does
    decide the result. *)
Theorem generate_speech_depends_on_output_file :
  fst (generate_speech (Sample.env "gtts" 200) "hello" (Some "happy")
                       "medium" (Some "out.wav") (Sample.world 1700000000))
  = Raise FileNotFoundError
  /\ fst (generate_speech (Sample.env "gtts" 200) "hello" (Some "happy")
                          "medium" None (Sample.world 1700000000))
     = Ret (Some "/app/output/speech_1700000000.mp3").
Proof. split; reflexivity. Qed.

(** The name of the file tells the whole seconds of the clock and nothing
    else of it. *)
Lemma speech_file_eq_iff env t1 t2 ext :
  speech_file env t1 ext = speech_file env t2 ext <-> Py.int t1 = Py.int t2.
Proof.
  unfold speech_file, Py.path_join. split.
  - intros H.
    apply StringFacts.append_inj_l, StringFacts.append_inj_l in H.
    apply StringFacts.append_inj_l, StringFacts.append_inj_r in H.
    now apply StringFacts.str_inj.
  - intros ->. reflexivity.
Qed.

(** C9 on the code.  Two calls of [generate_speech] whose clock readings
    fall in the same second return the same path when both return one:
    the name carries the whole seconds only. *)
Theorem same_second_same_file env text1 text2 emotion1 emotion2
        intensity1 intensity2 out1 out2 w1 w2 path1 path2 :
  Py.int (now w1) = Py.int (now w2) ->
  fst (generate_speech env text1 (Some emotion1) intensity1 out1 w1)
  = Ret (Some path1) ->
  fst (generate_speech env text2 (Some emotion2) intensity2 out2 w2)
  = Ret (Some path2) ->
  path1 = path2.
Proof.
  intros Hsec Hrun1 Hrun2.
  rewrite (generate_speech_path _ _ _ _ _ _ _ Hrun1).
  rewrite (generate_speech_path _ _ _ _ _ _ _ Hrun2).
  unfold speech_file. rewrite Hsec. reflexivity.
Qed.

(** Two calls a half second apart, for two different texts, write to one
    file. *)
Lemma same_second_same_file_witness :
  Py.int (now (Sample.world 1700000000.25))
  = Py.int (now (Sample.world 1700000000.75))
  /\ fst (generate_speech (Sample.env "gtts" 200) "good morning"
                          (Some "happy") "medium" None
                          (Sample.world 1700000000.25))
     = Ret (Some "/app/output/speech_1700000000.mp3")
  /\ fst (generate_speech (Sample.env "gtts" 200) "good night"
                          (Some "sad") "low" None
                          (Sample.world 1700000000.75))
     = Ret (Some "/app/output/speech_1700000000.mp3")
  /\ "/app/output/speech_1700000000.mp3"
     = "/app/output/speech_1700000000.mp3".
Proof.
  split; [reflexivity | ]. split; [reflexivity | ]. split; [reflexivity | ].
  apply (same_second_same_file
           (Sample.env "gtts" 200) "good morning" "good night"
           "happy" "sad" "medium" "low" None None
           (Sample.world 1700000000.25) (Sample.world 1700000000.75));
    reflexivity.
Defined.

End DispatchFacts.

(** ** The orchestrator *)

Module EngineFacts.

Import EmotionDetector VoiceModulator EmpathyEngine Spec BackendFacts
  DispatchFacts.

(** The detector returns the same result from every world, and the events
    it adds do not depend on the world either. *)
Lemma detect_emotion_frame env text :
  exists result evs, forall t tr,
    detect_emotion env text {| now := t; trace := tr |}
    = (Ret result, {| now := t; trace := tr ++ evs |}).
Proof.
  unfold detect_emotion.
  destruct (Py.is_empty text).
  { eexists _, []. intros t tr. rewrite app_nil_r. reflexivity. }
  unfold _advanced_emotion_analysis, _basic_sentiment_analysis.
  destruct (textblob env (_clean_text text)) as [polarity subjectivity].
  run. repeat (split_if; run);
    eexists _, _; intros t tr; rewrite <- ?app_assoc; reflexivity.
Qed.

Lemma analyze_with_intensity_frame env text :
  exists result evs, forall t tr,
    analyze_with_intensity env text {| now := t; trace := tr |}
    = (Ret result, {| now := t; trace := tr ++ evs |}).
Proof.
  destruct (detect_emotion_frame env text) as (result & evs & Hdetect).
  unfold analyze_with_intensity.
  eexists _, evs. intros t tr. unfold bind. rewrite Hdetect. reflexivity.
Qed.

Lemma scan_keeps_label results max_score label emotions :
  exists m l d,
    fold_left scan_step results (max_score, Some label, emotions)
    = (m, Some l, d).
Proof.
  revert max_score label emotions.
  induction results as [ | [l s] results IH]; intros m0 l0 d0; cbn.
  - eexists _, _, _. reflexivity.
  - destruct (Py.gtb s m0); apply IH.
Qed.

Lemma scan_finds_label results max_score emotions :
  0 <= max_score ->
  (exists label score, In (label, score) results /\ max_score < score) ->
  exists m l d,
    fold_left scan_step results (max_score, None, emotions) = (m, Some l, d).
Proof.
  revert max_score emotions.
  induction results as [ | [l s] results IH];
    intros m0 d0 Hm (l1 & s1 & Hin & Hs).
  - destruct Hin.
  - cbn. destruct (Py.gtb s m0) eqn:Hgt.
    + apply scan_keeps_label.
    + apply IH; [exact Hm | ].
      destruct Hin as [Heq | Hin].
      * injection Heq as -> ->. apply PyFacts.ltb_ge in Hgt. lra.
      * exists l1, s1. split; assumption.
Qed.

(** A model that scores some label above zero names an emotion. *)
Lemma scan_names_emotion results :
  (exists label score, In (label, score) results /\ 0 < score) ->
  exists label, emotion (scan results) = Some label.
Proof.
  intros H. unfold scan.
  destruct (scan_finds_label results 0 [] (Qle_refl 0) H) as (m & l & d & ->).
  exists l. reflexivity.
Qed.

(** With such a model, as with the lexical strategy, the analysis names an
    emotion on every text. *)
Lemma detector_names_emotion env text w result w1 :
  scores_positive env ->
  analyze_with_intensity env text w = (Ret result, w1) ->
  exists emotion, label result = Some emotion.
Proof.
  intros Hpos.
  unfold analyze_with_intensity, detect_emotion, _advanced_emotion_analysis,
    _basic_sentiment_analysis.
  destruct (textblob env (_clean_text text)) as [polarity subjectivity].
  destruct (DetectorFacts.sentiment_result_spec polarity subjectivity)
    as [Hlabel _].
  destruct (Py.is_empty text).
  { run. intros H. injection H as <- _. eexists. reflexivity. }
  unfold scores_positive in Hpos.
  destruct (emotion_classifier env) as [model | ] eqn:Hmodel.
  - destruct (model (_clean_text text)) as [results | ] eqn:Hresults.
    + destruct (scan_names_emotion results (Hpos _ _ _ eq_refl Hresults))
        as [l Hl].
      destruct (use_advanced env); run; rewrite ?Hmodel; run;
        rewrite ?Hresults; run;
        intros H; injection H as <- _; cbn [label]; eauto.
    + destruct (use_advanced env); run; rewrite ?Hmodel; run;
        rewrite ?Hresults; run;
        intros H; injection H as <- _; cbn [label]; eauto.
  - destruct (use_advanced env); run; rewrite ?Hmodel; run;
      intros H; injection H as <- _; cbn [label]; eauto.
Qed.

(** The lexical strategy always names an emotion. *)
Lemma lexical_label env text w result w1 :
  use_advanced env = false ->
  analyze_with_intensity env text w = (Ret result, w1) ->
  exists emotion, label result = Some emotion.
Proof.
  intros Hlexical.
  unfold analyze_with_intensity, detect_emotion, _basic_sentiment_analysis.
  rewrite Hlexical. cbn [andb].
  destruct (textblob env (_clean_text text)) as [polarity subjectivity].
  destruct (Py.is_empty text); run; intros H; injection H as <- _;
    cbn [label emotion sentiment_result].
  - eexists. reflexivity.
  - destruct (DetectorFacts.sentiment_result_spec polarity subjectivity)
      as [-> _].
    eexists. reflexivity.
Qed.

(** X26.  When the detector names an emotion and the directory of the
    output file need not or can be made, [process] returns a pair: the
    result of the analysis, and as audio path the time-stamped file of the
    engine when every step of the configured backend goes through (for the
    premium backend: of it or else of the basic one it falls back to),
    [None] when a step raises.  No exception of a backend escapes. *)
Theorem process_returns env text output_file w result w1 emotion :
  analyze_with_intensity env text w = (Ret result, w1) ->
  label result = Some emotion ->
  creatable env output_file = true ->
  exists rate pitch volume audio w2,
    modifiers emotion (intensity result) = Some (rate, pitch, volume)
    /\ process env text output_file w = (Ret (audio, result), w2)
    /\ audio = artifact (backend_works env (now w) text rate pitch volume)
                        (speech_file env (now w) (engine_ext env))
    /\ (audio = None
        <-> backend_works env (now w) text rate pitch volume = false).
Proof.
  intros Hanalyze Hlabel Hcreatable. destruct w as [t tr]. cbn [now].
  destruct (analyze_with_intensity_frame env text)
    as (result0 & evs & Hframe).
  rewrite Hframe in Hanalyze. injection Hanalyze as -> _.
  destruct (generate_speech_returns env text emotion (intensity result) t)
    as (rate & pitch & volume & evs1 & evs2 & Hmods & Hrun).
  exists rate, pitch, volume.
  exists (artifact (backend_works env t text rate pitch volume)
                   (speech_file env t (engine_ext env))).
  unfold process. run. rewrite Hframe. run. rewrite Hlabel.
  rewrite (Hrun output_file _ Hcreatable). run.
  destruct (Py.truthy _); run;
    (eexists; split; [exact Hmods | ]; split; [reflexivity | ];
     split; [reflexivity | ]);
    unfold artifact;
    destruct (backend_works env t text rate pitch volume);
    split; intros H; try reflexivity; discriminate H.
Qed.

Lemma process_returns_witness :
  exists rate pitch volume audio w2,
    modifiers "happy" "high" = Some (rate, pitch, volume)
    /\ process (Sample.env "elevenlabs" 401) "I am happy!"
               (Some "/tmp/audio/out.wav") (Sample.world 1700000000)
       = (Ret (audio,
               {| label := Some "happy";
                  intensity := "high";
                  confidence := 0.80;
                  indicators :=
                    [("polarity", 0.50); ("subjectivity", 0.60);
                     ("exclamations", 1); ("questions", 0);
                     ("caps_ratio", 0.11)] |}), w2)
    /\ audio
       = artifact (backend_works (Sample.env "elevenlabs" 401) 1700000000
                                 "I am happy!" rate pitch volume)
                  (speech_file (Sample.env "elevenlabs" 401) 1700000000
                               (engine_ext (Sample.env "elevenlabs" 401)))
    /\ (audio = None
        <-> backend_works (Sample.env "elevenlabs" 401) 1700000000
                          "I am happy!" rate pitch volume = false).
Proof.
  apply (process_returns
           (Sample.env "elevenlabs" 401) "I am happy!"
           (Some "/tmp/audio/out.wav") (Sample.world 1700000000)
           {| label := Some "happy";
              intensity := "high";
              confidence := 0.80;
              indicators :=
                [("polarity", 0.50); ("subjectivity", 0.60);
                 ("exclamations", 1); ("questions", 0);
                 ("caps_ratio", 0.11)] |}
           (snd (analyze_with_intensity
                   (Sample.env "elevenlabs" 401) "I am happy!"
                   (Sample.world 1700000000)))
           "happy").
  - reflexivity.
  - reflexivity.
  - reflexivity.
Defined.

(** C7 on the code.  With the bare file name "out.wav" as output file
    [process] returns no pair: the [FileNotFoundError] of [os.makedirs] on
    the empty directory of that name, raised in [generate_speech] outside
    every handler, escapes. *)
Theorem process_raises_on_bare_file_name :
  fst (process (Sample.env "gtts" 200) "hello" (Some "out.wav")
               (Sample.world 1700000000))
  = Raise FileNotFoundError.
Proof. reflexivity. Qed.

(** When the model scores no label, the analysis names no emotion and
    [generate_speech] raises on it. *)
Lemma process_raises_without_label :
  fst (process Sample.silent_model_env "hello" None (Sample.world 1700000000))
  = Raise AttributeError.
Proof. reflexivity. Qed.

End EngineFacts.

(** ** The prosody table in binary64

    [generate_speech] computes the modifiers in binary64.  This module
    evaluates that computation on the whole table and measures what the
    exact reading of the scaling law leaves out. *)

Module Binary64Facts.

Import Binary64 Binary64Table VoiceModulator.

(** A decimal literal of the model is the binary64 number nearest to the
    decimal: the quotient of its two integers, rounded once. *)
Lemma literals :
  (0.3 = of_Q 0.3 /\ 0.1 = of_Q 0.1 /\ 0.5 = of_Q 0.5 /\ 0.9 = of_Q 0.9
   /\ 1.1 = of_Q 1.1 /\ 0.7 = of_Q 0.7 /\ 1.0 = of_Q 1.0
   /\ 100 = of_Z 100 /\ 2 = of_Z 2)%float.
Proof. repeat split; vm_compute; reflexivity. Qed.

(** With factor 1 the binary64 computation gives back the base modifier bit
    for bit, on the whole table. *)
Lemma medium_exact :
  forallb (fun '(f, m) =>
             implb (Qeq_bool f 1)
                   (PrimFloat.eqb (Binary64.apply_intensity (of_Q f) (of_Q m))
                                  (of_Q m)))
          cases = true.
Proof. vm_compute. reflexivity. Qed.

(** On the whole table the binary64 result lies within 2^-52, one unit in
    the last place at 1, of the rational result. *)
Lemma rational_model_close :
  forallb (fun '(f, m) => Qle_bool (distance f m) (1 # 2 ^ 52)) cases = true.
Proof. vm_compute. reflexivity. Qed.

(** The two readings do differ in the last place: for happy at tier high the
    binary64 rate is not the binary64 number nearest to 1.3. *)
Lemma high_rate_rounded :
  PrimFloat.eqb (Binary64.apply_intensity (of_Q 1.5) (of_Q 1.2)) (of_Q 1.3)
  = false
  /\ VoiceModulator.apply_intensity 1.5 1.2 == 1.3.
Proof. split; vm_compute; reflexivity. Qed.

(** For every label and tier of the tables, each of the three modifiers
    handed to the backend lies within 2^-52 of the one the scaling law
    gives. *)
Lemma modifiers_close :
  forallb
    (fun '(label, _) =>
       forallb
         (fun '(tier, _) =>
            match modifiers label tier, scaled_modifiers label tier with
            | Some (r, p, v), Some (r', p', v') =>
                Qle_bool (Qabs (to_Q r - r')) (1 # 2 ^ 52)
                && Qle_bool (Qabs (to_Q p - p')) (1 # 2 ^ 52)
                && Qle_bool (Qabs (to_Q v - v')) (1 # 2 ^ 52)
            | _, _ => false
            end)
         intensity_mapping)
    emotion_mapping = true.
Proof. vm_compute. reflexivity. Qed.

(** The modifiers handed to the backend for "happy" at "high", where the
    scaling law gives 1.3, 1.225 and 1.15. *)
Lemma happy_high :
  modifiers "happy" "high"
  = Some (1.2999999999999998, 1.2249999999999999, 1.1500000000000001)%float.
Proof. vm_compute. reflexivity. Qed.

End Binary64Facts.

(** * Properties of the code beyond the specification *)

(** ** The prosody table *)

Module MapperFacts.

Import VoiceModulator Spec.

Lemma dict_get_index {V} (d : list (string * V)) k default :
  Py.dict_get d k default
  = match Py.dict_index d k with Some v => v | None => default end.
Proof.
  induction d as [ | [k' v'] d IH]; cbn; [reflexivity | ].
  destruct (String.eqb k' k); [reflexivity | exact IH].
Qed.

Lemma dict_index_none {V} (d : list (string * V)) k :
  ~ In k (map fst d) -> Py.dict_index d k = None.
Proof.
  induction d as [ | [k' v'] d IH]; cbn; [reflexivity | ].
  intros H. destruct (String.eqb_spec k' k) as [-> | Hne].
  - exfalso. apply H. left. reflexivity.
  - apply IH. intros Hin. apply H. right. exact Hin.
Qed.

Lemma dict_get_choice {V} (d : list (string * V)) k default :
  Py.dict_get d k default = default
  \/ In (Py.dict_get d k default) (map snd d).
Proof.
  induction d as [ | [k' v'] d IH]; cbn; [left; reflexivity | ].
  destruct (String.eqb k' k); [right; left; reflexivity | ].
  destruct IH as [IH | IH]; [left; exact IH | right; right; exact IH].
Qed.

Lemma neutral_row :
  Py.dict_index emotion_mapping "neutral" = Some (1.0, 1.0, 1.0).
Proof. reflexivity. Qed.

(** The binary64 tables have the keys of the tables of the source. *)
Lemma binary64_emotion_keys :
  map fst binary64_emotion_mapping = map fst emotion_mapping.
Proof. reflexivity. Qed.

Lemma binary64_intensity_keys :
  map fst binary64_intensity_mapping = map fst intensity_mapping.
Proof. reflexivity. Qed.

(** X1.  A label that is not in the emotion table (letter case ignored)
    gets the neutral modifiers 1, 1, 1, whatever the intensity: nothing is
    modulated and nothing raises.  This holds of the scaling law in exact
    arithmetic and of the binary64 modifiers [generate_speech] hands to the
    backend. *)
Theorem unknown_label_is_neutral emotion intensity :
  ~ In (Py.lower emotion) (map fst emotion_mapping) ->
  scaled_modifiers emotion intensity = Some (1.0, 1.0, 1.0)
  /\ modifiers emotion intensity = Some (1.0, 1.0, 1.0)%float.
Proof.
  intros H. split.
  - unfold scaled_modifiers.
    rewrite neutral_row.
    rewrite dict_get_index, (dict_index_none _ _ H). reflexivity.
  - unfold modifiers.
    rewrite DispatchFacts.neutral_row_binary64.
    rewrite <- binary64_emotion_keys in H.
    rewrite dict_get_index, (dict_index_none _ _ H). reflexivity.
Qed.

Lemma unknown_label_is_neutral_witness :
  scaled_modifiers "Bored" "high" = Some (1.0, 1.0, 1.0)
  /\ modifiers "Bored" "high" = Some (1.0, 1.0, 1.0)%float.
Proof.
  apply (unknown_label_is_neutral "Bored" "high").
  cbn. intros H.
  repeat (destruct H as [H | H]; [discriminate H | ]). exact H.
Defined.

(** X2.  An intensity that is not in the intensity table (letter case
    ignored) is treated as "medium", in exact arithmetic and in binary64. *)
Theorem unknown_intensity_is_medium emotion intensity :
  ~ In (Py.lower intensity) (map fst intensity_mapping) ->
  scaled_modifiers emotion intensity = scaled_modifiers emotion "medium"
  /\ modifiers emotion intensity = modifiers emotion "medium".
Proof.
  intros H. split.
  - unfold scaled_modifiers.
    rewrite (dict_get_index intensity_mapping (Py.lower intensity)),
      (dict_index_none _ _ H).
    reflexivity.
  - unfold modifiers.
    rewrite <- binary64_intensity_keys in H.
    rewrite (dict_get_index binary64_intensity_mapping (Py.lower intensity)),
      (dict_index_none _ _ H).
    reflexivity.
Qed.

Lemma unknown_intensity_is_medium_witness :
  scaled_modifiers "sad" "extreme" = scaled_modifiers "sad" "medium"
  /\ modifiers "sad" "extreme" = modifiers "sad" "medium".
Proof.
  apply (unknown_intensity_is_medium "sad" "extreme").
  cbn. intros H.
  repeat (destruct H as [H | H]; [discriminate H | ]). exact H.
Defined.

(** The rows and the factors a look-up can give. *)
Lemma row_choice {V} (d : list (string * V)) k default :
  In (Py.dict_get d k default) (default :: map snd d).
Proof.
  destruct (dict_get_choice d k default) as [H | H];
    [left; symmetry; exact H | right; exact H].
Qed.

(** X3.  Whatever the label and the intensity, the modifiers stay within
    fixed bounds.  Those [generate_speech] hands to the backend, computed in
    binary64: the rate in [0.85, 1.4500000000000002], the pitch in
    [0.7749999999999999, 1.3], the volume in [0.85, 1.3].  Those of the
    scaling law in exact arithmetic: the rate in [0.85, 1.45], the pitch in
    [0.775, 1.3], the volume in [0.85, 1.3]. *)
Theorem scaled_modifiers_in_range emotion intensity :
  (exists rate pitch volume,
      modifiers emotion intensity = Some (rate, pitch, volume)
      /\ ((0.85 <=? rate) && (rate <=? 1.4500000000000002)
          && (0.7749999999999999 <=? pitch) && (pitch <=? 1.3)
          && (0.85 <=? volume) && (volume <=? 1.3))%float = true)
  /\ exists rate pitch volume,
      scaled_modifiers emotion intensity = Some (rate, pitch, volume)
      /\ 0.85 <= rate <= 1.45
      /\ 0.775 <= pitch <= 1.3
      /\ 0.85 <= volume <= 1.3.
Proof.
  split.
  - unfold modifiers. rewrite DispatchFacts.neutral_row_binary64.
    pose proof (row_choice binary64_emotion_mapping (Py.lower emotion)
                           (1.0, 1.0, 1.0)%float) as Hrows.
    pose proof (row_choice binary64_intensity_mapping (Py.lower intensity)
                           1.0%float) as Hfs.
    set (row := Py.dict_get binary64_emotion_mapping _ _) in *.
    set (f := Py.dict_get binary64_intensity_mapping _ _) in *.
    clearbody row f. destruct row as [[r p] v].
    vm_compute in Hrows, Hfs.
    repeat (destruct Hfs as [<- | Hfs]; [ | ]); try contradiction;
      repeat (destruct Hrows as [Hrow | Hrows];
              [injection Hrow as <- <- <- | ]); try contradiction;
      (eexists _, _, _; split; [reflexivity | ]; vm_compute; reflexivity).
  - unfold scaled_modifiers. rewrite neutral_row.
    pose proof (row_choice emotion_mapping (Py.lower emotion)
                           (1.0, 1.0, 1.0)) as Hrows.
    pose proof (row_choice intensity_mapping (Py.lower intensity) 1.0)
      as Hfs.
    set (row := Py.dict_get emotion_mapping _ _) in *.
    set (f := Py.dict_get intensity_mapping _ _) in *.
    clearbody row f. destruct row as [[r p] v]. destruct f as [fn fd].
    cbn in Hrows, Hfs.
    repeat (destruct Hfs as [Hf | Hfs]; [injection Hf as <- <- | ]);
      try contradiction;
      repeat (destruct Hrows as [Hrow | Hrows];
              [injection Hrow as <- <- <- | ]); try contradiction;
      (eexists _, _, _; split; [reflexivity | ]; vm_compute;
       intuition discriminate).
Qed.

(** The basic cloud backend is asked for slow speech exactly for "sad" at
    "high": in exact arithmetic and in binary64 the rate is below 0.9 in
    that case only. *)
Lemma slow_flag_exact emotion intensity :
  exists rate pitch volume,
    scaled_modifiers emotion intensity = Some (rate, pitch, volume)
    /\ Py.ltb rate 0.9 = Notions.sad_high emotion intensity.
Proof.
  unfold scaled_modifiers, Notions.sad_high. rewrite neutral_row.
  unfold emotion_mapping, intensity_mapping. cbn [Py.dict_get].
  repeat match goal with
         | |- context [String.eqb ?a (Py.lower ?b)] =>
             destruct (String.eqb_spec a (Py.lower b)) as [<- | ?]
         end;
    (eexists _, _, _; split; [reflexivity | ]);
    repeat match goal with
           | |- context [String.eqb (Py.lower ?b) ?a] =>
               destruct (String.eqb_spec (Py.lower b) a)
           end;
    try reflexivity; try congruence; try discriminate.
Qed.

Lemma slow_flag emotion intensity :
  exists rate pitch volume,
    modifiers emotion intensity = Some (rate, pitch, volume)
    /\ (rate <? 0.9)%float = Notions.sad_high emotion intensity.
Proof.
  unfold modifiers, Notions.sad_high.
  rewrite DispatchFacts.neutral_row_binary64.
  unfold binary64_emotion_mapping, binary64_intensity_mapping,
    emotion_mapping, intensity_mapping.
  cbn [map Py.dict_get].
  repeat match goal with
         | |- context [String.eqb ?a (Py.lower ?b)] =>
             destruct (String.eqb_spec a (Py.lower b)) as [<- | ?]
         end;
    (eexists _, _, _; split; [reflexivity | ]);
    repeat match goal with
           | |- context [String.eqb (Py.lower ?b) ?a] =>
               destruct (String.eqb_spec (Py.lower b) a)
           end;
    try (vm_compute; reflexivity); try congruence; try discriminate.
Qed.

End MapperFacts.

(** ** The cleaning of the text *)

Module UrlFacts.

Import EmotionDetector Notions.

Lemma url_at_inv s :
  Py.url_at s = true ->
  exists x rest,
    s = String "h" (String "t" (String "t" (String "p" (String x rest))))
    /\ Py.isspace x = false.
Proof.
  unfold Py.url_at.
  destruct s as [ | c1 [ | c2 [ | c3 [ | c4 [ | x rest]]]]];
    cbn [prefix get andb];
    repeat match goal with
           | |- context [ascii_dec ?a ?b] =>
               destruct (ascii_dec a b); cbn [prefix get andb]
           end; try discriminate.
  subst. intros H. apply negb_true_iff in H. eauto.
Qed.

Lemma url_at_intro x rest :
  Py.isspace x = false ->
  Py.url_at (String "h" (String "t" (String "t" (String "p" (String x rest)))))
  = true.
Proof.
  intros H. unfold Py.url_at. cbn [prefix get andb].
  repeat match goal with
         | |- context [ascii_dec ?a ?b] =>
             destruct (ascii_dec a b); [ | congruence]
         end.
  cbn [andb negb]. now rewrite H.
Qed.

Lemma url_at_space c s : Py.isspace c = true -> Py.url_at (String c s) = false.
Proof.
  intros H. destruct (Py.url_at (String c s)) eqn:E; [ | reflexivity].
  apply url_at_inv in E. destruct E as (x & rest & Heq & _).
  injection Heq as -> _. discriminate H.
Qed.

(** After a match the scan emits nothing before the next white space. *)
Lemma sub_url_gap skip s :
  match Py.sub_url skip true s with
  | EmptyString => True
  | String c _ => Py.isspace c = true
  end.
Proof.
  revert skip. induction s as [ | c s IH]; intros skip; cbn [Py.sub_url];
    [exact I | ].
  destruct skip as [ | k]; [ | apply IH].
  destruct (Py.isspace c) eqn:Hc; cbn [andb negb]; [ | apply IH].
  rewrite (url_at_space _ _ Hc). exact Hc.
Qed.

(** A character other than white space at the head of the output is the
    head of the input, kept because no match starts there. *)
Lemma sub_url_head s y out :
  Py.sub_url 0 false s = String y out ->
  Py.isspace y = false ->
  exists s', s = String y s' /\ out = Py.sub_url 0 false s'
             /\ Py.url_at s = false.
Proof.
  destruct s as [ | c s']; cbn [Py.sub_url andb]; [discriminate | ].
  destruct (Py.url_at (String c s')) eqn:Hurl.
  - intros Hout Hy. pose proof (sub_url_gap 3 s') as Hgap.
    rewrite Hout in Hgap. congruence.
  - intros Hout _. injection Hout as -> <-. eauto.
Qed.

Lemma sub_url_free skip in_url s :
  url_free (Py.sub_url skip in_url s) = true.
Proof.
  revert skip in_url. induction s as [ | c s IH]; intros skip in_url;
    cbn [Py.sub_url]; [reflexivity | ].
  destruct skip as [ | k]; [ | apply IH].
  destruct (in_url && negb (Py.isspace c))%bool eqn:Hin; [apply IH | ].
  destruct (Py.url_at (String c s)) eqn:Hurl; [apply IH | ].
  cbn [url_free]. rewrite IH, andb_true_r. apply negb_true_iff.
  destruct (Py.url_at (String c (Py.sub_url 0 false s))) eqn:Hout;
    [ | reflexivity].
  apply url_at_inv in Hout. destruct Hout as (x & rest & Heq & Hx).
  injection Heq as -> Heq.
  destruct (sub_url_head _ _ _ Heq eq_refl) as (s1 & -> & Heq1 & _).
  symmetry in Heq1.
  destruct (sub_url_head _ _ _ Heq1 eq_refl) as (s2 & -> & Heq2 & _).
  symmetry in Heq2.
  destruct (sub_url_head _ _ _ Heq2 eq_refl) as (s3 & -> & Heq3 & _).
  symmetry in Heq3.
  destruct (sub_url_head _ _ _ Heq3 Hx) as (s4 & -> & _ & _).
  rewrite (url_at_intro x s4 Hx) in Hurl. discriminate Hurl.
Qed.

(** X4.  The text [_clean_text] returns holds no URL: nowhere in it does a
    match of [http\S+] start, so removing the matches does not bring the
    pieces around them together into a new one. *)
Theorem clean_text_url_free text : url_free (_clean_text text) = true.
Proof. unfold _clean_text, Py.re_sub_url. apply sub_url_free. Qed.

End UrlFacts.

(** ** The model-based strategy *)

Module DictFacts.

Lemma index_set_same {V} (d : list (string * V)) k v :
  Py.dict_index (Py.dict_set d k v) k = Some v.
Proof.
  induction d as [ | [k' v'] d IH]; cbn.
  - now rewrite String.eqb_refl.
  - destruct (String.eqb k' k) eqn:E; cbn; rewrite E; [reflexivity | exact IH].
Qed.

Lemma index_set_other {V} (d : list (string * V)) k k' v :
  k <> k' ->
  Py.dict_index (Py.dict_set d k v) k' = Py.dict_index d k'.
Proof.
  intros Hne. induction d as [ | [k0 v0] d IH]; cbn.
  - destruct (String.eqb_spec k k'); [contradiction | reflexivity].
  - destruct (String.eqb_spec k0 k) as [-> | ]; cbn.
    + destruct (String.eqb_spec k k'); [contradiction | reflexivity].
    + destruct (String.eqb k0 k'); [reflexivity | exact IH].
Qed.

End DictFacts.

Module ModelFacts.

Import EmotionDetector Spec.

(** One run of the loop from any state: the maximum only grows, bounds every
    score met, and either nothing beat it or it is the score of the label
    now held. *)
Lemma scan_loop results m e d :
  exists m' e' d',
    fold_left scan_step results (m, e, d) = (m', e', d')
    /\ m <= m'
    /\ (forall l s, In (l, s) results -> s <= m')
    /\ ((m' = m /\ e' = e)
        \/ (exists l, e' = Some l /\ In (l, m') results /\ m < m')).
Proof.
  revert m e d.
  induction results as [ | [l s] results IH]; intros m e d; cbn [fold_left].
  - exists m, e, d. repeat split; [apply Qle_refl | intros l s [] | auto].
  - cbn [scan_step]. destruct (Py.gtb s m) eqn:Hgt.
    + apply PyFacts.gtb_gt in Hgt.
      destruct (IH s (Some l) (Py.dict_set d l (Py.round2 s)))
        as (m' & e' & d' & Hrun & Hle & Hmax & Hwho).
      exists m', e', d'. split; [exact Hrun | ].
      split; [lra | ]. split.
      * intros l0 s0 [Heq | Hin]; [injection Heq as _ <-; exact Hle | eauto].
      * right. destruct Hwho as [[-> ->] | (l1 & -> & Hin & Hlt)].
        -- exists l. repeat split; [left; reflexivity | exact Hgt].
        -- exists l1. repeat split; [right; exact Hin | lra].
    + apply PyFacts.gtb_le in Hgt.
      destruct (IH m e (Py.dict_set d l (Py.round2 s)))
        as (m' & e' & d' & Hrun & Hle & Hmax & Hwho).
      exists m', e', d'. split; [exact Hrun | ].
      split; [exact Hle | ]. split.
      * intros l0 s0 [Heq | Hin]; [injection Heq as _ <-; lra | eauto].
      * destruct Hwho as [Hsame | (l1 & -> & Hin & Hlt)];
          [left; exact Hsame | ].
        right. exists l1. repeat split; [right; exact Hin | exact Hlt].
Qed.

(** The winner of the whole loop when some score is positive. *)
Lemma scan_winner results :
  (exists label score, In (label, score) results /\ 0 < score) ->
  exists m l d,
    fold_left scan_step results (0, None, []) = (m, Some l, d)
    /\ In (l, m) results /\ 0 < m
    /\ forall l' s', In (l', s') results -> s' <= m.
Proof.
  intros (l0 & s0 & Hin0 & Hpos).
  destruct (scan_loop results 0 None [])
    as (m & e & d & Hrun & Hle & Hmax & Hwho).
  destruct Hwho as [[-> ->] | (l & -> & Hin & Hlt)].
  - specialize (Hmax _ _ Hin0). lra.
  - exists m, l, d. auto.
Qed.

(** X5.  When the model scores some label above zero, the emotion of
    [_advanced_emotion_analysis] is a label of greatest score, and the
    score returned is that score rounded to two decimals. *)
Theorem scan_picks_maximum results :
  (exists label score, In (label, score) results /\ 0 < score) ->
  exists label score,
    emotion (scan results) = Some label
    /\ In (label, score) results
    /\ EmotionDetector.score (scan results) = Py.round2 score
    /\ 0 < score
    /\ forall label' score', In (label', score') results -> score' <= score.
Proof.
  intros Hpos.
  destruct (scan_winner results Hpos) as (m & l & d & Hrun & Hin & Hm & Hmax).
  unfold scan. rewrite Hrun.
  exists l, m. cbn [emotion EmotionDetector.score]. auto.
Qed.

Lemma scan_picks_maximum_witness :
  exists label score,
    emotion (scan [("anger", 0.1); ("joy", 0.7); ("sadness", 0.2)])
    = Some label
    /\ In (label, score) [("anger", 0.1); ("joy", 0.7); ("sadness", 0.2)]
    /\ EmotionDetector.score
         (scan [("anger", 0.1); ("joy", 0.7); ("sadness", 0.2)])
       = Py.round2 score
    /\ 0 < score
    /\ forall label' score',
        In (label', score') [("anger", 0.1); ("joy", 0.7); ("sadness", 0.2)] ->
        score' <= score.
Proof.
  apply (scan_picks_maximum [("anger", 0.1); ("joy", 0.7); ("sadness", 0.2)]).
  exists "joy", 0.7. split; [right; left; reflexivity | reflexivity].
Defined.

(** The scores kept for labels the loop does not meet again stay. *)
Lemma scan_keeps_other results m e d k :
  ~ In k (map fst results) ->
  exists m' e' d',
    fold_left scan_step results (m, e, d) = (m', e', d')
    /\ Py.dict_index d' k = Py.dict_index d k.
Proof.
  revert m e d.
  induction results as [ | [l s] results IH]; intros m e d Hk; cbn [fold_left].
  - eexists _, _, _. split; reflexivity.
  - cbn [scan_step]. cbn in Hk.
    assert (l <> k) as Hne by tauto.
    assert (~ In k (map fst results)) as Hk' by tauto.
    destruct (Py.gtb s m);
      [destruct (IH s (Some l) (Py.dict_set d l (Py.round2 s)) Hk')
        as (m' & e' & d' & Hrun & Hd)
      | destruct (IH m e (Py.dict_set d l (Py.round2 s)) Hk')
        as (m' & e' & d' & Hrun & Hd)];
      exists m', e', d'; (split; [exact Hrun | ]);
      rewrite Hd; apply DictFacts.index_set_other; exact Hne.
Qed.

Lemma scan_records results m e d l s :
  NoDup (map fst results) ->
  In (l, s) results ->
  exists m' e' d',
    fold_left scan_step results (m, e, d) = (m', e', d')
    /\ Py.dict_index d' l = Some (Py.round2 s).
Proof.
  revert m e d.
  induction results as [ | [l0 s0] results IH]; intros m e d Hnd Hin;
    [destruct Hin | ].
  cbn [fold_left scan_step]. cbn in Hnd. inversion Hnd as [ | ? ? Hfresh Hnd'].
  subst.
  destruct Hin as [Heq | Hin].
  - injection Heq as -> ->.
    destruct (Py.gtb s m);
      [destruct (scan_keeps_other results s (Some l)
                   (Py.dict_set d l (Py.round2 s)) l Hfresh)
        as (m' & e' & d' & Hrun & Hd)
      | destruct (scan_keeps_other results m e
                   (Py.dict_set d l (Py.round2 s)) l Hfresh)
        as (m' & e' & d' & Hrun & Hd)];
      exists m', e', d'; (split; [exact Hrun | ]);
      rewrite Hd; apply DictFacts.index_set_same.
  - destruct (Py.gtb s0 m); apply IH; assumption.
Qed.

(** X6.  When the model names every label once and scores some label above
    zero, the score returned is the one the details hold for the emotion
    returned. *)
Theorem scan_score_is_label_score results :
  NoDup (map fst results) ->
  (exists label score, In (label, score) results /\ 0 < score) ->
  exists label,
    emotion (scan results) = Some label
    /\ Py.dict_index (details (scan results)) label
       = Some (EmotionDetector.score (scan results)).
Proof.
  intros Hnd Hpos.
  destruct (scan_winner results Hpos) as (m & l & d & Hrun & Hin & _ & _).
  destruct (scan_records results 0 None [] l m Hnd Hin)
    as (m' & e' & d' & Hrun' & Hd).
  rewrite Hrun in Hrun'. injection Hrun' as <- <- <-.
  exists l. unfold scan. rewrite Hrun.
  cbn [emotion details EmotionDetector.score]. split; [reflexivity | exact Hd].
Qed.

Lemma scan_score_is_label_score_witness :
  exists label,
    emotion (scan [("anger", 0.1); ("joy", 0.7); ("sadness", 0.2)])
    = Some label
    /\ Py.dict_index
         (details (scan [("anger", 0.1); ("joy", 0.7); ("sadness", 0.2)]))
         label
       = Some (EmotionDetector.score
                 (scan [("anger", 0.1); ("joy", 0.7); ("sadness", 0.2)])).
Proof.
  apply (scan_score_is_label_score
           [("anger", 0.1); ("joy", 0.7); ("sadness", 0.2)]).
  - cbn [map fst].
    repeat (apply NoDup_cons;
            [cbn [In]; intros H;
             repeat (destruct H as [H | H]; [discriminate H | ]); exact H
            | ]).
    apply NoDup_nil.
  - exists "joy", 0.7. split; [right; left; reflexivity | reflexivity].
Defined.

End ModelFacts.

(** ** The detector *)

Module FallbackFacts.

Import EmotionDetector Spec.

(** X7.  When the loaded model raises on a text, [detect_emotion] returns
    what the lexical strategy returns on it: the model is called once, the
    error and the fallback are logged, the lexical scorer is called once. *)
Theorem model_failure_falls_back env model text w :
  text <> EmptyString ->
  use_advanced env = true ->
  emotion_classifier env = Some model ->
  model (_clean_text text) = None ->
  exists evs,
    detect_emotion env text w
    = (Ret (sentiment_result (fst (textblob env (_clean_text text)))
                             (snd (textblob env (_clean_text text)))),
       {| now := now w; trace := (trace w ++ evs)%list |})
    /\ evs = [ClassifierCall (_clean_text text);
              Log ERROR "Error in advanced emotion analysis: ";
              Log WARNING "Falling back to basic sentiment analysis";
              TextBlobCall (_clean_text text);
              Log INFO "Detected emotion:  (score: )"].
Proof.
  intros Htext Hadv Hmodel Hraise.
  unfold detect_emotion, _advanced_emotion_analysis, _basic_sentiment_analysis.
  destruct text as [ | c text]; [contradiction | ]. cbn [Py.is_empty].
  rewrite Hadv, Hmodel. cbn [andb].
  destruct (textblob env (_clean_text (String c text))) as [p s].
  run. rewrite Hmodel. run. rewrite Hraise. run.
  eexists. split; [ | reflexivity].
  rewrite <- !app_assoc. reflexivity.
Qed.

Lemma model_failure_falls_back_witness :
  exists evs,
    detect_emotion HostSample.failing_model_env "I am happy!"
                   (Sample.world 1700000000)
    = (Ret (sentiment_result 0.5 0.6),
       {| now := 1700000000; trace := ([] ++ evs)%list |})
    /\ evs = [ClassifierCall "I am happy!";
              Log ERROR "Error in advanced emotion analysis: ";
              Log WARNING "Falling back to basic sentiment analysis";
              TextBlobCall "I am happy!";
              Log INFO "Detected emotion:  (score: )"].
Proof.
  apply (model_failure_falls_back
           HostSample.failing_model_env (fun _ => None) "I am happy!"
           (Sample.world 1700000000)).
  - discriminate.
  - reflexivity.
  - reflexivity.
  - reflexivity.
Defined.

(** In the report the capitals ratio is the binary64 quotient rounded: one
    capital among forty characters gives 0.03, the quotient lying just above
    0.025, where the exact quotient gives 0.02. *)
Lemma caps_ratio_rounding :
  Binary64.round2 (Binary64.true_div 1 40) = 0.03
  /\ Py.round2 (1 / 40) = 0.02.
Proof. split; vm_compute; reflexivity. Qed.

(** X8.  [analyze_with_intensity] reports, under their three keys and
    whatever the detector reported under these names, the number of
    exclamation marks, the number of question marks and the capitals ratio:
    the number of capitals divided in binary64 by the number of characters
    other than the space (by 1 when there is none), rounded to two
    decimals.  Every other detail of the detector is kept. *)
Theorem analyze_reports_indicators env text w :
  exists result w1 r,
    detect_emotion env text w = (Ret result, w1)
    /\ analyze_with_intensity env text w = (Ret r, w1)
    /\ Py.dict_index (indicators r) "exclamations"
       = Some (inject_Z (Z.of_nat (exclamations text)))
    /\ Py.dict_index (indicators r) "questions"
       = Some (inject_Z (Z.of_nat (Py.count (Py.is_char "?") text)))
    /\ Py.dict_index (indicators r) "caps_ratio"
       = Some (Binary64.round2
                 (Binary64.true_div
                    (Z.of_nat (Py.count Py.isupper text))
                    (Z.of_nat (Nat.max (non_space text) 1))))
    /\ forall key,
        ~ In key ["exclamations"; "questions"; "caps_ratio"] ->
        Py.dict_index (indicators r) key = Py.dict_index (details result) key.
Proof.
  destruct (DetectorFacts.detect_emotion_returns env text w)
    as (result & w1 & Hdetect).
  exists result, w1.
  unfold analyze_with_intensity, bind. rewrite Hdetect. unfold ret.
  eexists. split; [reflexivity | ]. split; [reflexivity | ].
  cbn [indicators].
  split.
  { rewrite !DictFacts.index_set_other by discriminate.
    apply DictFacts.index_set_same. }
  split.
  { rewrite DictFacts.index_set_other by discriminate.
    apply DictFacts.index_set_same. }
  split.
  { rewrite <- IntensityFacts.length_remove_space.
    apply DictFacts.index_set_same. }
  intros key Hkey. cbn in Hkey.
  rewrite !DictFacts.index_set_other; [reflexivity | | | ];
    intros <-; tauto.
Qed.

End FallbackFacts.

(** ** The speech backends *)

Module BackendMore.

Import VoiceModulator Spec Notions.

(** X9.  [_apply_pyttsx3_modulation] never raises, whatever the engine and
    the file system do and whatever the modifiers are.  Every volume it sets
    on the engine is a [float] at most 1, and every rate it sets is an
    [int]. *)
Theorem pyttsx3_settings env text rate pitch volume w :
  exists result evs,
    _apply_pyttsx3_modulation env text rate pitch volume w
    = (Ret result, {| now := now w; trace := (trace w ++ evs)%list |})
    /\ (forall e x, In e evs -> is_volume e = Some x ->
                    exists v, x = PyFloat v /\ (v <=? 1.0)%float = true)
    /\ (forall e x, In e evs -> is_rate e = Some x ->
                    exists n : Z, x = PyInt n).
Proof.
  pose proof (FloatFacts.min_le_1 (default_volume env * volume)%float)
    as Hmin.
  destruct w as [t tr].
  unfold _apply_pyttsx3_modulation. run.
  repeat (first [split_int | split_if]; run); rewrite <- ?app_assoc;
    (eexists _, _; split; [reflexivity | ]; split;
     [ intros ev x Hin; cbn [In app] in Hin;
       repeat (destruct Hin as [<- | Hin];
               [cbn; intros H;
                first [ discriminate H
                      | injection H as <-; eexists;
                        split; [reflexivity | exact Hmin] ]
               | ]);
       destruct Hin
     | intros ev x Hin; cbn [In app] in Hin;
       repeat (destruct Hin as [<- | Hin];
               [cbn; intros H; try discriminate H;
                injection H as <-; eexists; reflexivity | ]);
       destruct Hin ]).
Qed.

(** The rates of the engine of the sample, whose default rate is 200, for
    the modifiers of "fear" at "medium": the first rate is 229, the product
    229.99999999999997 cut toward zero, and the rate adjusted for the pitch
    is 240; the decimals themselves give 230 and 241. *)
Lemma pyttsx3_rates_example :
  filter (fun e => match is_rate e with Some _ => true | None => false end)
         (trace (snd (_apply_pyttsx3_modulation
                        (Sample.env "pyttsx3" 200) "hello" 1.15 1.1 0.95
                        (Sample.world 1700000000))))
  = [SetProperty "rate" (PyInt 229); SetProperty "rate" (PyInt 240)]
  /\ Py.int (200 * 1.15) = 230%Z
  /\ Py.int (230 * (1.1 * 0.5 + 0.5)) = 241%Z.
Proof. repeat split; vm_compute; reflexivity. Qed.

(** X10.  When the premium backend works (its directory can be made, the
    three modifiers have percentages, the service answers 200, the answer
    can be written), [_apply_elevenlabs_modulation] returns its time-stamped
    mp3 file after exactly four events: the directory, the request, the
    write and one line of log.  The basic backend is not called. *)
Theorem elevenlabs_success env text rate pitch volume w :
  premium_works env (now w) text rate pitch volume = true ->
  _apply_elevenlabs_modulation env text rate pitch volume w
  = (Ret (Some (speech_file env (now w) ".mp3")),
     {| now := now w;
        trace := (trace w ++
                  [MakeDirs (Py.dirname (speech_file env (now w) ".mp3"));
                   HttpPost (elevenlabs_url env)
                            (request_body text rate pitch volume)
                            (elevenlabs_stability rate);
                   WriteFile (speech_file env (now w) ".mp3");
                   Log INFO "Generated audio file with ElevenLabs: "])%list |}).
Proof.
  destruct w as [t tr]. cbn [now trace].
  unfold premium_works, dir_ok, _apply_elevenlabs_modulation.
  destruct (convertible rate && convertible pitch && convertible volume)%bool
    eqn:Hconv.
  - rewrite (SsmlFacts.ssml_text_returns _ _ _ _ Hconv). run.
    repeat (split_if; run); intros H; try discriminate H.
    rewrite <- !app_assoc. reflexivity.
  - rewrite andb_false_r. discriminate.
Qed.

Lemma elevenlabs_success_witness :
  _apply_elevenlabs_modulation (Sample.env "elevenlabs" 200) "I am happy!"
                               1.3 1.225 1.15 (Sample.world 1700000000)
  = (Ret (Some "/app/output/speech_1700000000.mp3"),
     {| now := 1700000000;
        trace :=
          [MakeDirs "/app/output";
           HttpPost
             (elevenlabs_url (Sample.env "elevenlabs" 200))
             (request_body "I am happy!" 1.3 1.225 1.15)
             (elevenlabs_stability 1.3);
           WriteFile "/app/output/speech_1700000000.mp3";
           Log INFO "Generated audio file with ElevenLabs: "] |}).
Proof.
  apply (elevenlabs_success (Sample.env "elevenlabs" 200) "I am happy!"
                            1.3 1.225 1.15 (Sample.world 1700000000)).
  reflexivity.
Defined.

(** X11.  The rate [generate_speech] computes is below 0.9, which is when
    the basic cloud backend asks for slow speech, exactly for the label
    "sad" at the intensity "high" (letter case ignored): so it is for the
    rate of the scaling law in exact arithmetic, and so it is for the
    binary64 rate handed to the backend. *)
Theorem gtts_slow_only_for_sad_high emotion intensity :
  (exists rate pitch volume,
      scaled_modifiers emotion intensity = Some (rate, pitch, volume)
      /\ (Py.ltb rate 0.9 = true
          <-> Py.lower emotion = "sad" /\ Py.lower intensity = "high"))
  /\ exists rate pitch volume,
      modifiers emotion intensity = Some (rate, pitch, volume)
      /\ ((rate <? 0.9)%float = true
          <-> Py.lower emotion = "sad" /\ Py.lower intensity = "high").
Proof.
  split.
  - destruct (MapperFacts.slow_flag_exact emotion intensity)
      as (rate & pitch & volume & Hmods & Hslow).
    exists rate, pitch, volume. split; [exact Hmods | ].
    rewrite Hslow. unfold sad_high.
    rewrite andb_true_iff, !String.eqb_eq. reflexivity.
  - destruct (MapperFacts.slow_flag emotion intensity)
      as (rate & pitch & volume & Hmods & Hslow).
    exists rate, pitch, volume. split; [exact Hmods | ].
    rewrite Hslow. unfold sad_high.
    rewrite andb_true_iff, !String.eqb_eq. reflexivity.
Qed.

(** On the basic cloud engine two runs of [generate_speech] whose labels
    and intensities agree on being "sad" at "high" leave the same result
    and the same trace, a line of log being in the trace by its text without
    the values it prints. *)
Lemma gtts_runs_alike env text emotion1 intensity1 emotion2 intensity2
      output_file w :
  engine_type env <> "pyttsx3" ->
  engine_type env <> "elevenlabs" ->
  sad_high emotion1 intensity1 = sad_high emotion2 intensity2 ->
  generate_speech env text (Some emotion1) intensity1 output_file w
  = generate_speech env text (Some emotion2) intensity2 output_file w.
Proof.
  intros Hlocal Hpremium Hsame.
  destruct (MapperFacts.slow_flag emotion1 intensity1)
    as (r1 & p1 & v1 & Hmods1 & Hslow1).
  destruct (MapperFacts.slow_flag emotion2 intensity2)
    as (r2 & p2 & v2 & Hmods2 & Hslow2).
  apply String.eqb_neq in Hlocal, Hpremium.
  unfold generate_speech. rewrite Hmods1, Hmods2, Hlocal, Hpremium.
  assert (_apply_gtts_modulation env text r1 p1 v1
          = _apply_gtts_modulation env text r2 p2 v2) as ->.
  { unfold _apply_gtts_modulation. rewrite Hslow1, Hslow2, Hsame.
    reflexivity. }
  reflexivity.
Qed.

(** X12.  On the basic cloud engine, [generate_speech] gives the same
    result and makes the same calls to the file system and to the speech
    service, in the same order, for two labels and intensities unless
    exactly one of them is "sad" at "high": pitch and volume are not used,
    and the rate only through the slow flag.  (The lines of log are left
    out: two of them print the label, the intensity and the modifiers.) *)
Theorem gtts_emotion_blind env text emotion1 intensity1 emotion2 intensity2
        output_file w :
  engine_type env <> "pyttsx3" ->
  engine_type env <> "elevenlabs" ->
  sad_high emotion1 intensity1 = sad_high emotion2 intensity2 ->
  fst (generate_speech env text (Some emotion1) intensity1 output_file w)
  = fst (generate_speech env text (Some emotion2) intensity2 output_file w)
  /\ calls (trace (snd (generate_speech env text (Some emotion1) intensity1
                                        output_file w)))
     = calls (trace (snd (generate_speech env text (Some emotion2) intensity2
                                          output_file w))).
Proof.
  intros Hlocal Hpremium Hsame.
  rewrite (gtts_runs_alike env text emotion1 intensity1 emotion2 intensity2
                           output_file w Hlocal Hpremium Hsame).
  split; reflexivity.
Qed.

Lemma gtts_emotion_blind_witness :
  fst (generate_speech (Sample.env "gtts" 200) "I am happy!" (Some "happy")
                       "high" None (Sample.world 1700000000))
  = fst (generate_speech (Sample.env "gtts" 200) "I am happy!" (Some "angry")
                         "low" None (Sample.world 1700000000))
  /\ calls (trace (snd (generate_speech (Sample.env "gtts" 200) "I am happy!"
                                        (Some "happy") "high" None
                                        (Sample.world 1700000000))))
     = calls (trace (snd (generate_speech (Sample.env "gtts" 200)
                                          "I am happy!" (Some "angry") "low"
                                          None (Sample.world 1700000000)))).
Proof.
  apply (gtts_emotion_blind (Sample.env "gtts" 200) "I am happy!"
                            "happy" "high" "angry" "low" None
                            (Sample.world 1700000000)).
  - discriminate.
  - discriminate.
  - reflexivity.
Defined.

End BackendMore.

(** ** The dispatcher *)

Module DispatchMore.

Import VoiceModulator Spec.

(** [generate_speech] on an output file whose directory cannot be made:
    the two lines of log, the attempt, and the exception of [os.makedirs]. *)
Lemma generate_speech_fails env text emotion intensity path t :
  creatable env (Some path) = false ->
  exists e,
    (e = FileNotFoundError /\ Py.dirname path = ""
     \/ e = OSError /\ Py.dirname path <> "")
    /\ forall tr,
        generate_speech env text (Some emotion) intensity (Some path)
                        {| now := t; trace := tr |}
        = (Raise e,
           {| now := t;
              trace :=
                (tr ++
                 [Log INFO "Generating speech for emotion: , intensity: ";
                  Log INFO "Modifiers: rate=, pitch=, volume=";
                  MakeDirs (Py.dirname path)])%list |}).
Proof.
  destruct (DispatchFacts.modifiers_total emotion intensity)
    as (rate & pitch & volume & Hmods).
  unfold generate_speech, creatable, dir_ok. rewrite Hmods.
  destruct (Py.is_empty path) eqn:Hp; [discriminate | ]. cbn [orb negb].
  destruct (Py.dirname path) as [ | c d] eqn:Hd; cbn [Py.is_empty negb andb].
  - intros _. exists FileNotFoundError. split; [left; auto | ].
    intros tr. run. rewrite <- !app_assoc. reflexivity.
  - intros Hmk. exists OSError.
    split; [right; split; [reflexivity | discriminate] | ].
    intros tr. run. rewrite Hmk. rewrite <- !app_assoc. reflexivity.
Qed.


End DispatchMore.

(** ** Construction, voice selection and the command line *)

(** One step of a run in the monad [H]. *)
Ltac hrun :=
  cbv beta iota zeta
      delta [Host.hbind Host.hret Host.hraise Host.htry Host.happen Host.hlog
             Host.print Host.any_exception Host.connect Host.load_pipeline
             Host.pyttsx3_init Host.get_property Host.set_voice_property
             HostNotions.after];
  cbn [Host.clock Host.happened].

Module ConstructorFacts.

Import EmotionDetector VoiceModulator EmpathyEngine Spec Host HostNotions.

Lemma after_nil hw : after hw [] = hw.
Proof. destruct hw. unfold after. cbn. now rewrite app_nil_r. Qed.

Lemma after_after hw evs1 evs2 :
  after (after hw evs1) evs2 = after hw (evs1 ++ evs2).
Proof. unfold after. cbn. now rewrite app_assoc. Qed.

(** The constructor of the detector returns from every world, with the same
    detector and the same events, none of them on a text. *)
Lemma detector_init_returns h use_advanced :
  exists d evs,
    (forall hw, detector_init h use_advanced hw = (HRet d, after hw evs))
    /\ existsb works_on_text evs = false
    /\ (detector_use_advanced d = true
        <-> use_advanced = true /\ connect_answer h = None
            /\ exists model, pipeline_answer h = inr model)
    /\ (detector_use_advanced d = true
        <-> exists model, detector_classifier d = Some model)
    /\ (use_advanced = false -> evs = []).
Proof.
  unfold detector_init.
  destruct use_advanced.
  - destruct (connect_answer h) as [e | ] eqn:Hc.
    + destruct (is_os_error e) eqn:He;
        eexists _, _; (split; [intros hw; hrun; rewrite Hc; hrun; rewrite ?He;
                               hrun; rewrite <- ?app_assoc; reflexivity | ]);
        (split; [reflexivity | ]); cbn;
        (split; [ | split]); try discriminate;
        split; try discriminate; intros H; decompose record H; discriminate.
    + destruct (pipeline_answer h) as [e | model] eqn:Hp.
      * destruct (is_os_error e) eqn:He;
          eexists _, _; (split; [intros hw; hrun; rewrite Hc; hrun; rewrite Hp;
                                 hrun; rewrite ?He;
                                 hrun; rewrite <- ?app_assoc; reflexivity | ]);
          (split; [reflexivity | ]); cbn;
          (split; [ | split]); try discriminate;
          split; try discriminate; intros H; decompose record H; discriminate.
      * eexists _, _; (split; [intros hw; hrun; rewrite Hc; hrun; rewrite Hp;
                               hrun; rewrite <- ?app_assoc; reflexivity | ]).
        split; [reflexivity | ]. cbn.
        split; [ | split]; try discriminate; split; eauto.
  - eexists _, []. split; [intros hw; rewrite after_nil; reflexivity | ].
    split; [reflexivity | ]. cbn.
    split; [ | split]; try reflexivity;
      split; try discriminate; intros H; decompose record H; discriminate.
Qed.

(** The constructor of the modulator: the same outcome and the same events
    from every world. *)
Lemma modulator_init_frame h engine_type :
  exists o evs,
    (forall hw, modulator_init h engine_type hw = (o, after hw evs))
    /\ existsb works_on_text evs = false
    /\ match o with
       | HRaise e =>
           e = ValueError /\ engine_type = "elevenlabs"
           /\ key_missing h = true
       | HRet m =>
           ~ (engine_type = "elevenlabs" /\ key_missing h = true)
           /\ (modulator_engine_type m = engine_type
               \/ engine_type = "pyttsx3" /\ modulator_engine_type m = "gtts")
           /\ (modulator_engine_type m = "pyttsx3"
               <-> engine_type = "pyttsx3"
                   /\ exists engine,
                       pyttsx3_answer h = Some engine
                       /\ speaker_ready engine = true)
           /\ (modulator_engine_type m = "pyttsx3" ->
               exists engine rate volume,
                 modulator_engine m = Some engine
                 /\ pyttsx3_answer h = Some engine
                 /\ speaker_rate engine = Some rate
                 /\ speaker_volume engine = Some volume
                 /\ modulator_defaults m = Some (rate, volume))
           /\ modulator_api_key m = getenv h "ELEVENLABS_API_KEY"
       end.
Proof.
  unfold modulator_init, key_missing.
  destruct (String.eqb_spec engine_type "elevenlabs") as [-> | Hne].
  - destruct (Py.truthy (getenv h "ELEVENLABS_API_KEY")) eqn:Hkey;
      cbn [andb negb String.eqb Ascii.eqb Bool.eqb].
    + eexists _, []. split; [intros hw; rewrite after_nil; reflexivity | ].
      split; [reflexivity | ]. cbn [modulator_engine_type modulator_api_key].
      split; [intros [_ H]; discriminate H | ].
      split; [left; reflexivity | ].
      split; [split; [discriminate | intros [H _]; discriminate H] | ].
      split; [discriminate | reflexivity].
    + eexists _, _. split; [intros hw; hrun; reflexivity | ].
      split; [reflexivity | ]. auto.
  - cbn [andb].
    destruct (String.eqb_spec engine_type "pyttsx3") as [-> | Hne2].
    + hrun. unfold speaker_ready.
      destruct (pyttsx3_answer h) as [engine | ] eqn:Hinit;
        [destruct (speaker_voices engine) as [[ | voice voices] | ] eqn:Hv;
         try destruct (speaker_accepts engine (voice_id voice)) eqn:Ha;
         destruct (speaker_rate engine) as [rate | ] eqn:Hr;
         try destruct (speaker_volume engine) as [volume | ] eqn:Hvol | ];
        hrun;
        (eexists _, _; split;
         [intros hw; rewrite <- ?app_assoc; reflexivity | ]);
        (split; [reflexivity | ]);
        cbn [modulator_engine_type modulator_api_key modulator_engine
             modulator_defaults];
        (split; [intros [H _]; discriminate H | ]);
        (split; [first [left; reflexivity | right; split; reflexivity] | ]);
        (split; [split;
                 [intros H;
                  first [discriminate H
                        | split; [reflexivity | ];
                          eexists; split; [reflexivity | ];
                          rewrite ?Hv, ?Ha, ?Hr, ?Hvol; reflexivity]
                 | intros [_ (engine' & He & Hready)];
                   first [discriminate He
                         | injection He as <-;
                           rewrite ?Hv, ?Ha, ?Hr, ?Hvol in Hready;
                           first [discriminate Hready | reflexivity]]]
                | ]);
        (split; [intros H; first [discriminate H | eauto 10]
                | reflexivity]).
    + eexists _, []. split; [intros hw; rewrite after_nil; reflexivity | ].
      split; [reflexivity | ].
      cbn [modulator_engine_type modulator_api_key].
      split; [intros [H _]; contradiction | ].
      split; [left; reflexivity | ].
      split; [split; [contradiction | intros [H _]; contradiction] | ].
      split; [contradiction | reflexivity].
Qed.

(** X14.  [EmotionDetector.__init__] never raises.  The detector it builds
    uses the model exactly when the model was asked for, the network probe
    connected and the pipeline loaded, and exactly then it holds a model;
    asked for the lexical strategy it touches nothing outside. *)
Theorem detector_init_loads h use_advanced hw :
  exists d evs,
    detector_init h use_advanced hw = (HRet d, after hw evs)
    /\ (detector_use_advanced d = true
        <-> use_advanced = true /\ connect_answer h = None
            /\ exists model, pipeline_answer h = inr model)
    /\ (detector_use_advanced d = true
        <-> exists model, detector_classifier d = Some model)
    /\ (use_advanced = false -> evs = []).
Proof.
  destruct (detector_init_returns h use_advanced)
    as (d & evs & Hrun & _ & Hadv & Hmodel & Hquiet).
  exists d, evs. split; [apply Hrun | ]. auto.
Qed.

(** X15.  [VoiceModulator.__init__] raises exactly for the engine
    "elevenlabs" without a (non-empty) API key, and then [ValueError].
    Otherwise the modulator keeps the engine asked for, except that
    "pyttsx3" becomes "gtts" exactly when the pyttsx3 engine fails to start
    or to answer; a modulator of type "pyttsx3" holds its engine and the
    default rate and volume read from it. *)
Theorem modulator_init_outcome h engine_type hw :
  (fst (modulator_init h engine_type hw) = HRaise ValueError
   <-> engine_type = "elevenlabs" /\ key_missing h = true)
  /\ (forall e,
         fst (modulator_init h engine_type hw) = HRaise e -> e = ValueError)
  /\ forall m,
      fst (modulator_init h engine_type hw) = HRet m ->
      (modulator_engine_type m = engine_type
       \/ engine_type = "pyttsx3" /\ modulator_engine_type m = "gtts")
      /\ (modulator_engine_type m = "pyttsx3"
          <-> engine_type = "pyttsx3"
              /\ exists engine,
                  pyttsx3_answer h = Some engine
                  /\ speaker_ready engine = true)
      /\ (modulator_engine_type m = "pyttsx3" ->
          exists engine rate volume,
            modulator_engine m = Some engine
            /\ pyttsx3_answer h = Some engine
            /\ speaker_rate engine = Some rate
            /\ speaker_volume engine = Some volume
            /\ modulator_defaults m = Some (rate, volume)).
Proof.
  destruct (modulator_init_frame h engine_type)
    as (o & evs & Hrun & _ & Ho).
  rewrite Hrun. cbn [fst].
  destruct o as [m | e].
  - destruct Ho as (Hkey & Htype & Hready & Hengine & _).
    split; [split; [discriminate | intros H; contradiction] | ].
    split; [discriminate | ].
    intros m' Hm. injection Hm as <-. auto.
  - destruct Ho as (-> & Htype & Hkey).
    split; [split; [auto | reflexivity] | ].
    split; [intros e H; injection H as <-; reflexivity | discriminate].
Qed.

End ConstructorFacts.

Module VoiceFacts.

Import Host HostNotions ConstructorFacts.

Lemma prefix_app sub s :
  prefix sub s = true <-> exists rest, s = sub ++ rest.
Proof.
  revert s. induction sub as [ | a sub IH]; intros s.
  - destruct s; cbn; split; eauto.
  - destruct s as [ | b s]; cbn [prefix].
    + split; [discriminate | intros [rest H]; discriminate H].
    + destruct (ascii_dec a b) as [<- | Hne].
      * rewrite IH. split; intros [rest H]; exists rest.
        -- cbn. now rewrite H.
        -- cbn in H. now injection H.
      * split; [discriminate | ].
        intros [rest H]. cbn in H. injection H as H _. congruence.
Qed.

(** [str_in] is the substring test. *)
Lemma str_in_contains sub s : str_in sub s = true <-> Spec.contains sub s.
Proof.
  unfold Spec.contains. induction s as [ | c s IH]; cbn [str_in].
  - split.
    + destruct sub; [ | discriminate]. intros _. exists "", "". reflexivity.
    + intros (before & after & H).
      destruct before; [ | discriminate H].
      destruct sub; [reflexivity | discriminate H].
  - rewrite orb_true_iff, IH, prefix_app. split.
    + intros [[rest H] | (before & after & H)].
      * exists "", rest. exact H.
      * exists (String c before), after. cbn. now rewrite H.
    + intros (before & after & H).
      destruct before as [ | b before].
      * left. exists after. exact H.
      * right. cbn in H. injection H as _ H. eauto.
Qed.

(** The loop finds the first voice with a female name, if there is one. *)
Lemma find_female_first voices idx :
  (find_female idx voices = (-1)%Z
   /\ forall v, In v voices -> female_name (voice_name v) = false)
  \/ exists i v,
      find_female idx voices = Z.of_nat (idx + i)
      /\ nth_error voices i = Some v
      /\ female_name (voice_name v) = true
      /\ forall j v', (j < i)%nat -> nth_error voices j = Some v' ->
                      female_name (voice_name v') = false.
Proof.
  revert idx. induction voices as [ | voice voices IH]; intros idx.
  - left. split; [reflexivity | intros v []].
  - cbn [find_female].
    destruct (female_name (voice_name voice)) eqn:Hf.
    + right. exists 0%nat, voice. rewrite Nat.add_0_r.
      repeat split; try assumption. intros j v' Hj. lia.
    + destruct (IH (S idx)) as [[Hnone Hall] | (i & v & Hi & Hnth & Hv & Hmin)].
      * left. split; [exact Hnone | ].
        intros v [<- | Hin]; [exact Hf | apply Hall, Hin].
      * right. exists (S i), v. split; [rewrite Hi; f_equal; lia | ].
        split; [exact Hnth | ]. split; [exact Hv | ].
        intros [ | j] v' Hj Hnth'.
        -- injection Hnth' as <-. exact Hf.
        -- apply (Hmin j v'); [lia | exact Hnth'].
Qed.

(** What [voice_index] settles on. *)
Lemma voice_index_cases gender voices :
  voices <> [] ->
  (Py.lower gender = "male" /\ voice_index gender voices = 0%nat)
  \/ (Py.lower gender <> "male"
      /\ ((List.length voices = 1%nat /\ voice_index gender voices = 0%nat)
          \/ ((1 < List.length voices)%nat
              /\ voice_index gender voices = 1%nat
              /\ forall v, In v voices -> female_name (voice_name v) = false)
          \/ ((1 < List.length voices)%nat
              /\ exists v,
                  nth_error voices (voice_index gender voices) = Some v
                  /\ female_name (voice_name v) = true
                  /\ forall j v', (j < voice_index gender voices)%nat ->
                                  nth_error voices j = Some v' ->
                                  female_name (voice_name v') = false))).
Proof.
  intros Hne. unfold voice_index.
  assert (0 < List.length voices)%nat as Hlen.
  { destruct voices; [contradiction | cbn; lia]. }
  destruct (String.eqb_spec (Py.lower gender) "male") as [Hm | Hm].
  - left. split; [exact Hm | ].
    destruct (Nat.leb_spec (List.length voices) 0); [lia | reflexivity].
  - right. split; [exact Hm | ].
    destruct (Nat.ltb_spec 1 (List.length voices)) as [Hlt | Hle].
    + right.
      destruct (find_female_first voices 0)
        as [[Hnone Hall] | (i & v & Hi & Hnth & Hv & Hmin)].
      * left. rewrite Hnone. cbn [Z.leb Z.compare].
        destruct (Nat.leb_spec (List.length voices) 1); [lia | ].
        auto.
      * right. split; [exact Hlt | ]. rewrite Hi. cbn [Nat.add].
        destruct (Z.leb_spec 0 (Z.of_nat i)); [ | lia].
        rewrite Nat2Z.id.
        assert (i < List.length voices)%nat as Hi'.
        { apply nth_error_Some. rewrite Hnth. discriminate. }
        destruct (Nat.leb_spec (List.length voices) i); [lia | ].
        exists v. auto.
    + left. split; [lia | ].
      destruct (Nat.leb_spec (List.length voices) 0); [lia | reflexivity].
Qed.

Lemma voice_index_bound gender voices :
  voices <> [] -> (voice_index gender voices < List.length voices)%nat.
Proof.
  intros Hne.
  destruct (voice_index_cases gender voices Hne)
    as [[_ ->] | [_ [[Hl ->] | [(Hl & -> & _) | (Hl & v & Hnth & _)]]]];
    try lia.
  - destruct voices; [contradiction | cbn; lia].
  - apply nth_error_Some. rewrite Hnth. discriminate.
Qed.

Lemma log_voices_frame voices :
  forall hw,
    log_voices voices hw
    = (HRet tt,
       after hw (map (fun _ => Run (Log INFO "Voice :  - ")) voices)).
Proof.
  induction voices as [ | v voices IH]; intros hw; cbn [log_voices map].
  - rewrite after_nil. reflexivity.
  - hrun. rewrite IH. unfold after. cbn [clock happened].
    rewrite <- app_assoc. reflexivity.
Qed.

Lemma quiet_logs {A} (l : list A) msg :
  existsb works_on_text (map (fun _ => Run (Log INFO msg)) l) = false.
Proof. induction l; [reflexivity | exact IHl]. Qed.

(** [set_voice] returns from every world, with the same answer and the same
    events. *)
Lemma set_voice_frame m gender :
  exists ok evs,
    (forall hw, set_voice m gender hw = (HRet ok, after hw evs))
    /\ existsb works_on_text evs = false
    /\ (ok = true
        <-> exists engine voices voice,
            modulator_engine_type m = "pyttsx3"
            /\ modulator_engine m = Some engine
            /\ speaker_voices engine = Some voices
            /\ nth_error voices (voice_index gender voices) = Some voice
            /\ speaker_accepts engine (voice_id voice) = true)
    /\ forall id,
        In (SetVoice id) evs ->
        exists engine voices voice,
          modulator_engine m = Some engine
          /\ speaker_voices engine = Some voices
          /\ nth_error voices (voice_index gender voices) = Some voice
          /\ id = voice_id voice.
Proof.
  unfold set_voice.
  destruct (String.eqb_spec (modulator_engine_type m) "pyttsx3")
    as [Htype | Htype]; cbn [negb].
  2:{ eexists _, _. split; [intros hw; hrun; reflexivity | ].
      split; [reflexivity | ]. split.
      - split; [discriminate | ].
        intros (engine & voices & voice & H & _). contradiction.
      - intros id [H | []]. discriminate H. }
  destruct (modulator_engine m) as [engine | ] eqn:He.
  2:{ eexists _, _. split; [intros hw; hrun; reflexivity | ].
      split; [reflexivity | ]. split.
      - split; [discriminate | ].
        intros (engine & voices & voice & _ & H & _). discriminate H.
      - intros id [H | []]. discriminate H. }
  destruct (speaker_voices engine) as [voices | ] eqn:Hv.
  2:{ eexists _, _.
      split; [intros hw; hrun; rewrite Hv; hrun; reflexivity | ].
      split; [reflexivity | ]. split.
      - split; [discriminate | ].
        intros (engine' & voices & voice & _ & H1 & H2 & _).
        injection H1 as <-. rewrite Hv in H2. discriminate H2.
      - intros id [H | []]. discriminate H. }
  destruct voices as [ | v0 voices'] eqn:Hvs.
  { eexists _, _.
    split; [intros hw; hrun; rewrite Hv; hrun; reflexivity | ].
    split; [reflexivity | ]. split.
    - split; [discriminate | ].
      intros (engine' & vs & voice & _ & H1 & H2 & H3 & _).
      injection H1 as <-. rewrite Hv in H2. injection H2 as <-.
      destruct (voice_index gender []); discriminate H3.
    - intros id [H | []]. discriminate H. }
  rewrite <- Hvs in *.
  assert (voices <> []) as Hne by (rewrite Hvs; discriminate).
  assert (no_voices voices = false) as Hno by (rewrite Hvs; reflexivity).
  pose proof (voice_index_bound gender voices Hne) as Hbound.
  destruct (nth_error voices (voice_index gender voices)) as [voice | ]
    eqn:Hnth;
    [ | apply nth_error_None in Hnth; lia].
  destruct (speaker_accepts engine (voice_id voice)) eqn:Ha.
  - eexists _, _. split.
    { intros hw. hrun. rewrite Hv. hrun. rewrite Hno.
      rewrite log_voices_frame. hrun. rewrite Hnth. hrun. rewrite Ha. hrun.
      rewrite <- !app_assoc. reflexivity. }
    split.
    { rewrite !existsb_app, quiet_logs. reflexivity. }
    split.
    + split; [intros _; eauto 10 | reflexivity].
    + intros id Hin. exists engine, voices, voice.
      repeat split; try assumption.
      repeat match goal with
             | H : In _ (_ ++ _) |- _ =>
                 apply in_app_or in H; destruct H as [H | H]
             | H : In _ (map _ _) |- _ =>
                 apply in_map_iff in H; destruct H as (? & H & _)
             | H : In _ (_ :: _) |- _ => destruct H as [H | H]
             | H : In _ [] |- _ => destruct H
             end; try discriminate.
      injection Hin as <-. reflexivity.
  - eexists _, _. split.
    { intros hw. hrun. rewrite Hv. hrun. rewrite Hno.
      rewrite log_voices_frame. hrun. rewrite Hnth. hrun. rewrite Ha. hrun.
      rewrite <- !app_assoc. reflexivity. }
    split.
    { rewrite !existsb_app, quiet_logs. reflexivity. }
    split.
    + split; [discriminate | ].
      intros (engine' & voices1 & voice1 & _ & H1 & H2 & H3 & H4).
      injection H1 as <-. rewrite Hv in H2. injection H2 as <-.
      rewrite Hnth in H3. injection H3 as <-. congruence.
    + intros id Hin. exists engine, voices, voice.
      repeat split; try assumption.
      repeat match goal with
             | H : In _ (_ ++ _) |- _ =>
                 apply in_app_or in H; destruct H as [H | H]
             | H : In _ (map _ _) |- _ =>
                 apply in_map_iff in H; destruct H as (? & H & _)
             | H : In _ (_ :: _) |- _ => destruct H as [H | H]
             | H : In _ [] |- _ => destruct H
             end; try discriminate.
      injection Hin as <-. reflexivity.
Qed.

(** X16.  The voice [set_voice] settles on.  Its index is always within
    the list, so the safety check never changes it.  "male", in any case of
    letters, gets the first voice.  Any other word gets the only voice when
    there is one voice; otherwise the first voice whose name holds "zira",
    "female" or "woman" (letter case ignored), and the second voice when no
    name does. *)
Theorem voice_index_choice gender voices :
  voices <> [] ->
  (voice_index gender voices < List.length voices)%nat
  /\ ((Py.lower gender = "male" /\ voice_index gender voices = 0%nat)
      \/ (Py.lower gender <> "male"
          /\ ((List.length voices = 1%nat
               /\ voice_index gender voices = 0%nat)
              \/ ((1 < List.length voices)%nat
                  /\ voice_index gender voices = 1%nat
                  /\ forall v,
                      In v voices -> female_name (voice_name v) = false)
              \/ ((1 < List.length voices)%nat
                  /\ exists v,
                      nth_error voices (voice_index gender voices) = Some v
                      /\ female_name (voice_name v) = true
                      /\ forall j v',
                          (j < voice_index gender voices)%nat ->
                          nth_error voices j = Some v' ->
                          female_name (voice_name v') = false)))).
Proof.
  intros Hne. split.
  - apply voice_index_bound, Hne.
  - apply voice_index_cases, Hne.
Qed.

(** Of David, Hazel and Zira, "female" gets Zira, the third. *)
Lemma voice_index_choice_witness :
  [HostSample.david; HostSample.hazel; HostSample.zira] <> []
  /\ voice_index "female"
                 [HostSample.david; HostSample.hazel; HostSample.zira]
     = 2%nat
  /\ (voice_index "female"
                  [HostSample.david; HostSample.hazel; HostSample.zira]
      < 3)%nat.
Proof.
  split; [discriminate | ]. split; [reflexivity | ].
  apply (voice_index_choice
           "female" [HostSample.david; HostSample.hazel; HostSample.zira]).
  discriminate.
Defined.

(** X17.  [set_voice] never raises.  It returns [True] exactly when the
    engine is of type "pyttsx3", lists at least one voice and accepts the
    voice chosen; the only voice it ever sets is the chosen one. *)
Theorem set_voice_outcome m gender hw :
  exists ok evs,
    set_voice m gender hw = (HRet ok, after hw evs)
    /\ (ok = true
        <-> exists engine voices voice,
            modulator_engine_type m = "pyttsx3"
            /\ modulator_engine m = Some engine
            /\ speaker_voices engine = Some voices
            /\ nth_error voices (voice_index gender voices) = Some voice
            /\ speaker_accepts engine (voice_id voice) = true)
    /\ forall id,
        In (SetVoice id) evs ->
        exists engine voices voice,
          modulator_engine m = Some engine
          /\ speaker_voices engine = Some voices
          /\ nth_error voices (voice_index gender voices) = Some voice
          /\ id = voice_id voice.
Proof.
  destruct (set_voice_frame m gender) as (ok & evs & Hrun & _ & Hok & Hset).
  exists ok, evs. split; [apply Hrun | ]. auto.
Qed.

End VoiceFacts.

Module CliFacts.

Import EmotionDetector VoiceModulator EmpathyEngine Spec.
Import Host HostNotions ConstructorFacts VoiceFacts.

(** The constructor of the engine: the same outcome and the same events from
    every world.  It raises only for the premium engine without its key. *)
Lemma engine_init_frame h use_advanced tts_engine :
  exists o evs,
    (forall hw,
        engine_init h use_advanced tts_engine hw = (o, after hw evs))
    /\ existsb works_on_text evs = false
    /\ match o with
       | HRaise e =>
           e = ValueError /\ tts_engine = "elevenlabs"
           /\ key_missing h = true
       | HRet engine =>
           ~ (tts_engine = "elevenlabs" /\ key_missing h = true)
       end.
Proof.
  destruct (detector_init_returns h use_advanced)
    as (d & devs & Hd & Hdq & _).
  destruct (modulator_init_frame h tts_engine)
    as (o & mevs & Hm & Hmq & Ho).
  unfold engine_init.
  destruct o as [m | e].
  - eexists (HRet _), _. split.
    { intros hw. hrun. rewrite Hd, Hm. hrun. rewrite <- !app_assoc.
      reflexivity. }
    split; [ | apply Ho].
    rewrite !existsb_app, Hdq, Hmq. reflexivity.
  - eexists (HRaise _), _. split.
    { intros hw. hrun. rewrite Hd, Hm. hrun. rewrite <- !app_assoc.
      reflexivity. }
    split; [ | apply Ho].
    rewrite !existsb_app, Hdq, Hmq. reflexivity.
Qed.

(** On a standard output that takes every line, [print] records the
    line. *)
Lemma print_works h :
  stdout_works h -> forall l, print h l = happen (Print l).
Proof. intros Hout l. unfold print. rewrite (Hout l). reflexivity. Qed.

Lemma print_details_frame h details :
  stdout_works h ->
  forall hw,
    print_details h details hw
    = (HRet tt, after hw (map (fun kv => Print (DetailLine (fst kv))) details)).
Proof.
  intros Hout.
  induction details as [ | [key value] details IH]; intros hw;
    cbn [print_details map fst].
  - rewrite after_nil. reflexivity.
  - rewrite (print_works h Hout). hrun. rewrite IH. unfold after.
    cbn [clock happened].
    rewrite <- app_assoc. reflexivity.
Qed.

(** The clock stands still during [process], and neither the outcome nor
    the events depend on the trace it starts from. *)
Lemma process_frame env text output_file t :
  exists o evs,
    (forall tr,
        process env text output_file {| now := t; trace := tr |}
        = (o, {| now := t; trace := tr ++ evs |}))
    /\ (creatable env output_file = false -> exists e, o = Raise e).
Proof.
  destruct (EngineFacts.analyze_with_intensity_frame env text)
    as (result & evs & Hframe).
  unfold process.
  destruct (label result) as [emotion | ] eqn:Hlabel.
  - destruct (creatable env output_file) eqn:Hc.
    + destruct (DispatchFacts.generate_speech_returns
                  env text emotion (intensity result) t)
        as (rate & pitch & volume & evs1 & evs2 & _ & Hrun).
      destruct (artifact (backend_works env t text rate pitch volume)
                         (speech_file env t (engine_ext env)))
        as [file | ] eqn:Hfile;
        [destruct (Py.truthy (Some file)) eqn:Ht | ];
        (eexists _, _; split; [ | discriminate]);
        intros tr; run; rewrite Hframe; run; rewrite Hlabel;
        rewrite (Hrun output_file _ Hc); run;
        rewrite ?Ht; cbn [Py.truthy]; run;
        rewrite <- !app_assoc; reflexivity.
    + destruct output_file as [path | ]; [ | discriminate Hc].
      destruct (DispatchMore.generate_speech_fails env text emotion
                                                   (intensity result)
                                      path t Hc) as (e & _ & Hrun).
      eexists _, _. split; [ | eauto].
      intros tr. run. rewrite Hframe. run. rewrite Hlabel, Hrun.
      rewrite <- !app_assoc. reflexivity.
  - eexists _, _. split; [ | eauto].
    intros tr. run. rewrite Hframe. run. rewrite Hlabel. cbn.
    rewrite <- !app_assoc. reflexivity.
Qed.

(** The run of [main] on a standard output that takes every line: it raises
    before its [try] block or returns an exit code. *)
Lemma main_run h args hw :
  stdout_works h ->
  (output_dir_fails h args = true
   /\ exists e,
       main h args hw
       = (HRaise (Core e), after hw (output_dir_events h args))
       /\ (e = FileNotFoundError \/ e = OSError))
  \/ (output_dir_fails h args = false
      /\ exists code evs,
          main h args hw
          = (HRet code, after hw (output_dir_events h args ++ evs))
          /\ (code = 0%Z \/ code = 1%Z)
          /\ (code = 0%Z
              <-> exists engine audio result,
                  fst (engine_init h (negb (args_basic_emotions args))
                                   (args_engine args) hw)
                  = HRet engine
                  /\ fst (process (env_of h engine) (args_text args)
                                  (args_output args)
                                  {| now := clock hw; trace := [] |})
                     = Ret (audio, result)
                  /\ Py.truthy audio = true)
          /\ (forall e,
                 fst (engine_init h (negb (args_basic_emotions args))
                                  (args_engine args) hw)
                 = HRaise e ->
                 existsb works_on_text evs = false)).
Proof.
  destruct (engine_init_frame h (negb (args_basic_emotions args))
                              (args_engine args))
    as (o & ievs & Hinit & Hiq & Ho).
  intros Hout.
  rewrite (Hinit hw). cbn [fst].
  unfold main. rewrite !(print_works h Hout).
  match goal with
  | |- context [hbind _ (fun _ => ?b)] => set (body := b)
  end.
  assert (forall evs0,
             exists code evs,
               body (after hw evs0) = (HRet code, after hw (evs0 ++ evs))
               /\ (code = 0%Z \/ code = 1%Z)
               /\ (code = 0%Z
                   <-> exists engine audio result,
                       o = HRet engine
                       /\ fst (process (env_of h engine) (args_text args)
                                       (args_output args)
                                       {| now := clock hw; trace := [] |})
                          = Ret (audio, result)
                       /\ Py.truthy audio = true)
               /\ (forall e, o = HRaise e ->
                              existsb works_on_text evs = false))
    as Hbody.
  { intros evs0. subst body. hrun. rewrite Hinit.
    destruct o as [engine | e]; hrun.
    - unfold engine_set_voice.
      destruct (set_voice_frame (modulator engine) (args_voice args))
        as (ok & vevs & Hvoice & _).
      rewrite Hvoice. hrun. unfold engine_process, lift. cbn [clock].
      destruct (process_frame (env_of h engine) (args_text args)
                              (args_output args) (clock hw))
        as (po & pevs & Hp & _).
      assert (forall engine' audio result,
                 HRet engine = HRet engine' ->
                 fst (process (env_of h engine') (args_text args)
                              (args_output args)
                              {| now := clock hw; trace := [] |})
                 = Ret (audio, result) ->
                 po = Ret (audio, result)) as Hsame.
      { intros engine' audio result Heq. injection Heq as <-.
        rewrite Hp. exact (fun H => H). }
      rewrite Hp. cbn [now trace app].
      destruct po as [[audio result] | e].
      + destruct (Py.truthy audio) eqn:Ht; hrun.
        * rewrite (print_details_frame h _ Hout). hrun.
          exists 0%Z. eexists. split.
          { hrun. rewrite <- !app_assoc. reflexivity. }
          split; [left; reflexivity | ].
          split; [ | discriminate].
          split; [intros _ | reflexivity].
          exists engine, audio, result.
          split; [reflexivity | ]. rewrite Hp. split; [reflexivity | exact Ht].
        * exists 1%Z. eexists. split.
          { hrun. rewrite <- !app_assoc. reflexivity. }
          split; [right; reflexivity | ].
          split; [ | discriminate].
          split; [discriminate | ].
          intros (engine' & audio' & result' & H1 & H2 & H3).
          specialize (Hsame _ _ _ H1 H2). injection Hsame as <- <-.
          congruence.
      + exists 1%Z. eexists. split.
        { hrun. rewrite <- !app_assoc. reflexivity. }
        split; [right; reflexivity | ].
        split; [ | discriminate].
        split; [discriminate | ].
        intros (engine' & audio' & result' & H1 & H2 & H3).
        specialize (Hsame _ _ _ H1 H2). discriminate Hsame.
    - exists 1%Z. eexists. split.
      { hrun. rewrite <- !app_assoc. reflexivity. }
      split; [right; reflexivity | ].
      split.
      + split; [discriminate | ].
        intros (engine' & audio' & result' & H1 & _). discriminate H1.
      + intros ? _. rewrite existsb_app, Hiq. reflexivity. }
  clearbody body.
  unfold output_dir_fails, output_dir_events, dir_ok.
  destruct (args_output args) as [output | ].
  - destruct (Py.is_empty output); cbn [negb andb].
    + right. split; [reflexivity | ].
      destruct (Hbody []) as (code & evs & Hrun & Hrest).
      exists code, evs. split; [ | exact Hrest].
      hrun. rewrite after_nil in Hrun. exact Hrun.
    + unfold lift. run. cbn [clock].
      destruct (Py.is_empty (Py.dirname (abspath h output))); cbn [negb andb].
      * left. split; [reflexivity | ]. exists FileNotFoundError.
        split; [hrun; reflexivity | left; reflexivity].
      * destruct (makedirs_ok (outside h) (Py.dirname (abspath h output)));
          cbn [negb].
        -- right. split; [reflexivity | ].
           destruct (Hbody [Run (MakeDirs (Py.dirname (abspath h output)))])
             as (code & evs & Hrun & Hrest).
           exists code, evs. split; [ | exact Hrest].
           hrun. exact Hrun.
        -- left. split; [reflexivity | ]. exists OSError.
           split; [hrun; reflexivity | right; reflexivity].
  - right. split; [reflexivity | ].
    destruct (Hbody []) as (code & evs & Hrun & Hrest).
    exists code, evs. split; [ | exact Hrest].
    hrun. rewrite after_nil in Hrun. exact Hrun.
Qed.

(** On a standard output in ASCII, which has no code for the symbols of
    the lines, the run that would print its success raises instead: the
    first [print] raises inside the [try] block, and the [print] of the
    handler raises in turn, outside it. *)
Lemma main_raises_on_ascii_stdout :
  fst (main HostSample.ascii_host (HostSample.args "gtts" None)
            (HostSample.hworld 1700000000))
  = HRaise UnicodeEncodeError.
Proof. vm_compute. reflexivity. Qed.

(** X18.  Once the arguments are parsed (lines 76-124) and on a standard
    output that takes every line it prints, [main] lets an exception escape
    exactly when the directory of [--output] cannot be made, the one call
    that stands before its [try] block; every other run ends with exit code
    0 or 1. *)
Theorem main_raises_iff h args hw :
  stdout_works h ->
  ((exists e hw', main h args hw = (HRaise e, hw'))
   <-> output_dir_fails h args = true)
  /\ (output_dir_fails h args = false
      <-> fst (main h args hw) = HRet 0%Z
          \/ fst (main h args hw) = HRet 1%Z).
Proof.
  intros Hout.
  destruct (main_run h args hw Hout)
    as [(Hfails & e & Hrun & _)
       | (Hfails & code & evs & Hrun & Hcode & _)];
    rewrite Hrun, Hfails; cbn [fst].
  - split; split; try reflexivity; try discriminate.
    + intros _. eauto.
    + intros [H | H]; discriminate H.
  - split; split; try reflexivity; try discriminate.
    + intros (e & hw' & H). discriminate H.
    + intros _. destruct Hcode as [-> | ->]; auto.
Qed.

Lemma main_raises_iff_witness :
  ((exists e hw',
       main HostSample.host (HostSample.args "gtts" (Some "/"))
            (HostSample.hworld 1700000000) = (HRaise e, hw'))
   <-> output_dir_fails HostSample.host (HostSample.args "gtts" (Some "/"))
       = true)
  /\ (output_dir_fails HostSample.host (HostSample.args "gtts" (Some "/"))
      = false
      <-> fst (main HostSample.host (HostSample.args "gtts" (Some "/"))
                    (HostSample.hworld 1700000000)) = HRet 0%Z
          \/ fst (main HostSample.host (HostSample.args "gtts" (Some "/"))
                       (HostSample.hworld 1700000000)) = HRet 1%Z).
Proof.
  apply (main_raises_iff HostSample.host (HostSample.args "gtts" (Some "/"))
                         (HostSample.hworld 1700000000)).
  intros l. reflexivity.
Defined.

(** X19.  On a standard output that takes every line it prints, the exit
    code of [main] is 0 exactly when the directory of [--output] could be
    made, the constructor of the engine returned, and [process] returned an
    audio path that is not empty. *)
Theorem main_exit_zero_iff h args hw :
  stdout_works h ->
  fst (main h args hw) = HRet 0%Z
  <-> output_dir_fails h args = false
      /\ exists engine audio result,
          fst (engine_init h (negb (args_basic_emotions args))
                           (args_engine args) hw)
          = HRet engine
          /\ fst (process (env_of h engine) (args_text args)
                          (args_output args)
                          {| now := clock hw; trace := [] |})
             = Ret (audio, result)
          /\ Py.truthy audio = true.
Proof.
  intros Hout.
  destruct (main_run h args hw Hout)
    as [(Hfails & e & Hrun & _)
       | (Hfails & code & evs & Hrun & _ & Hzero & _)];
    rewrite Hrun, Hfails; cbn [fst].
  - split; [discriminate | intros [H _]; discriminate H].
  - split.
    + intros H. injection H as ->. split; [reflexivity | ].
      apply Hzero. reflexivity.
    + intros [_ H]. f_equal. apply Hzero, H.
Qed.

Lemma main_exit_zero_iff_witness :
  fst (main HostSample.host (HostSample.args "gtts" None)
            (HostSample.hworld 1700000000)) = HRet 0%Z
  <-> output_dir_fails HostSample.host (HostSample.args "gtts" None) = false
      /\ exists engine audio result,
          fst (engine_init HostSample.host
                           (negb (args_basic_emotions
                                    (HostSample.args "gtts" None)))
                           (args_engine (HostSample.args "gtts" None))
                           (HostSample.hworld 1700000000))
          = HRet engine
          /\ fst (process (env_of HostSample.host engine)
                          (args_text (HostSample.args "gtts" None))
                          (args_output (HostSample.args "gtts" None))
                          {| now := clock (HostSample.hworld 1700000000);
                             trace := [] |})
             = Ret (audio, result)
          /\ Py.truthy audio = true.
Proof.
  apply (main_exit_zero_iff HostSample.host (HostSample.args "gtts" None)
                            (HostSample.hworld 1700000000)).
  intros l. reflexivity.
Defined.

(** X20.  On a standard output that takes every line it prints, [main]
    with a bare file name for [--output] (no directory part) ends with exit
    code 1 whatever the engine and the text: the directory [main] makes is
    the one of the absolute path, but [generate_speech] asks for the
    directory of the name as given, which is empty. *)
Theorem main_bare_output_fails h args name hw :
  stdout_works h ->
  args_output args = Some name ->
  name <> "" ->
  Py.dirname name = "" ->
  output_dir_fails h args = false ->
  fst (main h args hw) = HRet 1%Z.
Proof.
  intros Hstdout Hout Hname Hdir Hmade.
  destruct (main_run h args hw Hstdout)
    as [(Hfails & _) | (_ & code & evs & Hrun & Hcode & Hzero & _)];
    [congruence | ].
  rewrite Hrun. cbn [fst].
  destruct Hcode as [-> | ->]; [ | reflexivity].
  destruct Hzero as [Hzero _].
  destruct (Hzero eq_refl) as (engine & audio & result & _ & Hp & _).
  destruct (process_frame (env_of h engine) (args_text args)
                          (args_output args) (clock hw))
    as (o & pevs & Hframe & Hraises).
  rewrite Hframe in Hp. cbn [fst] in Hp.
  destruct Hraises as [e He].
  - rewrite Hout. unfold creatable, dir_ok. rewrite Hdir.
    destruct name; [contradiction | reflexivity].
  - congruence.
Qed.

Lemma main_bare_output_fails_witness :
  fst (main HostSample.host (HostSample.args "gtts" (Some "out.wav"))
            (HostSample.hworld 1700000000))
  = HRet 1%Z.
Proof.
  apply (main_bare_output_fails
           HostSample.host (HostSample.args "gtts" (Some "out.wav"))
           "out.wav" (HostSample.hworld 1700000000)).
  - intros l. reflexivity.
  - reflexivity.
  - discriminate.
  - reflexivity.
  - reflexivity.
Defined.

(** X21.  On a standard output that takes every line it prints and when
    the directory of [--output], if any, can be made, [main] for the engine
    "elevenlabs" without API key ends with exit code 1 before any text is
    analysed and before any speech backend is called. *)
Theorem main_needs_api_key h args hw :
  stdout_works h ->
  args_engine args = "elevenlabs" ->
  key_missing h = true ->
  output_dir_fails h args = false ->
  exists evs,
    main h args hw = (HRet 1%Z, after hw evs)
    /\ existsb works_on_text evs = false.
Proof.
  intros Hout Hengine Hkey Hmade.
  destruct (engine_init_frame h (negb (args_basic_emotions args))
                              (args_engine args))
    as (o & ievs & Hinit & _ & Ho).
  destruct o as [engine | e]; [exfalso; apply Ho; auto | ].
  destruct (main_run h args hw Hout)
    as [(Hfails & _) | (_ & code & evs & Hrun & Hcode & Hzero & Hquiet)];
    [congruence | ].
  rewrite (Hinit hw) in Hzero, Hquiet. cbn [fst] in Hzero, Hquiet.
  exists (output_dir_events h args ++ evs)%list. split.
  - rewrite Hrun. f_equal. f_equal.
    destruct Hcode as [-> | ->]; [ | reflexivity].
    destruct Hzero as [Hzero _].
    destruct (Hzero eq_refl) as (engine & _ & _ & H & _). discriminate H.
  - rewrite existsb_app, (Hquiet e eq_refl), orb_false_r.
    unfold output_dir_events.
    destruct (args_output args) as [output | ]; [ | reflexivity].
    destruct (Py.is_empty output); reflexivity.
Qed.

Lemma main_needs_api_key_witness :
  exists evs,
    main HostSample.host (HostSample.args "elevenlabs" None)
         (HostSample.hworld 1700000000)
    = (HRet 1%Z, after (HostSample.hworld 1700000000) evs)
    /\ existsb works_on_text evs = false.
Proof.
  apply (main_needs_api_key
           HostSample.host (HostSample.args "elevenlabs" None)
           (HostSample.hworld 1700000000));
    [intros l | | | ]; reflexivity.
Defined.

End CliFacts.


(** ** The web interface *)

(** One step of a run in the monad [W]. *)
Ltac wrun :=
  repeat (progress
            (cbv beta iota zeta
                 delta [Web.wbind Web.wret Web.wraise Web.wtry Web.run Web.wlog
                        Web.get_engine Web.set_engine Web.set_environ
                        Web.wtime Web.get_host Web.new_engine Web.with_engine
                        WebNotions.server_after andb negb orb];
             cbn [Web.engine_var Web.host Web.hworld];
             hrun)).

Ltac hrun_in H :=
  cbv beta iota zeta
      delta [Host.hbind Host.hret Host.hraise Host.htry Host.happen Host.hlog
             Host.print Host.any_exception Host.connect Host.load_pipeline
             Host.pyttsx3_init Host.get_property Host.set_voice_property
             HostNotions.after] in H;
  cbn [Host.clock Host.happened] in H.

Module WebFacts.

Import EmotionDetector VoiceModulator EmpathyEngine Spec.
Import Host HostNotions ConstructorFacts VoiceFacts CliFacts Web WebNotions.

Lemma outside_setenv h name value : outside (setenv h name value) = outside h.
Proof. reflexivity. Qed.

(** With the key of the form in the environment the constructor returns. *)
Lemma engine_init_with_key h tts_engine api_key :
  (tts_engine = "elevenlabs" -> Py.is_empty api_key = false) ->
  exists engine evs,
    (forall hw,
        engine_init (host_after h tts_engine api_key) false tts_engine hw
        = (HRet engine, after hw evs))
    /\ existsb works_on_text evs = false.
Proof.
  intros Hkey.
  destruct (engine_init_frame (host_after h tts_engine api_key) false
                              tts_engine)
    as (o & evs & Hrun & Hquiet & Ho).
  destruct o as [engine | e].
  - exists engine, evs. auto.
  - exfalso. destruct Ho as (_ & -> & Hmissing).
    unfold host_after, key_missing, setenv in Hmissing.
    cbn in Hmissing. rewrite (Hkey eq_refl) in Hmissing. discriminate.
Qed.

(** What the handler does once the engine is chosen. *)
Ltac serve engine h :=
  let ok := fresh "ok" in
  let vevs := fresh "vevs" in
  let Hvoice := fresh "Hvoice" in
  let po := fresh "po" in
  let pevs := fresh "pevs" in
  let Hp := fresh "Hp" in
  lazymatch goal with
  | |- context [engine_set_voice engine ?voice] =>
      destruct (set_voice_frame (modulator engine) voice)
        as (ok & vevs & Hvoice & _)
  end;
  lazymatch goal with
  | |- context [process (env_of h engine) ?text ?out
                        {| now := ?t; trace := [] |}] =>
      destruct (process_frame (env_of h engine) text out t)
        as (po & pevs & Hp & _)
  end;
  unfold engine_set_voice, engine_process, lift; wrun;
  rewrite ?Hvoice; wrun; rewrite !Hp; cbn [fst now trace app];
  unfold response_to;
  destruct po as [[[file | ] result] | e]; wrun;
  [ destruct (Py.is_empty file); destruct (path_exists (outside h) file);
    wrun
  | | ];
  (eexists; f_equal; f_equal; rewrite <- ?app_assoc; reflexivity).

(** The run of the handler on a request it does not turn down: the engine
    and the outside it ends with, and its response to what [process] did
    at the clock of the request. *)
Lemma process_text_run form s :
  turned_down form = false ->
  exists engine h,
    (if serves s (form_get (form_engine form) "pyttsx3")
     then engine_var s = Some engine /\ h = host s
     else h = host_after (host s) (form_get (form_engine form) "pyttsx3")
                         (form_get (form_api_key form) ""))
    /\ exists evs,
      process_text form s
      = (HRet (response_to
                 h engine (form_get (form_engine form) "pyttsx3")
                 (fst (process (env_of h engine)
                               (form_get (form_text form) "")
                               (Some (web_file h (clock (hworld s))))
                               {| now := clock (hworld s); trace := [] |}))),
         server_after s engine h evs).
Proof.
  unfold turned_down, process_text, serves, web_file.
  set (text := form_get (form_text form) "").
  set (voice := form_get (form_voice form) "male").
  set (tts_engine := form_get (form_engine form) "pyttsx3").
  set (api_key := form_get (form_api_key form) "").
  intros Hform. apply orb_false_iff in Hform. destruct Hform as [Htext Hkey].
  rewrite Htext, Hkey.
  destruct s as [current h hw]. cbn [engine_var host hworld].
  assert (tts_engine = "elevenlabs" -> Py.is_empty api_key = false) as Hgiven.
  { intros Heq. rewrite Heq in Hkey. exact Hkey. }
  destruct (engine_init_with_key h tts_engine api_key Hgiven)
    as (fresh_engine & ievs & Hinit & _).
  assert (exists engine evs,
             reinitialize tts_engine api_key false
                          {| engine_var := current; host := h; hworld := hw |}
             = (HRet None,
                {| engine_var := Some engine;
                   host := host_after h tts_engine api_key;
                   hworld := after hw evs |})) as Hnew.
  { unfold reinitialize, host_after in *.
    destruct (String.eqb tts_engine "elevenlabs") eqn:Heq.
    - apply String.eqb_eq in Heq. rewrite (Hgiven Heq). wrun.
      rewrite Hinit. wrun. eexists _, _. rewrite <- ?app_assoc. reflexivity.
    - wrun. rewrite Hinit. wrun. eexists _, _. reflexivity. }
  destruct Hnew as (engine1 & evs1 & Hnew).
  destruct current as [engine0 | ].
  - destruct (String.eqb (modulator_engine_type (modulator engine0))
                         tts_engine) eqn:Hserves; cbn [negb].
    + exists engine0, h. split; [auto | ].
      wrun. rewrite Hserves. wrun.
      serve engine0 h.
    + exists engine1, (host_after h tts_engine api_key).
      split; [reflexivity | ].
      wrun. rewrite Hserves. cbn [negb]. rewrite Hnew. wrun.
      serve engine1 (host_after h tts_engine api_key).
  - exists engine1, (host_after h tts_engine api_key).
    split; [reflexivity | ].
    wrun. rewrite Hnew. wrun.
    serve engine1 (host_after h tts_engine api_key).
Qed.

(** *** File names *)

Lemma count_app p a b :
  Py.count p (a ++ b) = (Py.count p a + Py.count p b)%nat.
Proof.
  induction a as [ | c a IH]; cbn; [reflexivity | ].
  rewrite IH. destruct (p c); reflexivity.
Qed.

Lemma basename_join d name :
  Py.count (Py.is_char "/") name = 0%nat ->
  basename (Py.path_join d name) = name.
Proof.
  intros Hname. unfold Py.path_join.
  induction d as [ | c d IH]; cbn [append basename].
  - rewrite Hname. reflexivity.
  - rewrite count_app. cbn [append Py.count].
    replace (Py.is_char "/" "/") with true by reflexivity.
    rewrite Nat.add_succ_r. cbn [Nat.eqb]. exact IH.
Qed.

Lemma digits_no_slash u :
  Py.count (Py.is_char "/") (NilEmpty.string_of_uint u) = 0%nat.
Proof.
  induction u as [ | u IH | u IH | u IH | u IH | u IH | u IH | u IH | u IH
                 | u IH | u IH];
    cbn [NilEmpty.string_of_uint Py.count]; [reflexivity | .. ]; exact IH.
Qed.

Lemma uint_no_slash u :
  Py.count (Py.is_char "/") (NilZero.string_of_uint u) = 0%nat.
Proof.
  unfold NilZero.string_of_uint.
  destruct u; [reflexivity | .. ]; apply digits_no_slash.
Qed.

Lemma str_no_slash z : Py.count (Py.is_char "/") (Py.str z) = 0%nat.
Proof.
  unfold Py.str, NilZero.string_of_int.
  destruct (Z.to_int z); cbn; apply uint_no_slash.
Qed.

(** The name of the file of a backend under [/audio/]. *)
Lemma basename_speech_file env t :
  basename (speech_file env t (engine_ext env))
  = "speech_" ++ Py.str (Py.int t) ++ engine_ext env.
Proof.
  unfold speech_file. apply basename_join.
  rewrite !count_app, str_no_slash. unfold engine_ext.
  destruct (String.eqb (engine_type env) "pyttsx3"); reflexivity.
Qed.

(** A path [process] returns is the time-stamped file of the engine. *)
Lemma process_path env text output_file w file result :
  fst (process env text output_file w) = Ret (Some file, result) ->
  file = speech_file env (now w) (engine_ext env).
Proof.
  destruct w as [t tr]. cbn [now].
  destruct (EngineFacts.analyze_with_intensity_frame env text)
    as (result0 & evs & Hframe).
  unfold process. run. rewrite Hframe. run.
  destruct (generate_speech env text (label result0) (intensity result0)
                            output_file _) as [[audio | e] w'] eqn:Hspeech;
    [ | discriminate].
  destruct (label result0) as [emotion | ]; [ | discriminate Hspeech].
  destruct (Py.truthy audio); run; intros H; injection H as -> _;
    exact (DispatchFacts.generate_speech_path
             env text emotion (intensity result0) output_file
             _ file (f_equal fst Hspeech)).
Qed.

(** *** The handler *)

(** X22.  The handler of [/api/process] never raises: it answers every
    request with status 200, 400 or 500.  The status is 400 exactly when
    the text is missing or empty, or the engine asked for is "elevenlabs"
    and the form holds no API key (a key in the environment does not
    count); such a request leaves the server as it was.  The status is 200
    exactly when the body reports success. *)
Theorem process_text_responds form s :
  exists r s',
    process_text form s = (HRet r, s')
    /\ (status r = 200%Z \/ status r = 400%Z \/ status r = 500%Z)
    /\ (status r = 400%Z <-> turned_down form = true)
    /\ (turned_down form = true -> s' = s)
    /\ (status r = 200%Z
        <-> exists url emotion intensity score details engine adv file,
            json r
            = Success url emotion intensity score details engine adv file).
Proof.
  destruct (turned_down form) eqn:Hdown.
  - unfold turned_down in Hdown. unfold process_text.
    destruct (Py.is_empty (form_get (form_text form) "")).
    + eexists _, _. split; [reflexivity | ]. cbn [status json].
      split; [auto | ]. split; [tauto | ]. split; [reflexivity | ].
      split; [discriminate | ].
      intros (? & ? & ? & ? & ? & ? & ? & ? & H). discriminate H.
    + cbn [orb] in Hdown. rewrite Hdown.
      eexists _, _. split; [reflexivity | ]. cbn [status json].
      split; [auto | ]. split; [tauto | ]. split; [reflexivity | ].
      split; [discriminate | ].
      intros (? & ? & ? & ? & ? & ? & ? & ? & H). discriminate H.
  - destruct (process_text_run form s Hdown)
      as (engine & h & _ & evs & Hrun).
    rewrite Hrun. eexists _, _. split; [reflexivity | ].
    unfold response_to.
    destruct (fst (process _ _ _ _)) as [[[file | ] result] | e];
      [destruct (negb (Py.is_empty file) && path_exists (outside h) file)%bool
      | | ];
      cbn [status json];
      (split; [auto | ]);
      (split; [split; discriminate | ]);
      (split; [discriminate | ]);
      (split;
       [ intros H; first [discriminate H | eauto 10]
       | first [reflexivity
               | intros (? & ? & ? & ? & ? & ? & ? & ? & H);
                 discriminate H] ]).
Qed.

(** X23.  When the handler reports success, the file it names is the
    time-stamped file of the engine the server now holds, which exists, and
    the URL is [/audio/] followed by the name of that file; it is never the
    [web_] name the handler made up for the request.  The engine reported
    is the one asked for. *)
Theorem process_text_audio form s r s' url emotion intensity score details
        engine adv file :
  process_text form s = (HRet r, s') ->
  json r = Success url emotion intensity score details engine adv file ->
  exists e,
    engine_var s' = Some e
    /\ file = speech_file (env_of (host s') e) (clock (hworld s))
                          (engine_ext (env_of (host s') e))
    /\ url = "/audio/speech_" ++ Py.str (Py.int (clock (hworld s)))
                              ++ engine_ext (env_of (host s') e)
    /\ path_exists (outside (host s')) file = true
    /\ file <> web_file (host s') (clock (hworld s))
    /\ engine = form_get (form_engine form) "pyttsx3"
    /\ adv = detector_use_advanced (detector e).
Proof.
  intros Hrun Hjson.
  destruct (turned_down form) eqn:Hdown.
  { exfalso. unfold turned_down in Hdown. unfold process_text in Hrun.
    destruct (Py.is_empty (form_get (form_text form) "")).
    - injection Hrun as <- _. discriminate Hjson.
    - cbn [orb] in Hdown. rewrite Hdown in Hrun.
      injection Hrun as <- _. discriminate Hjson. }
  destruct (process_text_run form s Hdown)
    as (e & h & _ & evs & Hrun').
  rewrite Hrun' in Hrun. injection Hrun as <- <-.
  cbn [server_after engine_var host].
  exists e. split; [reflexivity | ].
  unfold response_to in Hjson.
  destruct (fst (process _ _ _ _)) as [[[file0 | ] result] | exn] eqn:Hp;
    [ | discriminate Hjson | discriminate Hjson].
  destruct (Py.is_empty file0); [discriminate Hjson | ].
  destruct (path_exists (outside h) file0) eqn:Hexists;
    [ | discriminate Hjson].
  cbn [negb andb json] in Hjson. injection Hjson as <- _ _ _ _ <- <- <-.
  apply process_path in Hp. cbn [now] in Hp. subst file0.
  split; [reflexivity | ].
  split; [rewrite basename_speech_file; reflexivity | ].
  split; [exact Hexists | ].
  split; [ | auto].
  unfold speech_file, web_file, Py.path_join. cbn [env_of output_dir].
  intros Heq. apply StringFacts.append_inj_l in Heq.
  apply StringFacts.append_inj_l in Heq. discriminate Heq.
Qed.

Lemma process_text_audio_witness :
  exists e,
    engine_var (snd (process_text (WebSample.form "gtts" None)
                                  WebSample.server))
    = Some e
    /\ "/app/output/speech_1700000000.mp3"
       = speech_file
           (env_of (host (snd (process_text (WebSample.form "gtts" None)
                                            WebSample.server))) e)
           (clock (hworld WebSample.server))
           (engine_ext
              (env_of (host (snd (process_text (WebSample.form "gtts" None)
                                               WebSample.server))) e))
    /\ "/audio/speech_1700000000.mp3"
       = "/audio/speech_"
           ++ Py.str (Py.int (clock (hworld WebSample.server)))
           ++ engine_ext
                (env_of (host (snd (process_text (WebSample.form "gtts" None)
                                                 WebSample.server))) e)
    /\ path_exists
         (outside (host (snd (process_text (WebSample.form "gtts" None)
                                           WebSample.server))))
         "/app/output/speech_1700000000.mp3"
       = true
    /\ "/app/output/speech_1700000000.mp3"
       <> web_file (host (snd (process_text (WebSample.form "gtts" None)
                                            WebSample.server)))
                   (clock (hworld WebSample.server))
    /\ "gtts" = form_get (form_engine (WebSample.form "gtts" None)) "pyttsx3"
    /\ false = detector_use_advanced (detector e).
Proof.
  apply (process_text_audio
           (WebSample.form "gtts" None) WebSample.server
           {| json :=
                Success "/audio/speech_1700000000.mp3" (Some "happy") "high"
                        0.80
                        [("polarity", 0.50); ("subjectivity", 0.60);
                         ("exclamations", 1); ("questions", 0);
                         ("caps_ratio", 0.11)]
                        "gtts" false "/app/output/speech_1700000000.mp3";
              status := 200 |}
           (snd (process_text (WebSample.form "gtts" None) WebSample.server))
           "/audio/speech_1700000000.mp3" (Some "happy") "high" 0.80
           [("polarity", 0.50); ("subjectivity", 0.60);
            ("exclamations", 1); ("questions", 0); ("caps_ratio", 0.11)]
           "gtts" false "/app/output/speech_1700000000.mp3").
  - reflexivity.
  - reflexivity.
Defined.

(** X24.  A request for the engine type the server already holds never
    builds an engine and never writes to the environment: the server keeps
    its engine, and an API key sent with the request is ignored. *)
Theorem process_text_keeps_engine form s r s' :
  serves s (form_get (form_engine form) "pyttsx3") = true ->
  process_text form s = (HRet r, s') ->
  engine_var s' = engine_var s /\ host s' = host s.
Proof.
  intros Hserves Hrun.
  destruct (turned_down form) eqn:Hdown.
  { unfold turned_down in Hdown. unfold process_text in Hrun.
    destruct (Py.is_empty (form_get (form_text form) "")).
    - injection Hrun as _ <-. auto.
    - cbn [orb] in Hdown. rewrite Hdown in Hrun.
      injection Hrun as _ <-. auto. }
  destruct (process_text_run form s Hdown)
    as (e & h & Hkept & evs & Hrun').
  rewrite Hserves in Hkept. destruct Hkept as [Hengine ->].
  rewrite Hrun' in Hrun. injection Hrun as _ <-.
  cbn [server_after engine_var host]. auto.
Qed.

Lemma process_text_keeps_engine_witness :
  engine_var (snd (process_text
                     (WebSample.form "elevenlabs" (Some "second-key"))
                     WebSample.premium_server))
  = Some WebSample.premium_engine
  /\ getenv (host (snd (process_text
                          (WebSample.form "elevenlabs" (Some "second-key"))
                          WebSample.premium_server)))
            "ELEVENLABS_API_KEY"
     = Some "first-key".
Proof.
  destruct (process_text_keeps_engine
              (WebSample.form "elevenlabs" (Some "second-key"))
              WebSample.premium_server
              (match fst (process_text
                            (WebSample.form "elevenlabs" (Some "second-key"))
                            WebSample.premium_server) with
               | HRet r => r
               | HRaise _ => {| json := Failure (Text "none"); status := 0 |}
               end)
              (snd (process_text
                      (WebSample.form "elevenlabs" (Some "second-key"))
                      WebSample.premium_server))
              eq_refl eq_refl) as [Hengine Hhost].
  split; [exact Hengine | ]. rewrite Hhost. reflexivity.
Defined.

(** X25.  The hook that runs before every request never raises and leaves
    the server with an engine: the one it held, with the server untouched,
    or a new one with the lexical detector; the environment stays as it
    was. *)
Theorem ensure_engine_initialized_holds s :
  exists engine s',
    ensure_engine_initialized s = (HRet tt, s')
    /\ engine_var s' = Some engine
    /\ host s' = host s
    /\ (engine_var s <> None -> s' = s)
    /\ (engine_var s = None ->
        detector_use_advanced (detector engine) = false).
Proof.
  destruct s as [[engine | ] h hw]; unfold ensure_engine_initialized.
  - exists engine. eexists. wrun. split; [reflexivity | ].
    cbn [engine_var host]. repeat split. intros H. discriminate H.
  - destruct (engine_init_frame h false "pyttsx3")
      as (o & evs & Hinit & _ & Ho).
    destruct o as [engine | e];
      [ | destruct Ho as (_ & H & _); discriminate H].
    assert (detector_use_advanced (detector engine) = false) as Hlexical.
    { specialize (Hinit hw). unfold engine_init, detector_init in Hinit.
      hrun_in Hinit.
      destruct (modulator_init h "pyttsx3" _) as [[m | e] hw'];
        [ | discriminate Hinit].
      injection Hinit as <- _. reflexivity. }
    exists engine. eexists. unfold initialize_engine. wrun.
    rewrite Hinit. wrun. split; [reflexivity | ].
    cbn [engine_var host]. repeat split; auto. intros H. contradiction.
Qed.

End WebFacts.
